(** * mcp-nevent: the transport client and the tool dispatcher

    A shallow embedding of [client/nevent-client.ts], of the typed tool
    functions of [tools/users.ts], [tools/campaigns.ts], [tools/lineup.ts]
    and of the call-tool handler of [index.ts], followed by the properties
    of the specification that are about them.

    Conventions of the model.
    - A JavaScript string is a [string] of bytes: the UTF-8 encoding of a
      well-formed string (one without an unpaired surrogate).
    - A JavaScript number is written [JNum n] for an integer [n] and stands
      for the double nearest to [n], which is what [JSON.parse] makes of the
      digits of [n]; every numeric argument of the catalogue (page, size,
      limit, displayOrder, ...) is integer valued. Numbers with a fraction
      are outside the model.
    - An object is the list of its own properties in property order (the
      array indices in ascending order, then the other keys in the order
      they were added); the values that reach this program are decoded from
      JSON, so no property is callable.
    - [fetch], the URL parser and the two body readers of a response are
      platform code: they are oracles carried by an environment [Env] and by
      the [Response] record. *)

From Stdlib Require Import String Ascii List ZArith Bool Lia DecimalString.
Import ListNotations.
Open Scope string_scope.
Set Warnings "-register-all".

(* ================================================================== *)
(** ** JavaScript values and the runtime operations the code relies on *)
(* ================================================================== *)

Module JS.

Inductive JsValue : Type :=
| JUndefined
| JNull
| JBool (b : bool)
| JNum (n : Z)
| JStr (s : string)
| JArr (items : list JsValue)
| JObj (members : list (string * JsValue)).

Definition JsObject : Type := list (string * JsValue).

(** Induction on a value that reaches the elements of an array. *)
Section JsValue_induction.
Variable P : JsValue -> Prop.
Hypothesis P_undefined : P JUndefined.
Hypothesis P_null : P JNull.
Hypothesis P_bool : forall b, P (JBool b).
Hypothesis P_num : forall n, P (JNum n).
Hypothesis P_str : forall s, P (JStr s).
Hypothesis P_arr : forall items, Forall P items -> P (JArr items).
Hypothesis P_obj : forall members, P (JObj members).

Fixpoint JsValue_elements_ind (v : JsValue) : P v :=
  match v with
  | JUndefined => P_undefined
  | JNull => P_null
  | JBool b => P_bool b
  | JNum n => P_num n
  | JStr s => P_str s
  | JArr items =>
      P_arr items
        ((fix all (l : list JsValue) : Forall P l :=
            match l with
            | [] => Forall_nil P
            | x :: rest => Forall_cons x (JsValue_elements_ind x) (all rest)
            end) items)
  | JObj members => P_obj members
  end.
End JsValue_induction.

(** The classes of [Error] the program meets. [EMcpError] is the SDK's
    [McpError], which carries a numeric code. *)
Inductive ErrorClass : Type :=
| EError
| ETypeError
| ESyntaxError
| EMcpError (code : Z).

(** What a [throw] (or a rejected promise) carries: an instance of [Error]
    with its [message], or any other value. *)
Inductive Thrown : Type :=
| ErrorObject (cls : ErrorClass) (message : string)
| ThrownValue (v : JsValue).

(** The outcome of evaluating an expression that may throw. *)
Inductive Completion (A : Type) : Type :=
| Normal (a : A)
| Throw (e : Thrown).
Arguments Normal {A} a.
Arguments Throw {A} e.

Definition cbind {A B} (c : Completion A) (k : A -> Completion B) : Completion B :=
  match c with
  | Normal a => k a
  | Throw e => Throw e
  end.

Notation "'let!' x ':=' c 'in' k" := (cbind c (fun x => k))
  (at level 10, x name, c at level 100, k at level 200).

(** *** Strings *)

Definition dquote : string := String "034"%char EmptyString.
Definition newline : string := String "010"%char EmptyString.

(** [s.includes(sub)] *)
Fixpoint includes (s sub : string) : bool :=
  if prefix sub s then true
  else match s with
       | EmptyString => false
       | String _ rest => includes rest sub
       end.

(** *** Numbers *)

Definition decimal (n : Z) : string := NilZero.string_of_int (Z.to_int n).

(** 2^53: below it every integer is a double. *)
Definition two53 : Z := 9007199254740992.

(** The double nearest to the integer [n], ties to even, for [0 <= n]:
    the 53 leading bits of [n], rounded. *)
Definition nearest_double (n : Z) : Z :=
  if (n <? two53)%Z then n
  else
    let e := (Z.log2 n - 52)%Z in
    let q := Z.shiftr n e in
    let r := (n - Z.shiftl q e)%Z in
    let half := Z.shiftl 1 (e - 1) in
    let q' := if (half <? r)%Z || ((r =? half)%Z && Z.odd q)
              then (q + 1)%Z else q in
    Z.shiftl q' e.

(** The number [JNum n] stands for is finite. *)
Definition is_finite (n : Z) : bool :=
  (nearest_double (Z.abs n) <? 2 ^ 1024)%Z.

(** The decimal that [Number::toString] prints for the double [v]: of the
    multiples of a power of ten whose nearest double is [v], the one with
    the fewest significant digits [k], and of two with as few the nearer to
    [v] (the even one when they are as near). [len] is the number of digits
    of [v]. *)
Fixpoint shortest_decimal (fuel : nat) (k len v : Z) : Z :=
  match fuel with
  | O => v
  | S fuel' =>
      let p := (10 ^ Z.max 0 (len - k))%Z in
      let lo := (v / p * p)%Z in
      let hi := (lo + p)%Z in
      let lo_ok := (nearest_double lo =? v)%Z in
      let hi_ok := (nearest_double hi =? v)%Z in
      if lo_ok && hi_ok then
        if (v - lo <? hi - v)%Z then lo
        else if (hi - v <? v - lo)%Z then hi
        else if Z.even (lo / p) then lo else hi
      else if lo_ok then lo
      else if hi_ok then hi
      else shortest_decimal fuel' (k + 1)%Z len v
  end.

Fixpoint strip_trailing_zeros (s : string) : string :=
  match s with
  | EmptyString => EmptyString
  | String c rest =>
      let r := strip_trailing_zeros rest in
      if Ascii.eqb c "0"%char && String.eqb r "" then EmptyString
      else String c r
  end.

(** The form [d.ddde+x], which [Number::toString] uses from 10^21. *)
Definition exponent_form (c : Z) : string :=
  let digits := decimal c in
  let exponent := decimal (Z.of_nat (String.length digits) - 1) in
  match strip_trailing_zeros digits with
  | EmptyString => "0"
  | String d EmptyString => String d ("e+" ++ exponent)
  | String d more => String d ("." ++ more ++ "e+" ++ exponent)
  end.

(** [Number.prototype.toString] on the number [JNum n] stands for. *)
Definition number_to_string (n : Z) : string :=
  if (Z.abs n <? two53)%Z then decimal n
  else
    let v := nearest_double (Z.abs n) in
    let sign := if (n <? 0)%Z then "-" else "" in
    if (2 ^ 1024 <=? v)%Z then sign ++ "Infinity"
    else
      let c := shortest_decimal 17 1
                 (Z.of_nat (String.length (decimal v))) v in
      if (c <? 10 ^ 21)%Z then sign ++ decimal c
      else sign ++ exponent_form c.

Definition hex_digit (upper : bool) (n : nat) : ascii :=
  if Nat.ltb n 10 then ascii_of_nat (48 + n)
  else ascii_of_nat ((if upper then 55 else 87) + n).

Definition hex_byte (upper : bool) (c : ascii) : string :=
  let n := nat_of_ascii c in
  String (hex_digit upper (n / 16)) (String (hex_digit upper (n mod 16)) EmptyString).

(** *** Objects: own properties in property order *)

Fixpoint obj_get (k : string) (o : JsObject) : JsValue :=
  match o with
  | [] => JUndefined
  | (k', v) :: rest => if String.eqb k k' then v else obj_get k rest
  end.

Definition obj_has (k : string) (o : JsObject) : bool :=
  existsb (fun kv => String.eqb k (fst kv)) o.

(** The rest pattern [const { k: _, ...rest } = o]. *)
Definition obj_rest (k : string) (o : JsObject) : JsObject :=
  filter (fun kv => negb (String.eqb k (fst kv))) o.

(** An array index: the canonical decimal text of an integer from 0 to
    2^32 - 2. The keys that are array indices come first in the property
    order of an object, in ascending order. *)
Fixpoint digits_value (acc : Z) (s : string) : option Z :=
  match s with
  | EmptyString => Some acc
  | String c rest =>
      let n := nat_of_ascii c in
      if Nat.leb 48 n && Nat.leb n 57
      then digits_value (10 * acc + Z.of_nat (n - 48))%Z rest
      else None
  end.

Definition array_index (k : string) : option Z :=
  match k with
  | EmptyString => None
  | String c rest =>
      if Ascii.eqb c "0"%char && negb (String.eqb rest "") then None
      else match digits_value 0 k with
           | Some i => if (i <=? 4294967294)%Z then Some i else None
           | None => None
           end
  end.

(** Giving a value to a key the object has: the key keeps its place. *)
Fixpoint obj_replace (k : string) (v : JsValue) (o : JsObject) : JsObject :=
  match o with
  | [] => []
  | (k', v') :: rest =>
      if String.eqb k k' then (k, v) :: rest else (k', v') :: obj_replace k v rest
  end.

(** Adding the array index [i], written [k]: it goes before the first key
    that is a larger index or no index. *)
Fixpoint obj_add_index (i : Z) (k : string) (v : JsValue) (o : JsObject)
  : JsObject :=
  match o with
  | [] => [(k, v)]
  | (k', v') :: rest =>
      match array_index k' with
      | Some j =>
          if (j <? i)%Z then (k', v') :: obj_add_index i k v rest
          else (k, v) :: o
      | None => (k, v) :: o
      end
  end.

(** Defining a property in an object literal: an existing key keeps its
    place and takes the new value; a new key goes last, unless it is an
    array index, which goes to its place among the indices. *)
Definition obj_set (k : string) (v : JsValue) (o : JsObject) : JsObject :=
  if obj_has k o then obj_replace k v o
  else match array_index k with
       | Some i => obj_add_index i k v o
       | None => (o ++ [(k, v)])%list
       end.

(** The spread [{ ...target, ...src }]. *)
Definition obj_spread (target src : JsObject) : JsObject :=
  fold_left (fun acc kv => obj_set (fst kv) (snd kv) acc) src target.

(** *** Conversions *)

(** ToBoolean *)
Definition js_truthy (v : JsValue) : bool :=
  match v with
  | JUndefined | JNull => false
  | JBool b => b
  | JNum n => negb (Z.eqb n 0)
  | JStr s => negb (String.eqb s "")
  | JArr _ | JObj _ => true
  end.

(** [a ?? b] *)
Definition nullish (a b : JsValue) : JsValue :=
  match a with
  | JUndefined | JNull => b
  | _ => a
  end.

(** A parameter default [x = d]: only [undefined] takes the default. *)
Definition param_default (a d : JsValue) : JsValue :=
  match a with
  | JUndefined => d
  | _ => a
  end.

Definition cannot_convert : Thrown :=
  ErrorObject ETypeError "Cannot convert object to primitive value".

(** The strings of the elements of an array, as [Array.prototype.join]
    takes them: nothing for [null] and [undefined], the conversion
    [to_string] for the others. *)
Definition element_strings (to_string : JsValue -> Completion string)
  : list JsValue -> Completion (list string) :=
  fix elems (l : list JsValue) : Completion (list string) :=
    match l with
    | [] => Normal []
    | x :: rest =>
        let! s := match x with
                  | JUndefined | JNull => Normal ""
                  | _ => to_string x
                  end in
        let! ss := elems rest in
        Normal (s :: ss)
    end.

(** ToString. An array joins its elements with commas. A plain object
    prints through [Object.prototype.toString]; an own property named
    [toString] hides it, and as no property of a decoded value is callable
    the conversion then throws a [TypeError]. *)
Fixpoint js_ToString (v : JsValue) : Completion string :=
  match v with
  | JUndefined => Normal "undefined"
  | JNull => Normal "null"
  | JBool true => Normal "true"
  | JBool false => Normal "false"
  | JNum n => Normal (number_to_string n)
  | JStr s => Normal s
  | JArr items =>
      let! parts := element_strings js_ToString items in
      Normal (String.concat "," parts)
  | JObj o =>
      if obj_has "toString" o then Throw cannot_convert
      else Normal "[object Object]"
  end.

(** A template literal: the literal chunks are [inl], the substitutions
    [inr], converted left to right. *)
Fixpoint template (parts : list (string + JsValue)) : Completion string :=
  match parts with
  | [] => Normal ""
  | inl s :: rest => let! r := template rest in Normal (s ++ r)
  | inr v :: rest =>
      let! s := js_ToString v in
      let! r := template rest in
      Normal (s ++ r)
  end.

(** [new Error(message)]: the message is converted with ToString unless it
    is [undefined]. *)
Definition new_Error (message : JsValue) : Completion Thrown :=
  match message with
  | JUndefined => Normal (ErrorObject EError "")
  | _ => let! s := js_ToString message in Normal (ErrorObject EError s)
  end.

(** *** Percent encoding *)

Definition is_alnum (c : ascii) : bool :=
  let n := nat_of_ascii c in
  (Nat.leb 48 n && Nat.leb n 57) || (Nat.leb 65 n && Nat.leb n 90)
  || (Nat.leb 97 n && Nat.leb n 122).

Definition char_in (c : ascii) (set : string) : bool :=
  existsb (Ascii.eqb c) (list_ascii_of_string set).

Fixpoint percent_encode (keep : ascii -> bool) (space_as_plus : bool) (s : string)
  : string :=
  match s with
  | EmptyString => EmptyString
  | String c rest =>
      (if keep c then String c EmptyString
       else if space_as_plus && Ascii.eqb c " "%char then "+"
       else "%" ++ hex_byte true c)
      ++ percent_encode keep space_as_plus rest
  end.

(** [encodeURIComponent] on an already converted string. *)
Definition encodeURIComponent_string (s : string) : string :=
  percent_encode (fun c => is_alnum c || char_in c "-_.!~*'()") false s.

(** [encodeURIComponent(v)]: the argument is converted first. The one
    string the function refuses, with a [URIError], is a string with an
    unpaired surrogate, which the strings of the model do not hold. *)
Definition encodeURIComponent (v : JsValue) : Completion string :=
  let! s := js_ToString v in Normal (encodeURIComponent_string s).

(** The [application/x-www-form-urlencoded] byte serializer used by
    [URLSearchParams]. *)
Definition form_urlencode (s : string) : string :=
  percent_encode (fun c => is_alnum c || char_in c "*-._") true s.

(** *** JSON.stringify *)

Definition json_escape_char (c : ascii) : string :=
  let n := nat_of_ascii c in
  if Nat.eqb n 8 then "\b"
  else if Nat.eqb n 9 then "\t"
  else if Nat.eqb n 10 then "\n"
  else if Nat.eqb n 12 then "\f"
  else if Nat.eqb n 13 then "\r"
  else if Nat.eqb n 34 then "\" ++ dquote
  else if Nat.eqb n 92 then "\\"
  else if Nat.ltb n 32 then "\u00" ++ hex_byte false c
  else String c EmptyString.

Fixpoint json_escape (s : string) : string :=
  match s with
  | EmptyString => EmptyString
  | String c rest => json_escape_char c ++ json_escape rest
  end.

(** QuoteJSONString *)
Definition json_quote (s : string) : string :=
  dquote ++ json_escape s ++ dquote.

(** SerializeJSONProperty with the gap [gap] at the indentation [indent];
    [None] is [undefined] (the value is left out of an object and printed
    as [null] inside an array). A number that is not finite prints as
    [null]. *)
Fixpoint json_serialize (gap indent : string) (v : JsValue) : option string :=
  match v with
  | JUndefined => None
  | JNull => Some "null"
  | JBool true => Some "true"
  | JBool false => Some "false"
  | JNum n => Some (if is_finite n then number_to_string n else "null")
  | JStr s => Some (json_quote s)
  | JArr items =>
      let stepback := indent in
      let indent' := indent ++ gap in
      let partial :=
        (fix elems (l : list JsValue) : list string :=
           match l with
           | [] => []
           | x :: rest =>
               match json_serialize gap indent' x with
               | Some s => s
               | None => "null"
               end :: elems rest
           end) items in
      match partial with
      | [] => Some "[]"
      | _ =>
          if String.eqb gap "" then Some ("[" ++ String.concat "," partial ++ "]")
          else Some ("[" ++ newline ++ indent'
                     ++ String.concat ("," ++ newline ++ indent') partial
                     ++ newline ++ stepback ++ "]")
      end
  | JObj members =>
      let stepback := indent in
      let indent' := indent ++ gap in
      let partial :=
        (fix props (l : list (string * JsValue)) : list string :=
           match l with
           | [] => []
           | (k, x) :: rest =>
               match json_serialize gap indent' x with
               | Some s =>
                   (json_quote k ++ (if String.eqb gap "" then ":" else ": ") ++ s)
                   :: props rest
               | None => props rest
               end
           end) members in
      match partial with
      | [] => Some "{}"
      | _ =>
          if String.eqb gap "" then Some ("{" ++ String.concat "," partial ++ "}")
          else Some ("{" ++ newline ++ indent'
                     ++ String.concat ("," ++ newline ++ indent') partial
                     ++ newline ++ stepback ++ "}")
      end
  end.

(** [JSON.stringify(v)] *)
Definition JSON_stringify (v : JsValue) : option string :=
  json_serialize "" "" v.

(** [JSON.stringify(v, null, 2)] *)
Definition JSON_stringify_pretty (v : JsValue) : option string :=
  json_serialize "  " "" v.

End JS.
Import JS.


(* ================================================================== *)
(** ** The platform: URL, URLSearchParams, fetch and Response *)
(* ================================================================== *)

Module Web.

(** How a promise of the platform settles. [fetch] rejects with a
    [TypeError] or a [DOMException], the body readers with a [TypeError] or
    a [SyntaxError]: always an instance of [Error]. *)
Inductive Settled (A : Type) : Type :=
| Fulfilled (a : A)
| Rejected (cls : ErrorClass) (message : string).
Arguments Fulfilled {A} a.
Arguments Rejected {A} cls message.

Definition await {A} (p : Settled A) : Completion A :=
  match p with
  | Fulfilled a => Normal a
  | Rejected cls m => Throw (ErrorObject cls m)
  end.

(** A received response: the fields the client reads, and what its two body
    readers settle to. *)
Record Response : Type := {
  status : Z;
  statusText : string;
  content_type : option string;      (* headers.get('content-type') *)
  json : Settled JsValue;            (* response.json() *)
  text : Settled string              (* response.text() *)
}.

(** [response.ok] *)
Definition ok_status (r : Response) : bool :=
  (200 <=? status r)%Z && (status r <=? 299)%Z.

(** The second argument of [fetch]. *)
Record RequestInit : Type := {
  init_method : string;
  init_headers : list (string * string);
  init_body : option string
}.

Record FetchCall : Type := {
  fetch_url : string;
  fetch_init : RequestInit
}.

Definition urlencoded_pair (kv : string * string) : string :=
  form_urlencode (fst kv) ++ "=" ++ form_urlencode (snd kv).

(** The serialisation of a list of search parameters. *)
Definition urlencoded (l : list (string * string)) : string :=
  String.concat "&" (map urlencoded_pair l).

(** A URL object, as far as the client reads it: the serialisation of the
    address up to the end of the path, the query when there is one (without
    its [?]), the pairs of [searchParams], which the parser reads from the
    query, and the fragment when there is one (without its [#]). *)
Record URL : Type := {
  url_address : string;
  url_query : option string;
  searchParams : list (string * string);
  url_fragment : option string
}.

(** The environment of a run: what the URL parser makes of each string
    ([None] when it rejects it), and how the network answers each call. The
    parser is the platform's: it splits off the query and the fragment,
    resolves dot segments and percent-encodes what the address may not
    hold. *)
Record Env : Type := {
  URL_parse : string -> option URL;
  fetch : FetchCall -> Settled Response
}.

Definition new_URL (env : Env) (s : string) : Completion URL :=
  match URL_parse env s with
  | Some u => Normal u
  | None => Throw (ErrorObject ETypeError "Invalid URL")
  end.

(** [url.searchParams.append(k, v)]: the pair joins the list, and the query
    of the URL becomes the serialisation of the list. *)
Definition searchParams_append (k v : string) (u : URL) : URL :=
  let l := (searchParams u ++ [(k, v)])%list in
  {| url_address := url_address u;
     url_query := Some (urlencoded l);
     searchParams := l;
     url_fragment := url_fragment u |}.

(** [url.toString()] *)
Definition URL_toString (u : URL) : string :=
  match url_query u, url_fragment u with
  | None, None => url_address u
  | Some q, None => url_address u ++ "?" ++ q
  | None, Some f => url_address u ++ "#" ++ f
  | Some q, Some f => url_address u ++ "?" ++ q ++ "#" ++ f
  end.

(** The URL of an address that has no query and no fragment. *)
Definition plain_URL (s : string) : URL :=
  {| url_address := s; url_query := None; searchParams := [];
     url_fragment := None |}.

(** The parser accepts [s] and leaves it as it is: [s] has no query and no
    fragment of its own, and nothing in it is resolved or re-encoded. *)
Definition URL_valid (env : Env) (s : string) : bool :=
  match URL_parse env s with
  | Some {| url_address := a; url_query := None; searchParams := [];
            url_fragment := None |} => String.eqb a s
  | _ => false
  end.

End Web.
Import Web.

(* ================================================================== *)
(** ** Effects: the trace of a run *)
(* ================================================================== *)

(** What a run leaves behind: every call of [fetch] with its two arguments
    and, before it, the entry into the client's [request] with the arguments
    it was given. The second kind of entry is a ghost of the model: it keeps
    the body as a value, before it is serialised. *)
Inductive Event : Type :=
| Requested (method path : string) (body : JsValue) (params : option JsObject)
| Fetched (call : FetchCall).

Definition Trace : Type := list Event.

(** A computation reads the environment, may throw, and extends the trace. *)
Definition M (A : Type) : Type :=
  Env -> Trace -> Completion A * Trace.

Definition ret {A} (a : A) : M A := fun _ tr => (Normal a, tr).

Definition throw {A} (e : Thrown) : M A := fun _ tr => (Throw e, tr).

Definition bind {A B} (m : M A) (k : A -> M B) : M B :=
  fun env tr =>
    match m env tr with
    | (Normal a, tr') => k a env tr'
    | (Throw e, tr') => (Throw e, tr')
    end.

Definition lift {A} (c : Completion A) : M A := fun _ tr => (c, tr).

Definition ask : M Env := fun env tr => (Normal env, tr).

Definition note (ev : Event) : M unit :=
  fun _ tr => (Normal tt, (tr ++ [ev])%list).

(** [await fetch(url, init)] *)
Definition do_fetch (url : string) (init : RequestInit) : M Response :=
  fun env tr =>
    let call := {| fetch_url := url; fetch_init := init |} in
    (await (fetch env call), (tr ++ [Fetched call])%list).

(** The outcome and the trace of a run that starts from the empty trace. *)
Definition outcome {A} (m : M A) (env : Env) : Completion A := fst (m env []).
Definition trace_of {A} (m : M A) (env : Env) : Trace := snd (m env []).

Notation "x <- c ;; k" := (bind c (fun x => k))
  (at level 61, c at next level, right associativity).

(* ================================================================== *)
(** ** client/nevent-client.ts *)
(* ================================================================== *)

Module Client.

(** The object handed to the constructor. The interface
    [NeventClientConfig] declares [baseUrl] and [jwtToken]; the server also
    puts [tenantId] (the value of NEVENT_TENANT_ID, when set) into it. *)
Record NeventClientConfig : Type := {
  config_baseUrl : string;
  config_jwtToken : string;
  config_tenantId : option string
}.

Record ApiResponse : Type := {
  data : JsValue;
  api_status : Z;
  ok : bool
}.

Record NeventClient : Type := {
  baseUrl : string;
  jwtToken : string
}.

(** [s.replace(/\/$/, '')] *)
Fixpoint strip_trailing_slash (s : string) : string :=
  match s with
  | EmptyString => EmptyString
  | String c rest =>
      match rest with
      | EmptyString => if Ascii.eqb c "/"%char then EmptyString else s
      | _ => String c (strip_trailing_slash rest)
      end
  end.

Definition constructor (config : NeventClientConfig) : NeventClient :=
  {| baseUrl := strip_trailing_slash (config_baseUrl config);
     jwtToken := config_jwtToken config |}.

(** The [forEach] over [Object.entries(options.params)]. *)
Fixpoint append_params (entries : JsObject) (url : URL) : Completion URL :=
  match entries with
  | [] => Normal url
  | (key, value) :: rest =>
      match value with
      | JUndefined => append_params rest url
      | _ =>
          let! s := js_ToString value in
          append_params rest (searchParams_append key s url)
      end
  end.

(** [typeof data === 'object' && data !== null && 'message' in data] *)
Definition has_message (d : JsValue) : bool :=
  match d with
  | JObj o => obj_has "message" o
  | _ => false
  end.

(** [(data as { message: string }).message] *)
Definition message_of (d : JsValue) : JsValue :=
  match d with
  | JObj o => obj_get "message" o
  | _ => JUndefined
  end.

Definition http_error_message (response : Response) : string :=
  "HTTP " ++ number_to_string (status response) ++ ": " ++ statusText response.

(** The body of the response, read as JSON or as text after its
    content type. *)
Definition read_body (response : Response) : Completion JsValue :=
  match content_type response with
  | Some ct =>
      if includes ct "application/json" then await (json response)
      else let! t := await (text response) in Normal (JStr t)
  | None => let! t := await (text response) in Normal (JStr t)
  end.

(** [request(method, path, options)]; an absent [options.body] is
    [JUndefined], an absent [options.params] is [None]. The first line is
    the ghost entry of the trace. *)
Definition request (this : NeventClient) (method path : string)
    (body : JsValue) (params : option JsObject) : M ApiResponse :=
  _ <- note (Requested method path body params) ;;
  env <- ask ;;
  url <- lift (new_URL env (baseUrl this ++ path)) ;;
  url <- lift (match params with
               | Some entries => append_params entries url
               | None => Normal url
               end) ;;
  let headers :=
    [ ("Authorization", "Bearer " ++ jwtToken this);
      ("Content-Type", "application/json") ] in
  let fetchOptions :=
    {| init_method := method;
       init_headers := headers;
       init_body :=
         if js_truthy body && negb (String.eqb method "GET")
         then JSON_stringify body
         else None |} in
  response <- do_fetch (URL_toString url) fetchOptions ;;
  data <- lift (read_body response) ;;
  if negb (ok_status response) then
    let errorMessage :=
      if has_message data then message_of data
      else JStr (http_error_message response) in
    e <- lift (new_Error errorMessage) ;;
    throw e
  else
    ret {| data := data;
           api_status := status response;
           ok := ok_status response |}.

Definition get (this : NeventClient) (path : string) (params : option JsObject)
  : M JsValue :=
  response <- request this "GET" path JUndefined params ;;
  ret (data response).

Definition post (this : NeventClient) (path : string) (body : JsValue) : M JsValue :=
  response <- request this "POST" path body None ;;
  ret (data response).

Definition put (this : NeventClient) (path : string) (body : JsValue) : M JsValue :=
  response <- request this "PUT" path body None ;;
  ret (data response).

Definition patch (this : NeventClient) (path : string) (body : JsValue) : M JsValue :=
  response <- request this "PATCH" path body None ;;
  ret (data response).

Definition delete (this : NeventClient) (path : string) : M JsValue :=
  response <- request this "DELETE" path JUndefined None ;;
  ret (data response).

End Client.
Import Client.

(** A tool of the catalogue: its name, the properties of its input schema
    with the [default] each declares, and the [required] list. *)
Record ToolDefinition : Type := tool {
  name : string;
  properties : list (string * option JsValue);
  required : list string
}.

(** The shape shared by the typed functions: a path given by a template,
    then one call of the client. An argument that is a bag of options is a
    [JsObject]: the handler always passes an object, so the [= {}] default
    of those parameters is never taken. *)
Definition with_path {A} (parts : list (string + JsValue)) (k : string -> M A) : M A :=
  path <- lift (template parts) ;; k path.

(** The page arguments every listing sends. *)
Definition page_of (params : JsObject) : string * JsValue :=
  ("page", nullish (obj_get "page" params) (JNum 0)).
Definition size_of (params : JsObject) : string * JsValue :=
  ("size", nullish (obj_get "size" params) (JNum 20)).
Definition field (k : string) (params : JsObject) : string * JsValue :=
  (k, obj_get k params).

(* ================================================================== *)
(** ** tools/users.ts *)
(* ================================================================== *)

Module Users.

Definition listUsers (client : NeventClient) (params : JsObject) : M JsValue :=
  Client.get client "/users"
    (Some [ page_of params; size_of params;
            field "sort" params; field "email" params; field "name" params;
            field "phone" params; field "createdFrom" params;
            field "createdTo" params; field "eventId" params;
            field "listId" params ]).

Definition getUser (client : NeventClient) (userId : JsValue) : M JsValue :=
  with_path [inl "/users/"; inr userId] (fun path => Client.get client path None).

Definition getUserByEmail (client : NeventClient) (email : JsValue) : M JsValue :=
  enc <- lift (encodeURIComponent email) ;;
  Client.get client ("/users/email/" ++ enc) None.

Definition createUser (client : NeventClient) (userData : JsObject) : M JsValue :=
  Client.post client "/users" (JObj userData).

Definition updateUser (client : NeventClient) (userId : JsValue) (userData : JsObject)
  : M JsValue :=
  with_path [inl "/users/"; inr userId]
    (fun path => Client.put client path (JObj userData)).

Definition deleteUser (client : NeventClient) (userId : JsValue) : M JsValue :=
  with_path [inl "/users/"; inr userId] (fun path => Client.delete client path).

Definition getUserPurchases (client : NeventClient) (userId : JsValue)
    (params : JsObject) : M JsValue :=
  with_path [inl "/users/"; inr userId; inl "/purchases"]
    (fun path => Client.get client path (Some [page_of params; size_of params])).

Definition getUserEvents (client : NeventClient) (userId : JsValue)
    (params : JsObject) : M JsValue :=
  with_path [inl "/users/"; inr userId; inl "/events"]
    (fun path =>
       Client.get client path
         (Some [page_of params; size_of params; field "type" params])).

Definition getPropertyDefinitions (client : NeventClient) (params : JsObject)
  : M JsValue :=
  Client.get client "/properties" (Some [field "type" params]).

Definition createPropertyDefinition (client : NeventClient) (property : JsObject)
  : M JsValue :=
  Client.post client "/properties" (JObj property).

Definition updatePropertyDefinition (client : NeventClient) (propertyId : JsValue)
    (property : JsObject) : M JsValue :=
  with_path [inl "/properties/"; inr propertyId]
    (fun path => Client.put client path (JObj property)).

Definition deletePropertyDefinition (client : NeventClient) (propertyId : JsValue)
  : M JsValue :=
  with_path [inl "/properties/"; inr propertyId]
    (fun path => Client.delete client path).

Definition getUserCommunicationPreferences (client : NeventClient)
    (userId : JsValue) : M JsValue :=
  with_path [inl "/users/"; inr userId; inl "/communication-preferences"]
    (fun path => Client.get client path None).

Definition updateUserCommunicationPreferences (client : NeventClient)
    (userId : JsValue) (preferences : JsObject) : M JsValue :=
  with_path [inl "/users/"; inr userId; inl "/communication-preferences"]
    (fun path => Client.put client path (JObj preferences)).

Definition searchUsersBySegment (client : NeventClient) (segmentId : JsValue)
    (params : JsObject) : M JsValue :=
  with_path [inl "/segments/"; inr segmentId; inl "/users"]
    (fun path => Client.get client path (Some [page_of params; size_of params])).

Definition addUserToList (client : NeventClient) (listId userId : JsValue)
  : M JsValue :=
  with_path [inl "/lists/"; inr listId; inl "/users/"; inr userId]
    (fun path => Client.post client path JUndefined).

Definition removeUserFromList (client : NeventClient) (listId userId : JsValue)
  : M JsValue :=
  with_path [inl "/lists/"; inr listId; inl "/users/"; inr userId]
    (fun path => Client.delete client path).

Definition getUserCount (client : NeventClient) : M JsValue :=
  Client.get client "/users/count" None.

Definition exportUsers (client : NeventClient) (params : JsObject) : M JsValue :=
  Client.post client "/users/export" (JObj params).

Definition userToolDefinitions : list ToolDefinition :=
  [ tool "list_users"
      [("page", Some (JNum 0)); ("size", Some (JNum 20)); ("sort", None);
       ("email", None); ("name", None); ("phone", None); ("createdFrom", None);
       ("createdTo", None); ("eventId", None); ("listId", None)]
      [];
    tool "get_user"
      [("userId", None)]
      ["userId"];
    tool "get_user_by_email"
      [("email", None)]
      ["email"];
    tool "create_user"
      [("email", None); ("name", None); ("surname", None); ("phone", None);
       ("birthDate", None); ("gender", None); ("language", None); ("country", None);
       ("city", None); ("address", None); ("postalCode", None)]
      ["email"];
    tool "update_user"
      [("userId", None); ("name", None); ("surname", None); ("phone", None);
       ("birthDate", None); ("gender", None); ("language", None); ("country", None);
       ("city", None); ("address", None); ("postalCode", None)]
      ["userId"];
    tool "delete_user"
      [("userId", None)]
      ["userId"];
    tool "get_user_purchases"
      [("userId", None); ("page", Some (JNum 0)); ("size", Some (JNum 20))]
      ["userId"];
    tool "get_user_events"
      [("userId", None); ("page", Some (JNum 0)); ("size", Some (JNum 20));
       ("type", None)]
      ["userId"];
    tool "get_property_definitions"
      [("type", None)]
      [];
    tool "create_property_definition"
      [("name", None); ("displayName", None); ("dataType", None); ("required", None);
       ("defaultValue", None); ("listValues", None)]
      ["name"; "dataType"];
    tool "get_user_communication_preferences"
      [("userId", None)]
      ["userId"];
    tool "update_user_communication_preferences"
      [("userId", None); ("emailEnabled", None); ("pushEnabled", None);
       ("smsEnabled", None); ("whatsappEnabled", None)]
      ["userId"];
    tool "get_user_count"
      []
      [];
    tool "export_users"
      [("format", Some (JStr "csv")); ("fields", None); ("listId", None);
       ("eventId", None)]
      [] ].

End Users.

(* ================================================================== *)
(** ** tools/campaigns.ts *)
(* ================================================================== *)

Module Campaigns.

Definition listCampaigns (client : NeventClient) (params : JsObject) : M JsValue :=
  Client.get client "/campaigns"
    (Some [ page_of params; size_of params; field "sort" params;
            field "type" params; field "status" params ]).

Definition getCampaign (client : NeventClient) (campaignId : JsValue) : M JsValue :=
  with_path [inl "/campaigns/"; inr campaignId]
    (fun path => Client.get client path None).

Definition createCampaign (client : NeventClient) (campaign : JsObject) : M JsValue :=
  Client.post client "/campaigns" (JObj campaign).

Definition updateCampaign (client : NeventClient) (campaignId : JsValue)
    (campaign : JsObject) : M JsValue :=
  with_path [inl "/campaigns/"; inr campaignId]
    (fun path => Client.put client path (JObj campaign)).

Definition deleteCampaign (client : NeventClient) (campaignId : JsValue) : M JsValue :=
  with_path [inl "/campaigns/"; inr campaignId]
    (fun path => Client.delete client path).

Definition sendCampaign (client : NeventClient) (campaignId : JsValue) : M JsValue :=
  with_path [inl "/campaigns/"; inr campaignId; inl "/send"]
    (fun path => Client.post client path JUndefined).

Definition scheduleCampaign (client : NeventClient) (campaignId scheduledAt : JsValue)
  : M JsValue :=
  with_path [inl "/campaigns/"; inr campaignId; inl "/schedule"]
    (fun path => Client.post client path (JObj [("scheduledAt", scheduledAt)])).

Definition pauseCampaign (client : NeventClient) (campaignId : JsValue) : M JsValue :=
  with_path [inl "/campaigns/"; inr campaignId; inl "/pause"]
    (fun path => Client.post client path JUndefined).

Definition resumeCampaign (client : NeventClient) (campaignId : JsValue) : M JsValue :=
  with_path [inl "/campaigns/"; inr campaignId; inl "/resume"]
    (fun path => Client.post client path JUndefined).

Definition cancelCampaign (client : NeventClient) (campaignId : JsValue) : M JsValue :=
  with_path [inl "/campaigns/"; inr campaignId; inl "/cancel"]
    (fun path => Client.post client path JUndefined).

Definition getCampaignMetrics (client : NeventClient) (campaignId : JsValue)
  : M JsValue :=
  with_path [inl "/campaigns/"; inr campaignId; inl "/metrics"]
    (fun path => Client.get client path None).

Definition sendTestCampaign (client : NeventClient) (campaignId testEmails : JsValue)
  : M JsValue :=
  with_path [inl "/campaigns/"; inr campaignId; inl "/test"]
    (fun path => Client.post client path (JObj [("emails", testEmails)])).

Definition duplicateCampaign (client : NeventClient) (campaignId : JsValue)
  : M JsValue :=
  with_path [inl "/campaigns/"; inr campaignId; inl "/duplicate"]
    (fun path => Client.post client path JUndefined).

Definition listSegments (client : NeventClient) (params : JsObject) : M JsValue :=
  Client.get client "/segments"
    (Some [page_of params; size_of params; field "sort" params]).

Definition getSegment (client : NeventClient) (segmentId : JsValue) : M JsValue :=
  with_path [inl "/segments/"; inr segmentId]
    (fun path => Client.get client path None).

Definition createSegment (client : NeventClient) (segment : JsObject) : M JsValue :=
  Client.post client "/segments" (JObj segment).

Definition updateSegment (client : NeventClient) (segmentId : JsValue)
    (segment : JsObject) : M JsValue :=
  with_path [inl "/segments/"; inr segmentId]
    (fun path => Client.put client path (JObj segment)).

Definition deleteSegment (client : NeventClient) (segmentId : JsValue) : M JsValue :=
  with_path [inl "/segments/"; inr segmentId]
    (fun path => Client.delete client path).

Definition previewSegment (client : NeventClient) (criteria : JsValue) : M JsValue :=
  Client.post client "/segments/preview" criteria.

Definition executeSegment (client : NeventClient) (segmentId : JsValue) : M JsValue :=
  with_path [inl "/segments/"; inr segmentId; inl "/execute"]
    (fun path => Client.post client path JUndefined).

Definition listEmailTemplates (client : NeventClient) (params : JsObject)
  : M JsValue :=
  Client.get client "/templates/email"
    (Some [page_of params; size_of params; field "sort" params]).

Definition getEmailTemplate (client : NeventClient) (templateId : JsValue)
  : M JsValue :=
  with_path [inl "/templates/email/"; inr templateId]
    (fun path => Client.get client path None).

Definition createEmailTemplate (client : NeventClient) (template : JsObject)
  : M JsValue :=
  Client.post client "/templates/email" (JObj template).

Definition updateEmailTemplate (client : NeventClient) (templateId : JsValue)
    (template : JsObject) : M JsValue :=
  with_path [inl "/templates/email/"; inr templateId]
    (fun path => Client.put client path (JObj template)).

Definition deleteEmailTemplate (client : NeventClient) (templateId : JsValue)
  : M JsValue :=
  with_path [inl "/templates/email/"; inr templateId]
    (fun path => Client.delete client path).

Definition renderEmailTemplate (client : NeventClient) (templateId : JsValue)
  : M JsValue :=
  with_path [inl "/templates/email/"; inr templateId; inl "/render"]
    (fun path => Client.get client path None).

(** The body is [{ prompt, ...options }]. *)
Definition generateEmailContent (client : NeventClient) (prompt : JsValue)
    (options : JsObject) : M JsValue :=
  Client.post client "/campaigns/generate"
    (JObj (obj_spread [("prompt", prompt)] options)).

Definition campaignToolDefinitions : list ToolDefinition :=
  [ tool "list_campaigns"
      [("page", Some (JNum 0)); ("size", Some (JNum 20)); ("sort", None);
       ("type", None); ("status", None)]
      [];
    tool "get_campaign"
      [("campaignId", None)]
      ["campaignId"];
    tool "create_campaign"
      [("name", None); ("type", None); ("subject", None); ("content", None);
       ("segmentId", None); ("templateId", None); ("scheduledAt", None)]
      ["name"; "type"];
    tool "update_campaign"
      [("campaignId", None); ("name", None); ("subject", None); ("content", None);
       ("segmentId", None); ("templateId", None); ("scheduledAt", None)]
      ["campaignId"];
    tool "delete_campaign"
      [("campaignId", None)]
      ["campaignId"];
    tool "send_campaign"
      [("campaignId", None)]
      ["campaignId"];
    tool "schedule_campaign"
      [("campaignId", None); ("scheduledAt", None)]
      ["campaignId"; "scheduledAt"];
    tool "pause_campaign"
      [("campaignId", None)]
      ["campaignId"];
    tool "cancel_campaign"
      [("campaignId", None)]
      ["campaignId"];
    tool "get_campaign_metrics"
      [("campaignId", None)]
      ["campaignId"];
    tool "send_test_campaign"
      [("campaignId", None); ("testEmails", None)]
      ["campaignId"; "testEmails"];
    tool "duplicate_campaign"
      [("campaignId", None)]
      ["campaignId"];
    tool "list_segments"
      [("page", Some (JNum 0)); ("size", Some (JNum 20)); ("sort", None)]
      [];
    tool "get_segment"
      [("segmentId", None)]
      ["segmentId"];
    tool "create_segment"
      [("name", None); ("description", None); ("criteria", None)]
      ["name"; "criteria"];
    tool "update_segment"
      [("segmentId", None); ("name", None); ("description", None); ("criteria", None)]
      ["segmentId"];
    tool "delete_segment"
      [("segmentId", None)]
      ["segmentId"];
    tool "preview_segment"
      [("criteria", None)]
      ["criteria"];
    tool "execute_segment"
      [("segmentId", None)]
      ["segmentId"];
    tool "list_email_templates"
      [("page", Some (JNum 0)); ("size", Some (JNum 20))]
      [];
    tool "get_email_template"
      [("templateId", None)]
      ["templateId"];
    tool "create_email_template"
      [("name", None); ("subject", None); ("mjmlContent", None)]
      ["name"];
    tool "update_email_template"
      [("templateId", None); ("name", None); ("subject", None); ("mjmlContent", None)]
      ["templateId"];
    tool "delete_email_template"
      [("templateId", None)]
      ["templateId"];
    tool "render_email_template"
      [("templateId", None)]
      ["templateId"];
    tool "generate_email_content"
      [("prompt", None); ("tone", None); ("length", None); ("language", None)]
      ["prompt"] ].

End Campaigns.

(* ================================================================== *)
(** ** tools/lineup.ts *)
(* ================================================================== *)

Module Lineup.

Definition createPerformer (client : NeventClient) (data : JsObject) : M JsValue :=
  Client.post client "/admin/performers" (JObj data).

Definition searchSpotify (client : NeventClient) (query limit : JsValue) : M JsValue :=
  let limit := param_default limit (JNum 10) in
  Client.get client "/admin/performers/spotify/search"
    (Some [("query", query); ("limit", limit)]).

Definition searchPerformers (client : NeventClient) (query limit : JsValue)
  : M JsValue :=
  let limit := param_default limit (JNum 10) in
  Client.get client "/admin/performers/search"
    (Some [("query", query); ("limit", limit)]).

Definition linkPerformerSpotify (client : NeventClient) (performerId : JsValue)
    (data : JsObject) : M JsValue :=
  with_path [inl "/admin/performers/"; inr performerId; inl "/link-spotify"]
    (fun path => Client.post client path (JObj data)).

Definition unlinkPerformerFromMaster (client : NeventClient) (performerId : JsValue)
  : M JsValue :=
  with_path [inl "/admin/performers/"; inr performerId; inl "/unlink-master"]
    (fun path => Client.post client path JUndefined).

Definition updatePerformer (client : NeventClient) (performerId : JsValue)
    (data : JsObject) : M JsValue :=
  with_path [inl "/admin/performers/"; inr performerId]
    (fun path => Client.patch client path (JObj data)).

Definition getPerformer (client : NeventClient) (performerId includeMaster : JsValue)
  : M JsValue :=
  let includeMaster := param_default includeMaster (JBool false) in
  with_path [inl "/admin/performers/"; inr performerId]
    (fun path => Client.get client path (Some [("includeMaster", includeMaster)])).

Definition listPerformers (client : NeventClient) (params : JsObject) : M JsValue :=
  Client.get client "/admin/performers"
    (Some [page_of params; size_of params; field "sort" params]).

Definition deletePerformer (client : NeventClient) (performerId : JsValue)
  : M JsValue :=
  with_path [inl "/admin/performers/"; inr performerId]
    (fun path => Client.delete client path).

Definition createPerformerFromMaster (client : NeventClient)
    (masterPerformerId : JsValue) : M JsValue :=
  with_path [inl "/admin/performers/from-master-performer/"; inr masterPerformerId]
    (fun path => Client.post client path JUndefined).

Definition getPerformerLikes (client : NeventClient) (performerId : JsValue)
    (params : JsObject) : M JsValue :=
  with_path [inl "/admin/performers/"; inr performerId; inl "/likes"]
    (fun path => Client.get client path (Some [page_of params; size_of params])).

Definition listEventSessions (client : NeventClient) (eventId : JsValue)
    (params : JsObject) : M JsValue :=
  with_path [inl "/admin/events/"; inr eventId; inl "/sessions"]
    (fun path =>
       Client.get client path
         (Some [field "date" params; field "stage" params;
                field "isPublished" params])).

(** The body is [{ ...data, eventId }]. *)
Definition createSession (client : NeventClient) (eventId : JsValue)
    (data : JsObject) : M JsValue :=
  with_path [inl "/admin/events/"; inr eventId; inl "/sessions"]
    (fun path =>
       Client.post client path
         (JObj (obj_set "eventId" eventId (obj_spread [] data)))).

Definition updateSession (client : NeventClient) (sessionId : JsValue)
    (data : JsObject) : M JsValue :=
  with_path [inl "/admin/sessions/"; inr sessionId]
    (fun path => Client.patch client path (JObj data)).

Definition getSession (client : NeventClient) (sessionId : JsValue) : M JsValue :=
  with_path [inl "/admin/sessions/"; inr sessionId]
    (fun path => Client.get client path None).

Definition deleteSession (client : NeventClient) (sessionId : JsValue) : M JsValue :=
  with_path [inl "/admin/sessions/"; inr sessionId]
    (fun path => Client.delete client path).

Definition addPerformerToSession (client : NeventClient) (sessionId : JsValue)
    (data : JsObject) : M JsValue :=
  with_path [inl "/admin/sessions/"; inr sessionId; inl "/performers"]
    (fun path => Client.post client path (JObj data)).

Definition removePerformerFromSession (client : NeventClient)
    (sessionId performerId : JsValue) : M JsValue :=
  with_path [inl "/admin/sessions/"; inr sessionId; inl "/performers/";
             inr performerId]
    (fun path => Client.delete client path).

Definition reorderSessionPerformers (client : NeventClient)
    (sessionId newOrders : JsValue) : M JsValue :=
  with_path [inl "/admin/sessions/"; inr sessionId; inl "/performers/reorder"]
    (fun path => Client.put client path newOrders).

Definition publishSession (client : NeventClient) (sessionId isPublished : JsValue)
  : M JsValue :=
  with_path [inl "/admin/sessions/"; inr sessionId; inl "/publish"]
    (fun path => Client.patch client path (JObj [("isPublished", isPublished)])).

Definition getPublicLineup (client : NeventClient) (eventId : JsValue) : M JsValue :=
  with_path [inl "/public/events/"; inr eventId; inl "/lineup"]
    (fun path => Client.get client path None).

Definition getAdminLineup (client : NeventClient) (eventId : JsValue) : M JsValue :=
  with_path [inl "/admin/events/"; inr eventId; inl "/lineup"]
    (fun path => Client.get client path None).

Definition createOrUpdateDailyLineup (client : NeventClient) (eventId : JsValue)
    (data : JsObject) : M JsValue :=
  with_path [inl "/events/"; inr eventId; inl "/daily-lineup"]
    (fun path => Client.post client path (JObj data)).

Definition getAllDailyLineups (client : NeventClient) (eventId : JsValue)
  : M JsValue :=
  with_path [inl "/events/"; inr eventId; inl "/daily-lineup"]
    (fun path => Client.get client path None).

Definition getDailyLineupByDate (client : NeventClient) (eventId date : JsValue)
  : M JsValue :=
  with_path [inl "/events/"; inr eventId; inl "/daily-lineup/"; inr date]
    (fun path => Client.get client path None).

Definition updateDailyLineup (client : NeventClient) (eventId date : JsValue)
    (data : JsObject) : M JsValue :=
  with_path [inl "/events/"; inr eventId; inl "/daily-lineup/"; inr date]
    (fun path => Client.put client path (JObj data)).

Definition publishDailyLineup (client : NeventClient) (eventId date : JsValue)
  : M JsValue :=
  with_path [inl "/events/"; inr eventId; inl "/daily-lineup/"; inr date;
             inl "/publish"]
    (fun path => Client.put client path JUndefined).

Definition unpublishDailyLineup (client : NeventClient) (eventId date : JsValue)
  : M JsValue :=
  with_path [inl "/events/"; inr eventId; inl "/daily-lineup/"; inr date;
             inl "/unpublish"]
    (fun path => Client.put client path JUndefined).

Definition deleteDailyLineup (client : NeventClient) (eventId date : JsValue)
  : M JsValue :=
  with_path [inl "/events/"; inr eventId; inl "/daily-lineup/"; inr date]
    (fun path => Client.delete client path).

Definition lineupToolDefinitions : list ToolDefinition :=
  [ tool "create_performer"
      [("name", None); ("description", None); ("style", None); ("tags", None);
       ("images", None); ("socialLinks", None)]
      ["name"];
    tool "search_spotify"
      [("query", None); ("limit", Some (JNum 10))]
      ["query"];
    tool "search_performers"
      [("query", None); ("limit", Some (JNum 10))]
      ["query"];
    tool "link_performer_spotify"
      [("performerId", None); ("spotifyId", None); ("overrideData", Some (JBool false))]
      ["performerId"; "spotifyId"];
    tool "unlink_performer_from_master"
      [("performerId", None)]
      ["performerId"];
    tool "update_performer"
      [("performerId", None); ("name", None); ("description", None); ("style", None);
       ("tags", None); ("images", None); ("socialLinks", None)]
      ["performerId"];
    tool "get_performer"
      [("performerId", None); ("includeMaster", Some (JBool false))]
      ["performerId"];
    tool "list_performers"
      [("page", Some (JNum 0)); ("size", Some (JNum 20)); ("sort", None)]
      [];
    tool "delete_performer"
      [("performerId", None)]
      ["performerId"];
    tool "create_performer_from_master"
      [("masterPerformerId", None)]
      ["masterPerformerId"];
    tool "get_performer_likes"
      [("performerId", None); ("page", Some (JNum 0)); ("size", Some (JNum 20))]
      ["performerId"];
    tool "list_event_sessions"
      [("eventId", None); ("date", None); ("stage", None); ("isPublished", None)]
      ["eventId"];
    tool "create_session"
      [("eventId", None); ("name", None); ("startDateTime", None);
       ("endDateTime", None); ("performerIds", None); ("displayOrder", None);
       ("notes", None); ("isPublished", Some (JBool false))]
      ["eventId"; "name"; "startDateTime"; "endDateTime"];
    tool "update_session"
      [("sessionId", None); ("name", None); ("startDateTime", None);
       ("endDateTime", None); ("displayOrder", None); ("notes", None);
       ("isPublished", None)]
      ["sessionId"];
    tool "get_session"
      [("sessionId", None)]
      ["sessionId"];
    tool "delete_session"
      [("sessionId", None)]
      ["sessionId"];
    tool "add_performer_to_session"
      [("sessionId", None); ("performerId", None); ("displayOrder", None);
       ("notes", None)]
      ["sessionId"; "performerId"];
    tool "remove_performer_from_session"
      [("sessionId", None); ("performerId", None)]
      ["sessionId"; "performerId"];
    tool "reorder_session_performers"
      [("sessionId", None); ("newOrders", None)]
      ["sessionId"; "newOrders"];
    tool "publish_session"
      [("sessionId", None); ("isPublished", None)]
      ["sessionId"; "isPublished"];
    tool "get_public_lineup"
      [("eventId", None)]
      ["eventId"];
    tool "get_admin_lineup"
      [("eventId", None)]
      ["eventId"];
    tool "create_or_update_daily_lineup"
      [("eventId", None); ("date", None); ("performerIds", None);
       ("displayOrder", None)]
      ["eventId"; "date"; "performerIds"];
    tool "get_all_daily_lineups"
      [("eventId", None)]
      ["eventId"];
    tool "get_daily_lineup_by_date"
      [("eventId", None); ("date", None)]
      ["eventId"; "date"];
    tool "update_daily_lineup"
      [("eventId", None); ("date", None); ("performerIds", None);
       ("displayOrder", None)]
      ["eventId"; "date"; "performerIds"];
    tool "publish_daily_lineup"
      [("eventId", None); ("date", None)]
      ["eventId"; "date"];
    tool "unpublish_daily_lineup"
      [("eventId", None); ("date", None)]
      ["eventId"; "date"];
    tool "delete_daily_lineup"
      [("eventId", None); ("date", None)]
      ["eventId"; "date"] ].

End Lineup.

(* ================================================================== *)
(** ** index.ts: the server *)
(* ================================================================== *)

Module Server.

(** The three environment variables read at start-up. *)
Record ProcessEnv : Type := {
  NEVENT_API_URL : option string;
  NEVENT_JWT_TOKEN : option string;
  NEVENT_TENANT_ID : option string
}.

(** [process.env.X || fallback] *)
Definition or_else (v : option string) (fallback : string) : string :=
  match v with
  | Some s => if String.eqb s "" then fallback else s
  | None => fallback
  end.

(** Start-up: [None] is [process.exit(1)] on a missing token, otherwise the
    client the handlers share. *)
Definition startup (penv : ProcessEnv) : option NeventClient :=
  let token := or_else (NEVENT_JWT_TOKEN penv) "" in
  if String.eqb token "" then None
  else Some (Client.constructor
               {| config_baseUrl := or_else (NEVENT_API_URL penv) "https://api.nevent.io";
                  config_jwtToken := token;
                  config_tenantId := NEVENT_TENANT_ID penv |}).

Definition allToolDefinitions : list ToolDefinition :=
  (Users.userToolDefinitions ++ Campaigns.campaignToolDefinitions
   ++ Lineup.lineupToolDefinitions)%list.

(** [ErrorCode.MethodNotFound] and the constructor of [McpError], as the
    protocol SDK defines them: the message of the error is
    [MCP error <code>: <message>]. *)
Definition MethodNotFound : Z := (-32601)%Z.

Definition new_McpError (code : Z) (message : string) : Thrown :=
  ErrorObject (EMcpError code)
    ("MCP error " ++ number_to_string code ++ ": " ++ message).

Definition Case : Type := string * (NeventClient -> JsObject -> M JsValue).

(** The cases of the [switch (name)], in source order. *)
Definition user_cases : list Case :=
  [ ("list_users", fun client toolArgs => Users.listUsers client toolArgs);
    ("get_user", fun client toolArgs =>
       Users.getUser client (obj_get "userId" toolArgs));
    ("get_user_by_email", fun client toolArgs =>
       Users.getUserByEmail client (obj_get "email" toolArgs));
    ("create_user", fun client toolArgs => Users.createUser client toolArgs);
    ("update_user", fun client toolArgs =>
       let userId := obj_get "userId" toolArgs in
       let userData := obj_rest "userId" toolArgs in
       Users.updateUser client userId userData);
    ("delete_user", fun client toolArgs =>
       Users.deleteUser client (obj_get "userId" toolArgs));
    ("get_user_purchases", fun client toolArgs =>
       let userId := obj_get "userId" toolArgs in
       Users.getUserPurchases client userId
         [field "page" toolArgs; field "size" toolArgs]);
    ("get_user_events", fun client toolArgs =>
       let userId := obj_get "userId" toolArgs in
       Users.getUserEvents client userId
         [field "page" toolArgs; field "size" toolArgs; field "type" toolArgs]);
    ("get_property_definitions", fun client toolArgs =>
       Users.getPropertyDefinitions client toolArgs);
    ("create_property_definition", fun client toolArgs =>
       Users.createPropertyDefinition client toolArgs);
    ("get_user_communication_preferences", fun client toolArgs =>
       Users.getUserCommunicationPreferences client (obj_get "userId" toolArgs));
    ("update_user_communication_preferences", fun client toolArgs =>
       let userId := obj_get "userId" toolArgs in
       let preferences := obj_rest "userId" toolArgs in
       Users.updateUserCommunicationPreferences client userId preferences);
    ("get_user_count", fun client _ => Users.getUserCount client);
    ("export_users", fun client toolArgs => Users.exportUsers client toolArgs) ].

Definition campaign_cases : list Case :=
  [ ("list_campaigns", fun client toolArgs =>
       Campaigns.listCampaigns client toolArgs);
    ("get_campaign", fun client toolArgs =>
       Campaigns.getCampaign client (obj_get "campaignId" toolArgs));
    ("create_campaign", fun client toolArgs =>
       Campaigns.createCampaign client toolArgs);
    ("update_campaign", fun client toolArgs =>
       let campaignId := obj_get "campaignId" toolArgs in
       let campaignData := obj_rest "campaignId" toolArgs in
       Campaigns.updateCampaign client campaignId campaignData);
    ("delete_campaign", fun client toolArgs =>
       Campaigns.deleteCampaign client (obj_get "campaignId" toolArgs));
    ("send_campaign", fun client toolArgs =>
       Campaigns.sendCampaign client (obj_get "campaignId" toolArgs));
    ("schedule_campaign", fun client toolArgs =>
       Campaigns.scheduleCampaign client (obj_get "campaignId" toolArgs)
         (obj_get "scheduledAt" toolArgs));
    ("pause_campaign", fun client toolArgs =>
       Campaigns.pauseCampaign client (obj_get "campaignId" toolArgs));
    ("cancel_campaign", fun client toolArgs =>
       Campaigns.cancelCampaign client (obj_get "campaignId" toolArgs));
    ("get_campaign_metrics", fun client toolArgs =>
       Campaigns.getCampaignMetrics client (obj_get "campaignId" toolArgs));
    ("send_test_campaign", fun client toolArgs =>
       Campaigns.sendTestCampaign client (obj_get "campaignId" toolArgs)
         (obj_get "testEmails" toolArgs));
    ("duplicate_campaign", fun client toolArgs =>
       Campaigns.duplicateCampaign client (obj_get "campaignId" toolArgs));
    ("list_segments", fun client toolArgs =>
       Campaigns.listSegments client toolArgs);
    ("get_segment", fun client toolArgs =>
       Campaigns.getSegment client (obj_get "segmentId" toolArgs));
    ("create_segment", fun client toolArgs =>
       Campaigns.createSegment client toolArgs);
    ("update_segment", fun client toolArgs =>
       let segmentId := obj_get "segmentId" toolArgs in
       let segmentData := obj_rest "segmentId" toolArgs in
       Campaigns.updateSegment client segmentId segmentData);
    ("delete_segment", fun client toolArgs =>
       Campaigns.deleteSegment client (obj_get "segmentId" toolArgs));
    ("preview_segment", fun client toolArgs =>
       Campaigns.previewSegment client (obj_get "criteria" toolArgs));
    ("execute_segment", fun client toolArgs =>
       Campaigns.executeSegment client (obj_get "segmentId" toolArgs));
    ("list_email_templates", fun client toolArgs =>
       Campaigns.listEmailTemplates client toolArgs);
    ("get_email_template", fun client toolArgs =>
       Campaigns.getEmailTemplate client (obj_get "templateId" toolArgs));
    ("create_email_template", fun client toolArgs =>
       Campaigns.createEmailTemplate client toolArgs);
    ("update_email_template", fun client toolArgs =>
       let templateId := obj_get "templateId" toolArgs in
       let templateData := obj_rest "templateId" toolArgs in
       Campaigns.updateEmailTemplate client templateId templateData);
    ("delete_email_template", fun client toolArgs =>
       Campaigns.deleteEmailTemplate client (obj_get "templateId" toolArgs));
    ("render_email_template", fun client toolArgs =>
       Campaigns.renderEmailTemplate client (obj_get "templateId" toolArgs));
    ("generate_email_content", fun client toolArgs =>
       let prompt := obj_get "prompt" toolArgs in
       let options := obj_rest "prompt" toolArgs in
       Campaigns.generateEmailContent client prompt options) ].

Definition lineup_cases : list Case :=
  [ ("create_performer", fun client toolArgs =>
       Lineup.createPerformer client toolArgs);
    ("search_spotify", fun client toolArgs =>
       Lineup.searchSpotify client (obj_get "query" toolArgs)
         (obj_get "limit" toolArgs));
    ("search_performers", fun client toolArgs =>
       Lineup.searchPerformers client (obj_get "query" toolArgs)
         (obj_get "limit" toolArgs));
    ("link_performer_spotify", fun client toolArgs =>
       let performerId := obj_get "performerId" toolArgs in
       Lineup.linkPerformerSpotify client performerId
         [field "spotifyId" toolArgs; field "overrideData" toolArgs]);
    ("unlink_performer_from_master", fun client toolArgs =>
       Lineup.unlinkPerformerFromMaster client (obj_get "performerId" toolArgs));
    ("update_performer", fun client toolArgs =>
       let performerId := obj_get "performerId" toolArgs in
       let performerData := obj_rest "performerId" toolArgs in
       Lineup.updatePerformer client performerId performerData);
    ("get_performer", fun client toolArgs =>
       Lineup.getPerformer client (obj_get "performerId" toolArgs)
         (obj_get "includeMaster" toolArgs));
    ("list_performers", fun client toolArgs =>
       Lineup.listPerformers client
         [field "page" toolArgs; field "size" toolArgs; field "sort" toolArgs]);
    ("delete_performer", fun client toolArgs =>
       Lineup.deletePerformer client (obj_get "performerId" toolArgs));
    ("create_performer_from_master", fun client toolArgs =>
       Lineup.createPerformerFromMaster client
         (obj_get "masterPerformerId" toolArgs));
    ("get_performer_likes", fun client toolArgs =>
       Lineup.getPerformerLikes client (obj_get "performerId" toolArgs)
         [field "page" toolArgs; field "size" toolArgs]);
    ("list_event_sessions", fun client toolArgs =>
       Lineup.listEventSessions client (obj_get "eventId" toolArgs)
         [field "date" toolArgs; field "stage" toolArgs;
          field "isPublished" toolArgs]);
    ("create_session", fun client toolArgs =>
       let eventId := obj_get "eventId" toolArgs in
       let sessionData := obj_rest "eventId" toolArgs in
       Lineup.createSession client eventId sessionData);
    ("update_session", fun client toolArgs =>
       let sessionId := obj_get "sessionId" toolArgs in
       let sessionData := obj_rest "sessionId" toolArgs in
       Lineup.updateSession client sessionId sessionData);
    ("get_session", fun client toolArgs =>
       Lineup.getSession client (obj_get "sessionId" toolArgs));
    ("delete_session", fun client toolArgs =>
       Lineup.deleteSession client (obj_get "sessionId" toolArgs));
    ("add_performer_to_session", fun client toolArgs =>
       Lineup.addPerformerToSession client (obj_get "sessionId" toolArgs)
         [field "performerId" toolArgs; field "displayOrder" toolArgs;
          field "notes" toolArgs]);
    ("remove_performer_from_session", fun client toolArgs =>
       Lineup.removePerformerFromSession client (obj_get "sessionId" toolArgs)
         (obj_get "performerId" toolArgs));
    ("reorder_session_performers", fun client toolArgs =>
       Lineup.reorderSessionPerformers client (obj_get "sessionId" toolArgs)
         (obj_get "newOrders" toolArgs));
    ("publish_session", fun client toolArgs =>
       Lineup.publishSession client (obj_get "sessionId" toolArgs)
         (obj_get "isPublished" toolArgs));
    ("get_public_lineup", fun client toolArgs =>
       Lineup.getPublicLineup client (obj_get "eventId" toolArgs));
    ("get_admin_lineup", fun client toolArgs =>
       Lineup.getAdminLineup client (obj_get "eventId" toolArgs));
    ("create_or_update_daily_lineup", fun client toolArgs =>
       Lineup.createOrUpdateDailyLineup client (obj_get "eventId" toolArgs)
         [field "date" toolArgs; field "performerIds" toolArgs;
          field "displayOrder" toolArgs]);
    ("get_all_daily_lineups", fun client toolArgs =>
       Lineup.getAllDailyLineups client (obj_get "eventId" toolArgs));
    ("get_daily_lineup_by_date", fun client toolArgs =>
       Lineup.getDailyLineupByDate client (obj_get "eventId" toolArgs)
         (obj_get "date" toolArgs));
    ("update_daily_lineup", fun client toolArgs =>
       Lineup.updateDailyLineup client (obj_get "eventId" toolArgs)
         (obj_get "date" toolArgs)
         [field "date" toolArgs; field "performerIds" toolArgs;
          field "displayOrder" toolArgs]);
    ("publish_daily_lineup", fun client toolArgs =>
       Lineup.publishDailyLineup client (obj_get "eventId" toolArgs)
         (obj_get "date" toolArgs));
    ("unpublish_daily_lineup", fun client toolArgs =>
       Lineup.unpublishDailyLineup client (obj_get "eventId" toolArgs)
         (obj_get "date" toolArgs));
    ("delete_daily_lineup", fun client toolArgs =>
       Lineup.deleteDailyLineup client (obj_get "eventId" toolArgs)
         (obj_get "date" toolArgs)) ].

Definition cases : list Case := (user_cases ++ campaign_cases ++ lineup_cases)%list.

Definition find_case (name : string) : option Case :=
  find (fun c => String.eqb name (fst c)) cases.

(** The [switch] inside the [try]: the matching case, or the [default]
    that throws. *)
Definition call_tool (client : NeventClient) (name : string) (toolArgs : JsObject)
  : M JsValue :=
  match find_case name with
  | Some c => snd c client toolArgs
  | None => throw (new_McpError MethodNotFound ("Unknown tool: " ++ name))
  end.

Record TextContent : Type := {
  type : string;
  text : option string
}.

Record CallToolResult : Type := {
  content : list TextContent;
  isError : option bool
}.

(** The params of a call-tool request; [arguments] is an object or absent. *)
Record CallToolParams : Type := {
  tool_name : string;
  arguments : option JsObject
}.

(** [error instanceof Error ? error.message : String(error)] *)
Definition error_message (error : Thrown) : Completion string :=
  match error with
  | ErrorObject _ message => Normal message
  | ThrownValue v => js_ToString v
  end.

Definition success_reply (result : JsValue) : CallToolResult :=
  {| content := [ {| type := "text"; text := JSON_stringify_pretty result |} ];
     isError := None |}.

Definition error_reply (errorMessage : string) : CallToolResult :=
  {| content := [ {| type := "text"; text := Some ("Error: " ++ errorMessage) |} ];
     isError := Some true |}.

(** The handler of [CallToolRequestSchema]: the [try] around the switch and
    its [catch]. *)
Definition call_tool_handler (client : NeventClient) (params : CallToolParams)
  : M CallToolResult :=
  fun env tr =>
    let toolArgs := match arguments params with
                    | Some args => args
                    | None => []
                    end in
    match call_tool client (tool_name params) toolArgs env tr with
    | (Normal result, tr') => (Normal (success_reply result), tr')
    | (Throw error, tr') =>
        (let! errorMessage := error_message error in
         Normal (error_reply errorMessage), tr')
    end.

(** The handler of [ListToolsRequestSchema]. *)
Definition list_tools_handler : list ToolDefinition := allToolDefinitions.

End Server.

Import Server.

(* ================================================================== *)
(** ** The run of [request], step by step *)
(* ================================================================== *)

(** What [request] hands to [fetch], when it gets that far. *)
Definition prepare (this : NeventClient) (env : Env) (method path : string)
    (body : JsValue) (params : option JsObject) : Completion FetchCall :=
  let! url := new_URL env (baseUrl this ++ path) in
  let! url := match params with
              | Some entries => append_params entries url
              | None => Normal url
              end in
  Normal {| fetch_url := URL_toString url;
            fetch_init :=
              {| init_method := method;
                 init_headers :=
                   [ ("Authorization", "Bearer " ++ jwtToken this);
                     ("Content-Type", "application/json") ];
                 init_body :=
                   if js_truthy body && negb (String.eqb method "GET")
                   then JSON_stringify body
                   else None |} |}.

(** What [request] makes of a received response. *)
Definition settle (response : Response) : Completion ApiResponse :=
  let! data := read_body response in
  if negb (ok_status response) then
    let! e := new_Error (if has_message data then message_of data
                         else JStr (http_error_message response)) in
    Throw e
  else Normal {| data := data; api_status := status response;
                 ok := ok_status response |}.

(** The URL [u] after the pairs [q] were appended to its search
    parameters, one by one. *)
Definition appended_to (u : URL) (q : list (string * string)) : URL :=
  match q with
  | [] => u
  | _ => {| url_address := url_address u;
            url_query := Some (urlencoded (searchParams u ++ q));
            searchParams := (searchParams u ++ q)%list;
            url_fragment := url_fragment u |}
  end.

(** The fragment of a URL as its serialisation shows it. *)
Definition fragment_text (u : URL) : string :=
  match url_fragment u with
  | Some f => "#" ++ f
  | None => ""
  end.

(* ================================================================== *)
(** ** The statements of the specification, and the inputs used below *)
(* ================================================================== *)

Module Spec.

(** The message the specification gives to the error of a response outside
    2xx: the [message] member of the body when the body is an object that
    contains a string [message], the synthesized text otherwise. *)
Definition stated_error_message (r : Response) (d : JsValue) : string :=
  match d with
  | JObj o =>
      match obj_get "message" o with
      | JStr s => s
      | _ => http_error_message r
      end
  | _ => http_error_message r
  end.

(** C1 as the specification words it, for one call of [request]. *)
Definition response_contract (this : NeventClient) (method path : string)
    (body : JsValue) (params : option JsObject) (env : Env) : Prop :=
  forall call r d,
    In (Fetched call) (trace_of (request this method path body params) env) ->
    fetch env call = Fulfilled r ->
    read_body r = Normal d ->
    ((200 <= status r <= 299)%Z ->
     outcome (request this method path body params) env
     = Normal {| data := d; api_status := status r; ok := true |})
    /\ (~ (200 <= status r <= 299)%Z ->
        outcome (request this method path body params) env
        = Throw (ErrorObject EError (stated_error_message r d))).

(** The values a query-parameter mapping may hold besides [undefined]. *)
Definition scalar (v : JsValue) : bool :=
  match v with
  | JStr _ | JNum _ | JBool _ => true
  | _ => false
  end.



(** The text of [s] before the first [c], and the text after it when [c]
    occurs. *)
Fixpoint split_first (c : ascii) (s : string) : string * option string :=
  match s with
  | EmptyString => (EmptyString, None)
  | String x rest =>
      if Ascii.eqb x c then (EmptyString, Some rest)
      else let (a, b) := split_first c rest in (String x a, b)
  end.

(** [s.split(c)] *)
Fixpoint split_on (c : ascii) (s : string) : list string :=
  match s with
  | EmptyString => [EmptyString]
  | String x rest =>
      if Ascii.eqb x c then EmptyString :: split_on c rest
      else match split_on c rest with
           | seg :: segs => String x seg :: segs
           | [] => [String x EmptyString]
           end
  end.








(** C3 as the specification words it, for one call of [request] that was
    given a body. *)
Definition payload_contract (this : NeventClient) (method path : string)
    (body : JsValue) (params : option JsObject) (env : Env) : Prop :=
  body <> JUndefined ->
  forall call,
    In (Fetched call) (trace_of (request this method path body params) env) ->
    (method <> "GET" -> init_body (fetch_init call) = JSON_stringify body)
    /\ (method = "GET" -> init_body (fetch_init call) = None).

(** A top-level key of a request body, of a query mapping. *)
Definition body_has (k : string) (b : JsValue) : bool :=
  match b with
  | JObj o => obj_has k o
  | _ => false
  end.

Definition params_have (k : string) (ps : option JsObject) : bool :=
  match ps with
  | Some o => obj_has k o
  | None => false
  end.

(** The arguments each tool puts into the path of its request (the
    template of its typed function, fed by the handler). Tools that are not
    listed put none. *)
Definition path_fields_table : list (string * list string) :=
  [ ("get_user", ["userId"]);
    ("get_user_by_email", ["email"]);
    ("update_user", ["userId"]);
    ("delete_user", ["userId"]);
    ("get_user_purchases", ["userId"]);
    ("get_user_events", ["userId"]);
    ("get_user_communication_preferences", ["userId"]);
    ("update_user_communication_preferences", ["userId"]);
    ("get_campaign", ["campaignId"]);
    ("update_campaign", ["campaignId"]);
    ("delete_campaign", ["campaignId"]);
    ("send_campaign", ["campaignId"]);
    ("schedule_campaign", ["campaignId"]);
    ("pause_campaign", ["campaignId"]);
    ("cancel_campaign", ["campaignId"]);
    ("get_campaign_metrics", ["campaignId"]);
    ("send_test_campaign", ["campaignId"]);
    ("duplicate_campaign", ["campaignId"]);
    ("get_segment", ["segmentId"]);
    ("update_segment", ["segmentId"]);
    ("delete_segment", ["segmentId"]);
    ("execute_segment", ["segmentId"]);
    ("get_email_template", ["templateId"]);
    ("update_email_template", ["templateId"]);
    ("delete_email_template", ["templateId"]);
    ("render_email_template", ["templateId"]);
    ("link_performer_spotify", ["performerId"]);
    ("unlink_performer_from_master", ["performerId"]);
    ("update_performer", ["performerId"]);
    ("get_performer", ["performerId"]);
    ("delete_performer", ["performerId"]);
    ("create_performer_from_master", ["masterPerformerId"]);
    ("get_performer_likes", ["performerId"]);
    ("list_event_sessions", ["eventId"]);
    ("create_session", ["eventId"]);
    ("update_session", ["sessionId"]);
    ("get_session", ["sessionId"]);
    ("delete_session", ["sessionId"]);
    ("add_performer_to_session", ["sessionId"]);
    ("remove_performer_from_session", ["sessionId"; "performerId"]);
    ("reorder_session_performers", ["sessionId"]);
    ("publish_session", ["sessionId"]);
    ("get_public_lineup", ["eventId"]);
    ("get_admin_lineup", ["eventId"]);
    ("create_or_update_daily_lineup", ["eventId"]);
    ("get_all_daily_lineups", ["eventId"]);
    ("get_daily_lineup_by_date", ["eventId"; "date"]);
    ("update_daily_lineup", ["eventId"; "date"]);
    ("publish_daily_lineup", ["eventId"; "date"]);
    ("unpublish_daily_lineup", ["eventId"; "date"]);
    ("delete_daily_lineup", ["eventId"; "date"]) ].

Definition path_fields (tool_name : string) : list string :=
  match find (fun e => String.eqb tool_name (fst e)) path_fields_table with
  | Some e => snd e
  | None => []
  end.

(** A probe of the model: every property of a tool is given a marked
    value, and the properties whose mark shows in the path of the request
    are collected. *)
Definition probe_args (t : ToolDefinition) : JsObject :=
  map (fun kd => (fst kd, JStr ("ID-" ++ fst kd ++ "-ID"))) (properties t).

Definition probe_path (client : NeventClient) (env : Env) (t : ToolDefinition)
  : string :=
  match trace_of (call_tool client (name t) (probe_args t)) env with
  | Requested _ p _ _ :: _ => p
  | _ => ""
  end.

Definition probe_fields (client : NeventClient) (env : Env) (t : ToolDefinition)
  : list string :=
  filter (fun k => includes (probe_path client env t) ("ID-" ++ k ++ "-ID"))
    (map fst (properties t)).

Definition same_fields (a b : list string) : bool :=
  if list_eq_dec string_dec a b then true else false.

(** The tools whose handler case takes the identifier out of the bag with a
    rest pattern and hands the remainder on as the body. *)
Definition rest_table : list (string * string) :=
  [ ("update_user", "userId");
    ("update_user_communication_preferences", "userId");
    ("update_campaign", "campaignId");
    ("update_segment", "segmentId");
    ("update_email_template", "templateId");
    ("update_performer", "performerId");
    ("update_session", "sessionId") ].

(** C5 as the specification words it, for one invocation: no field that
    the tool puts in its path is a key of a request body. *)
Definition identifier_contract (client : NeventClient) (tool_name : string)
    (args : JsObject) (env : Env) : Prop :=
  forall m p b ps,
    In (Requested m p b ps) (trace_of (call_tool client tool_name args) env) ->
    forall k, In k (path_fields tool_name) -> body_has k b = false.

(** The defaults the catalogue documents: tool, property, default value. *)
Definition documented_defaults : list (string * string * JsValue) :=
  flat_map
    (fun t =>
       flat_map (fun kd => match snd kd with
                           | Some d => [(name t, fst kd, d)]
                           | None => []
                           end) (properties t))
    allToolDefinitions.

(** C6 as the specification words it, for one invocation that omits the
    property [k]: the run is the one of the same invocation with the
    default [d] supplied. *)
Definition default_contract (client : NeventClient) (tool_name k : string)
    (d : JsValue) (args : JsObject) (env : Env) : Prop :=
  obj_has k args = false ->
  call_tool client tool_name (args ++ [(k, d)])%list env []
  = call_tool client tool_name args env [].

(** The documented defaults that no code applies. *)
Definition declared_only (tool_name k : string) : bool :=
  (String.eqb tool_name "export_users" && String.eqb k "format")
  || (String.eqb tool_name "link_performer_spotify" && String.eqb k "overrideData")
  || (String.eqb tool_name "create_session" && String.eqb k "isPublished").

Definition applied_defaults : list (string * string * JsValue) :=
  filter (fun x => negb (declared_only (fst (fst x)) (snd (fst x))))
    documented_defaults.

(** C7, C8: the reply the handler gives for a failure with the message
    [message]. *)
Definition failure_reply (message : string) : CallToolResult :=
  {| content := [ {| type := "text"; text := Some ("Error: " ++ message) |} ];
     isError := Some true |}.

End Spec.


(** The instances of [Error]. *)
Definition is_Error (e : Thrown) : Prop :=
  match e with
  | ErrorObject _ _ => True
  | ThrownValue _ => False
  end.

(** The arguments the handler passes on: [args || {}]. *)
Definition toolArgs_of (params : CallToolParams) : JsObject :=
  match arguments params with
  | Some args => args
  | None => []
  end.

(** What the five convenience methods share. *)
Definition send (this : NeventClient) (method path : string) (body : JsValue)
    (params : option JsObject) : M JsValue :=
  response <- request this method path body params ;;
  ret (data response).

Module Examples.

Definition client : NeventClient :=
  Client.constructor {| config_baseUrl := "https://api.nevent.io/";
                        config_jwtToken := "secret";
                        config_tenantId := None |}.

Definition json_response (code : Z) (reason : string) (body : JsValue) : Response :=
  {| status := code;
     statusText := reason;
     content_type := Some "application/json; charset=utf-8";
     json := Fulfilled body;
     Web.text := Rejected ETypeError "Body is unusable" |}.

(** The pairs of a query string whose keys and values need no decoding. *)
Definition parse_pairs (q : string) : list (string * string) :=
  flat_map (fun seg =>
              if String.eqb seg "" then []
              else match Spec.split_first "=" seg with
                   | (k, Some v) => [(k, v)]
                   | (k, None) => [(k, "")]
                   end)
    (Spec.split_on "&" q).

(** A URL parser for the addresses of the examples: it accepts what starts
    with [https://] or [http://] and splits off the fragment and the query.
    On an address whose host is in lower case and whose path and query hold
    only letters, digits, [/ - . _ = &] and percent-encoded bytes, it gives
    what the platform's parser gives. *)
Definition parse (s : string) : option URL :=
  if prefix "https://" s || prefix "http://" s then
    let (before, fragment) := Spec.split_first "#" s in
    let (address, query) := Spec.split_first "?" before in
    Some {| url_address := address;
            url_query := query;
            searchParams := match query with
                            | Some q => parse_pairs q
                            | None => []
                            end;
            url_fragment := fragment |}
  else None.

(** The environment whose network answers every call with the same
    response. *)
Definition always (r : Response) : Env :=
  {| URL_parse := parse; fetch := fun _ => Fulfilled r |}.

(** The environment whose network is down. *)
Definition unreachable : Env :=
  {| URL_parse := parse; fetch := fun _ => Rejected ETypeError "fetch failed" |}.

Definition user_not_found : Response :=
  json_response 404 "Not Found" (JObj [("message", JStr "User not found")]).

Definition numeric_message : Response :=
  json_response 400 "Bad Request" (JObj [("message", JNum 42)]).

Definition ok_empty : Response := json_response 200 "OK" (JObj []).


(** A process environment that sets a tenant. *)
Definition tenant_env : ProcessEnv :=
  {| NEVENT_API_URL := None;
     NEVENT_JWT_TOKEN := Some "secret";
     NEVENT_TENANT_ID := Some "acme" |}.

Definition standard_headers : list (string * string) :=
  [ ("Authorization", "Bearer secret"); ("Content-Type", "application/json") ].

Definition update_u1 : CallToolParams :=
  {| tool_name := "update_user";
     arguments := Some [("userId", JStr "u1"); ("name", JStr "Ann")] |}.

Definition get_user_u1 : CallToolParams :=
  {| tool_name := "get_user"; arguments := Some [("userId", JStr "u1")] |}.

(** The text [{"name":"Ann"}]. *)
Definition name_Ann : string :=
  "{" ++ json_quote "name" ++ ":" ++ json_quote "Ann" ++ "}".

Definition put_u1 : FetchCall :=
  {| fetch_url := "https://api.nevent.io/users/u1";
     fetch_init := {| init_method := "PUT";
                      init_headers := standard_headers;
                      init_body := Some name_Ann |} |}.

Definition session_args : JsObject :=
  [("eventId", JStr "e1"); ("name", JStr "Opening")].

Definition list_users_no_args : CallToolParams :=
  {| tool_name := "list_users"; arguments := None |}.

Definition get_u1 : FetchCall :=
  {| fetch_url := "https://api.nevent.io/users/u1";
     fetch_init :=
       {| init_method := "GET";
          init_headers := [ ("Authorization", "Bearer secret");
                            ("Content-Type", "application/json") ];
          init_body := None |} |}.

(** A 500 whose body has a [message] that has no string form. *)
Definition unprintable_message : Response :=
  json_response 500 "Internal Server Error"
    (JObj [("message", JObj [("toString", JNum 1)])]).

(** What [get_user_events] hands to [request] when it is given the user
    [u1?type=x] and no [type]. *)
Definition events_params : JsObject :=
  [("page", JNum 0); ("size", JNum 20); ("type", JUndefined)].

Definition events_of_u1 : FetchCall :=
  {| fetch_url := "https://api.nevent.io/users/u1?type=x%2Fevents&page=0&size=20";
     fetch_init := {| init_method := "GET";
                      init_headers := standard_headers;
                      init_body := None |} |}.

(** A client whose base URL lacks the scheme. *)
Definition misconfigured : NeventClient :=
  Client.constructor {| config_baseUrl := "api.nevent.io";
                        config_jwtToken := "secret";
                        config_tenantId := None |}.

End Examples.

(* ================================================================== *)
(** ** Definitions for the further properties *)
(* ================================================================== *)

Module More.

(** The reply of the handler for a result [d] and for a failure message. *)
Definition text_reply (t : option string) (flag : option bool) : CallToolResult :=
  {| content := [ {| type := "text"; text := t |} ]; isError := flag |}.

(** A response that does not announce JSON: no content type, or one that
    does not contain [application/json]. *)
Definition not_json (r : Response) : Prop :=
  match content_type r with
  | None => True
  | Some ct => includes ct "application/json" = false
  end.

(** The variable is unset or empty. *)
Definition unset (v : option string) : Prop := v = None \/ v = Some "".

(** The roots of the paths the tools request. *)
Definition path_roots : list string :=
  [ "/users"; "/properties"; "/campaigns"; "/segments"; "/templates/email";
    "/admin/performers"; "/admin/sessions"; "/admin/events";
    "/public/events"; "/events" ].

Definition under_a_root (p : string) : bool :=
  existsb (fun root => prefix root p) path_roots.

Definition methods : list string := ["GET"; "POST"; "PUT"; "PATCH"; "DELETE"].

(** An entry of a query mapping that [request] appends, and the pair it
    appends for it. *)
Definition defined (kv : string * JsValue) : bool :=
  match snd kv with
  | JUndefined => false
  | _ => true
  end.

Definition printed (kv : string * JsValue) (pair : string * string) : Prop :=
  fst pair = fst kv /\ js_ToString (snd kv) = Normal (snd pair).

(** A 204 that announces JSON and has no body to parse. *)
Definition empty_json : Response :=
  {| status := 204;
     statusText := "No Content";
     content_type := Some "application/json";
     json := Rejected ESyntaxError "Unexpected end of JSON input";
     Web.text := Fulfilled "" |}.

(** A gateway error with an HTML body. *)
Definition bad_gateway : Response :=
  {| status := 502;
     statusText := "Bad Gateway";
     content_type := Some "text/html";
     json := Rejected ESyntaxError "Unexpected token";
     Web.text := Fulfilled "<h1>upstream down</h1>" |}.

(** The values whose conversion to a string cannot throw. *)
Definition plain (v : JsValue) : bool :=
  match v with
  | JArr _ | JObj _ => false
  | _ => true
  end.

Definition plain_part (part : string + JsValue) : Prop :=
  match part with
  | inl _ => True
  | inr v => plain v = true
  end.

Definition plain_params (ps : option JsObject) : Prop :=
  match ps with
  | Some entries => Forall (fun kv => plain (snd kv) = true) entries
  | None => True
  end.


(** The tools that post the whole argument bag, with their paths. *)
Definition bag_posts : list (string * string) :=
  [ ("create_user", "/users");
    ("create_property_definition", "/properties");
    ("export_users", "/users/export");
    ("create_campaign", "/campaigns");
    ("create_segment", "/segments");
    ("create_email_template", "/templates/email");
    ("create_performer", "/admin/performers") ].

(** The tools that send a query mapping, with the keys of the mapping in
    order. *)
Definition query_fields_table : list (string * list string) :=
  [ ("list_users", ["page"; "size"; "sort"; "email"; "name"; "phone";
                    "createdFrom"; "createdTo"; "eventId"; "listId"]);
    ("get_user_purchases", ["page"; "size"]);
    ("get_user_events", ["page"; "size"; "type"]);
    ("get_property_definitions", ["type"]);
    ("list_campaigns", ["page"; "size"; "sort"; "type"; "status"]);
    ("list_segments", ["page"; "size"; "sort"]);
    ("list_email_templates", ["page"; "size"; "sort"]);
    ("search_spotify", ["query"; "limit"]);
    ("search_performers", ["query"; "limit"]);
    ("get_performer", ["includeMaster"]);
    ("list_performers", ["page"; "size"; "sort"]);
    ("get_performer_likes", ["page"; "size"]);
    ("list_event_sessions", ["date"; "stage"; "isPublished"]) ].

(** The tools whose case builds the body from named arguments, with the
    names in order. *)
Definition named_bodies : list (string * list string) :=
  [ ("schedule_campaign", ["scheduledAt"]);
    ("link_performer_spotify", ["spotifyId"; "overrideData"]);
    ("add_performer_to_session", ["performerId"; "displayOrder"; "notes"]);
    ("publish_session", ["isPublished"]);
    ("create_or_update_daily_lineup", ["date"; "performerIds"; "displayOrder"]);
    ("update_daily_lineup", ["date"; "performerIds"; "displayOrder"]) ].

(** The object [{k1: args.k1, k2: args.k2, ...}]. *)
Definition pick (keys : list string) (args : JsObject) : JsObject :=
  map (fun k => (k, obj_get k args)) keys.

Definition member (x : string) (l : list string) : bool :=
  existsb (String.eqb x) l.

(** A tool of the catalogue whose schema agrees with its case: the
    required names are declared properties, and the arguments put into the
    path are required. *)
Definition schema_agrees (t : ToolDefinition) : bool :=
  forallb (fun r => member r (map fst (properties t))) (required t)
  && forallb (fun k => member k (required t)) (Spec.path_fields (name t)).

(** The values that have a string form. *)
Definition printable (v : JsValue) : bool :=
  match js_ToString v with
  | Normal _ => true
  | Throw _ => false
  end.

Definition printable_part (part : string + JsValue) : Prop :=
  match part with
  | inl _ => True
  | inr v => printable v = true
  end.

(** The members of an object whose key is an array index, and the others. *)
Definition is_index (kv : string * JsValue) : bool :=
  match array_index (fst kv) with
  | Some _ => true
  | None => false
  end.

Definition index_members (o : JsObject) : JsObject := filter is_index o.

Definition named_members (o : JsObject) : JsObject :=
  filter (fun kv => negb (is_index kv)) o.

(** Every key of [o] is an array index below [low]. *)
Definition indices_below (low : Z) (o : JsObject) : bool :=
  forallb (fun kv => match array_index (fst kv) with
                     | Some j => (j <? low)%Z
                     | None => false
                     end) o.

Definition all_named (o : JsObject) : bool :=
  forallb (fun kv => negb (is_index kv)) o.

(** The list [o] is in property order: the array indices come first, in
    ascending order and not below [low], then the other keys. *)
Fixpoint property_order_from (low : Z) (o : JsObject) : bool :=
  match o with
  | [] => true
  | (k, _) :: rest =>
      match array_index k with
      | Some i => (low <=? i)%Z && property_order_from (i + 1) rest
      | None => all_named rest
      end
  end.

Definition property_order (o : JsObject) : bool := property_order_from 0 o.

(** Arguments whose key [7] is an array index. *)
Definition indexed_args : JsObject :=
  [("7", JStr "x"); ("prompt", JStr "hi"); ("tone", JStr "formal")].

(** The call [GET /users?sort=null&page=2]. *)
Definition sorted_users : FetchCall :=
  {| fetch_url := "https://api.nevent.io/users?sort=null&page=2";
     fetch_init := {| init_method := "GET";
                      init_headers := Examples.standard_headers;
                      init_body := None |} |}.

End More.

(* ================================================================== *)
(** * Properties *)
(* ================================================================== *)

(** ** Numbers *)

(** What [String] prints for some integers: all the digits below 2^53, the
    digits of the nearest double above it, and the exponent form from
    10^21. *)
Lemma number_to_string_examples :
  number_to_string 404 = "404"
  /\ number_to_string (-32601) = "-32601"
  /\ number_to_string 9007199254740993 = "9007199254740992"
  /\ number_to_string 123456789012345678901 = "123456789012345680000"
  /\ number_to_string (10 ^ 21) = "1e+21"
  /\ number_to_string (-15 * 10 ^ 20) = "-1.5e+21"
  /\ number_to_string (2 ^ 1024) = "Infinity"
  /\ JSON_stringify (JNum (2 ^ 1024)) = Some "null".
Proof. vm_compute. repeat split; reflexivity. Qed.

(** ** [request] *)

Lemma request_run (this : NeventClient) (method path : string) (body : JsValue)
    (params : option JsObject) (env : Env) (tr : Trace) :
  request this method path body params env tr =
  match prepare this env method path body params with
  | Throw e => (Throw e, (tr ++ [Requested method path body params])%list)
  | Normal call =>
      (let! r := await (fetch env call) in settle r,
       (tr ++ [Requested method path body params; Fetched call])%list)
  end.
Proof.
  unfold request, prepare, bind, note, ask, lift.
  destruct (new_URL env (baseUrl this ++ path)) as [url|e]; simpl; [|reflexivity].
  destruct (match params with
            | Some entries => append_params entries url
            | None => Normal url
            end) as [url'|e]; simpl; [|reflexivity].
  unfold do_fetch. rewrite <- app_assoc. simpl.
  destruct (fetch env _) as [r|cls m]; simpl; [|reflexivity].
  unfold settle, throw, ret.
  destruct (read_body r) as [d|e]; simpl; [|reflexivity].
  destruct (ok_status r); simpl; [reflexivity|].
  destruct (new_Error _); reflexivity.
Qed.

Lemma request_fetched (this : NeventClient) (method path : string) (body : JsValue)
    (params : option JsObject) (env : Env) (call : FetchCall) :
  In (Fetched call) (trace_of (request this method path body params) env) ->
  prepare this env method path body params = Normal call.
Proof.
  unfold trace_of. rewrite request_run.
  destruct (prepare this env method path body params) as [c|e]; simpl.
  - intros [H|[H|[]]]; [discriminate|]. now inversion H.
  - intros [H|[]]. discriminate.
Qed.

Lemma ok_status_range (r : Response) :
  ok_status r = true <-> (200 <= status r <= 299)%Z.
Proof.
  unfold ok_status. rewrite andb_true_iff, !Z.leb_le. tauto.
Qed.

Lemma js_ToString_throws (v : JsValue) (e : Thrown) :
  js_ToString v = Throw e -> e = cannot_convert.
Proof.
  revert e. induction v as [| |b|n|s|items IH|members] using JsValue_elements_ind;
    intros e; simpl; try discriminate.
  - destruct b; discriminate.
  - assert (Hel : forall e', element_strings js_ToString items = Throw e' ->
                             e' = cannot_convert).
    { induction IH as [|x rest Hx _ IHrest]; intros e'; simpl; [discriminate|].
      destruct (match x with
                | JUndefined | JNull => Normal ""
                | _ => js_ToString x
                end) as [sx|ex] eqn:Ex; simpl.
      - destruct (element_strings js_ToString rest) as [ss|er] eqn:Er; simpl;
          [discriminate|].
        intros H; inversion H; subst. now apply IHrest.
      - intros H; inversion H; subst.
        destruct x; try discriminate Ex; now apply Hx. }
    destruct (element_strings js_ToString items) as [parts|e'] eqn:E; simpl;
      [discriminate|].
    intros H; inversion H; subst. now apply Hel.
  - destruct (obj_has "toString" members); [|discriminate].
    intros H; now inversion H.
Qed.

(** C1 (amended). For a response that [request] received and whose body it
    decoded to [d]: with a status in 200..299 the call returns
    [{data: d, status, ok: true}]; with any other status it throws. When
    [d] is not an object with a [message] member, it throws an [Error]
    whose message is the synthesized [HTTP <status>: <statusText>]. When it
    is, it throws an [Error] whose message is the string form of the member
    (the member itself when it is a string, the empty string when it is
    [undefined]); and when the member has no string form, the conversion
    throws instead the [TypeError] [Cannot convert object to primitive
    value]. *)
Theorem request_settles_response (this : NeventClient) (method path : string)
    (body : JsValue) (params : option JsObject) (env : Env)
    (call : FetchCall) (r : Response) (d : JsValue) :
  In (Fetched call) (trace_of (request this method path body params) env) ->
  fetch env call = Fulfilled r ->
  read_body r = Normal d ->
  ((200 <= status r <= 299)%Z ->
   outcome (request this method path body params) env
   = Normal {| data := d; api_status := status r; ok := true |})
  /\ (~ (200 <= status r <= 299)%Z ->
      (has_message d = false ->
       outcome (request this method path body params) env
       = Throw (ErrorObject EError (http_error_message r)))
      /\ (forall s, has_message d = true -> message_of d = JStr s ->
          outcome (request this method path body params) env
          = Throw (ErrorObject EError s))
      /\ (forall s, has_message d = true -> message_of d <> JUndefined ->
          js_ToString (message_of d) = Normal s ->
          outcome (request this method path body params) env
          = Throw (ErrorObject EError s))
      /\ (has_message d = true -> message_of d = JUndefined ->
          outcome (request this method path body params) env
          = Throw (ErrorObject EError ""))
      /\ (forall e, has_message d = true ->
          js_ToString (message_of d) = Throw e ->
          outcome (request this method path body params) env
          = Throw (ErrorObject ETypeError
                     "Cannot convert object to primitive value"))).
Proof.
  intros Hin Hfetch Hbody.
  apply request_fetched in Hin.
  unfold outcome. rewrite request_run, Hin, Hfetch. simpl.
  unfold settle. rewrite Hbody. simpl.
  split.
  - intros Hok. apply ok_status_range in Hok. now rewrite Hok.
  - intros Hnok.
    assert (Hf : ok_status r = false).
    { destruct (ok_status r) eqn:E; [|reflexivity].
      apply ok_status_range in E. contradiction. }
    rewrite Hf. simpl. repeat split.
    + intros Hm. now rewrite Hm.
    + intros s Hm Hs. rewrite Hm, Hs. reflexivity.
    + intros s Hm Hu Hs. rewrite Hm. unfold new_Error.
      destruct (message_of d); try (rewrite Hs; reflexivity).
      contradiction.
    + intros Hm Hu. rewrite Hm, Hu. reflexivity.
    + intros e Hm He. rewrite Hm. unfold new_Error.
      pose proof (js_ToString_throws _ _ He) as ->.
      destruct (message_of d); try discriminate He; rewrite He; reflexivity.
Qed.

Lemma request_settles_response_witness :
  In (Fetched Examples.get_u1)
     (trace_of (request Examples.client "GET" "/users/u1" JUndefined None)
        (Examples.always Examples.user_not_found))
  /\ outcome (request Examples.client "GET" "/users/u1" JUndefined None)
       (Examples.always Examples.user_not_found)
     = Throw (ErrorObject EError "User not found").
Proof.
  assert (Hin : In (Fetched Examples.get_u1)
     (trace_of (request Examples.client "GET" "/users/u1" JUndefined None)
        (Examples.always Examples.user_not_found))).
  { vm_compute. right. left. reflexivity. }
  split; [exact Hin|].
  refine (proj1 (proj2 (proj2 (request_settles_response
            Examples.client "GET" "/users/u1" JUndefined None
            (Examples.always Examples.user_not_found)
            Examples.get_u1 Examples.user_not_found
            (JObj [("message", JStr "User not found")])
            Hin eq_refl eq_refl) _)) "User not found" eq_refl eq_refl).
  vm_compute. intros [_ H]. apply H. reflexivity.
Defined.

(** A 500 whose body is [{message: {toString: 1}}]: the conversion of the
    member throws. *)
Lemma unprintable_message_throws :
  outcome (request Examples.client "GET" "/users/u1" JUndefined None)
    (Examples.always Examples.unprintable_message)
  = Throw (ErrorObject ETypeError "Cannot convert object to primitive value").
Proof. reflexivity. Qed.

(** C1 as stated fails on a body whose [message] is not a string: the code
    only asks whether the key is there, and [new Error] prints the member.
    A 400 response with the JSON body [{message: 42}] gives the message
    [42], not [HTTP 400: Bad Request]. *)
Lemma response_contract_fails :
  ~ Spec.response_contract Examples.client "GET" "/users/u1" JUndefined None
      (Examples.always Examples.numeric_message).
Proof.
  intros H.
  destruct (H Examples.get_u1 Examples.numeric_message
              (JObj [("message", JNum 42)])) as [_ H2].
  - vm_compute. right. left. reflexivity.
  - reflexivity.
  - reflexivity.
  - assert (Hcode : ~ (200 <= status Examples.numeric_message <= 299)%Z)
      by (vm_compute; intros [_ K]; apply K; reflexivity).
    specialize (H2 Hcode). vm_compute in H2. discriminate H2.
Qed.

(** ** The query string *)

Lemma append_nil_r (a : string) : a ++ "" = a.
Proof. induction a as [|x a IH]; simpl; [reflexivity|now rewrite IH]. Qed.

Lemma appended_to_cons (k v : string) (q : list (string * string)) (u : URL) :
  appended_to (searchParams_append k v u) q = appended_to u ((k, v) :: q).
Proof.
  unfold appended_to, searchParams_append. destruct q as [|x q]; simpl.
  - reflexivity.
  - now rewrite <- !app_assoc.
Qed.


(** The serialisation of a URL to which pairs were appended. *)
Lemma URL_toString_appended (u : URL) (q : list (string * string)) :
  q <> [] ->
  URL_toString (appended_to u q)
  = url_address u ++ "?" ++ urlencoded (searchParams u ++ q) ++ fragment_text u.
Proof.
  intros Hq. destruct q as [|x q]; [contradiction|].
  unfold appended_to, URL_toString, fragment_text. simpl.
  destruct (url_fragment u); [reflexivity|now rewrite append_nil_r].
Qed.



(** *** What URL-encoding is *)









(** *** The segments of a serialised query *)










(** The request above is the one of [get_user_events] for that user. *)
Lemma get_user_events_keeps_the_query :
  trace_of (call_tool Examples.client "get_user_events"
              [("userId", JStr "u1?type=x")])
    (Examples.always Examples.ok_empty)
  = [ Requested "GET" "/users/u1?type=x/events" JUndefined
        (Some Examples.events_params);
      Fetched Examples.events_of_u1 ].
Proof. reflexivity. Qed.

(** ** The payload *)

Lemma prepare_init (this : NeventClient) (env : Env) (method path : string)
    (body : JsValue) (params : option JsObject) (call : FetchCall) :
  prepare this env method path body params = Normal call ->
  fetch_init call
  = {| init_method := method;
       init_headers := [ ("Authorization", "Bearer " ++ jwtToken this);
                         ("Content-Type", "application/json") ];
       init_body := if js_truthy body && negb (String.eqb method "GET")
                    then JSON_stringify body else None |}.
Proof.
  unfold prepare.
  destruct (new_URL env (baseUrl this ++ path)) as [url|e]; simpl; [|discriminate].
  destruct (match params with
            | Some entries => append_params entries url
            | None => Normal url
            end) as [url'|e]; simpl; [|discriminate].
  intros H. inversion H. reflexivity.
Qed.

Lemma truthy_serializes (v : JsValue) :
  js_truthy v = true -> exists s, JSON_stringify v = Some s.
Proof.
  unfold JSON_stringify.
  destruct v as [| |b|n|s|items|members]; simpl; try discriminate; intros H.
  - subst b. eexists; reflexivity.
  - eexists; reflexivity.
  - eexists; reflexivity.
  - match goal with |- context [match ?l with [] => _ | _ :: _ => _ end] =>
      destruct l end; eexists; reflexivity.
  - match goal with |- context [match ?l with [] => _ | _ :: _ => _ end] =>
      destruct l end; eexists; reflexivity.
Qed.

(** C3 (amended). In every call of [fetch] that [request] makes: when the
    method is not GET and the body is truthy, the payload is the JSON
    serialisation of the body; when the method is GET, or the body is falsy
    ([undefined], [null], [false], [0] or the empty string), there is no
    payload. *)
Theorem request_payload (this : NeventClient) (method path : string)
    (body : JsValue) (params : option JsObject) (env : Env) (call : FetchCall) :
  In (Fetched call) (trace_of (request this method path body params) env) ->
  (method <> "GET" -> js_truthy body = true ->
   exists s, JSON_stringify body = Some s /\ init_body (fetch_init call) = Some s)
  /\ (method = "GET" -> init_body (fetch_init call) = None)
  /\ (js_truthy body = false -> init_body (fetch_init call) = None).
Proof.
  intros Hin. apply request_fetched in Hin. apply prepare_init in Hin.
  rewrite Hin. simpl. repeat split.
  - intros Hm Ht. rewrite Ht.
    apply String.eqb_neq in Hm. rewrite Hm. simpl.
    destruct (truthy_serializes body Ht) as [s Hs].
    exists s. now rewrite Hs.
  - intros Hm. subst method. simpl. now rewrite andb_false_r.
  - intros Ht. now rewrite Ht.
Qed.

Lemma request_payload_witness :
  In (Fetched Examples.get_u1)
     (trace_of (request Examples.client "GET" "/users/u1" (JObj []) None)
        (Examples.always Examples.ok_empty))
  /\ init_body (fetch_init Examples.get_u1) = None.
Proof.
  assert (Hin : In (Fetched Examples.get_u1)
     (trace_of (request Examples.client "GET" "/users/u1" (JObj []) None)
        (Examples.always Examples.ok_empty))).
  { vm_compute. right. left. reflexivity. }
  split; [exact Hin|].
  exact (proj1 (proj2 (request_payload Examples.client "GET" "/users/u1" (JObj [])
                         None (Examples.always Examples.ok_empty)
                         Examples.get_u1 Hin)) eq_refl).
Defined.

(** C3 as stated fails on a falsy body: [options.body && ...] drops it.
    A POST that is given the body [false] carries no payload, where the
    serialisation of [false] is the text [false]. *)
Lemma payload_contract_fails :
  ~ Spec.payload_contract Examples.client "POST" "/segments/preview"
      (JBool false) None (Examples.always Examples.ok_empty).
Proof.
  intros H.
  assert (Hb : JBool false <> JUndefined) by discriminate.
  destruct (H Hb {| fetch_url := "https://api.nevent.io/segments/preview";
                    fetch_init := {| init_method := "POST";
                                     init_headers := Examples.standard_headers;
                                     init_body := None |} |}) as [H1 _].
  - vm_compute. right. left. reflexivity.
  - assert (Hm : "POST" <> "GET") by discriminate.
    specialize (H1 Hm). vm_compute in H1. discriminate H1.
Qed.

(** ** The tenant *)

(** C4, on the code. The constructor keeps the base URL and the token and
    nothing else, so two configurations that differ in the tenant give the
    same client; every call of [fetch] carries exactly the two headers
    [Authorization] and [Content-Type]; and with NEVENT_TENANT_ID set to
    [acme] the tool [get_user_count] fetches [/users/count] with no trace
    of the tenant in the address or in the headers. *)
Theorem tenant_not_forwarded :
  (forall (url token : string) (t1 t2 : option string),
      Client.constructor {| config_baseUrl := url; config_jwtToken := token;
                            config_tenantId := t1 |}
      = Client.constructor {| config_baseUrl := url; config_jwtToken := token;
                              config_tenantId := t2 |})
  /\ (forall this method path body params env call,
        In (Fetched call) (trace_of (request this method path body params) env) ->
        init_headers (fetch_init call)
        = [ ("Authorization", "Bearer " ++ jwtToken this);
            ("Content-Type", "application/json") ])
  /\ (exists client,
        startup Examples.tenant_env = Some client
        /\ trace_of (call_tool_handler client
                       {| tool_name := "get_user_count"; arguments := None |})
             (Examples.always Examples.ok_empty)
           = [ Requested "GET" "/users/count" JUndefined None;
               Fetched {| fetch_url := "https://api.nevent.io/users/count";
                          fetch_init :=
                            {| init_method := "GET";
                               init_headers := Examples.standard_headers;
                               init_body := None |} |} ]).
Proof.
  split; [reflexivity|split].
  - intros this method path body params env call Hin.
    apply request_fetched in Hin. apply prepare_init in Hin.
    now rewrite Hin.
  - eexists. split; reflexivity.
Qed.

(** ** The shape of a tool *)

Create HintDb tools.
#[local] Hint Unfold
  Users.listUsers Users.getUser Users.getUserByEmail Users.createUser
  Users.updateUser Users.deleteUser Users.getUserPurchases Users.getUserEvents
  Users.getPropertyDefinitions Users.createPropertyDefinition
  Users.updatePropertyDefinition Users.deletePropertyDefinition
  Users.getUserCommunicationPreferences Users.updateUserCommunicationPreferences
  Users.searchUsersBySegment Users.addUserToList Users.removeUserFromList
  Users.getUserCount Users.exportUsers Campaigns.listCampaigns Campaigns.getCampaign
  Campaigns.createCampaign Campaigns.updateCampaign Campaigns.deleteCampaign
  Campaigns.sendCampaign Campaigns.scheduleCampaign Campaigns.pauseCampaign
  Campaigns.resumeCampaign Campaigns.cancelCampaign Campaigns.getCampaignMetrics
  Campaigns.sendTestCampaign Campaigns.duplicateCampaign Campaigns.listSegments
  Campaigns.getSegment Campaigns.createSegment Campaigns.updateSegment
  Campaigns.deleteSegment Campaigns.previewSegment Campaigns.executeSegment
  Campaigns.listEmailTemplates Campaigns.getEmailTemplate
  Campaigns.createEmailTemplate Campaigns.updateEmailTemplate
  Campaigns.deleteEmailTemplate Campaigns.renderEmailTemplate
  Campaigns.generateEmailContent Lineup.createPerformer Lineup.searchSpotify
  Lineup.searchPerformers Lineup.linkPerformerSpotify
  Lineup.unlinkPerformerFromMaster Lineup.updatePerformer Lineup.getPerformer
  Lineup.listPerformers Lineup.deletePerformer Lineup.createPerformerFromMaster
  Lineup.getPerformerLikes Lineup.listEventSessions Lineup.createSession
  Lineup.updateSession Lineup.getSession Lineup.deleteSession
  Lineup.addPerformerToSession Lineup.removePerformerFromSession
  Lineup.reorderSessionPerformers Lineup.publishSession Lineup.getPublicLineup
  Lineup.getAdminLineup Lineup.createOrUpdateDailyLineup Lineup.getAllDailyLineups
  Lineup.getDailyLineupByDate Lineup.updateDailyLineup Lineup.publishDailyLineup
  Lineup.unpublishDailyLineup Lineup.deleteDailyLineup
  : tools.

Lemma send_run (this : NeventClient) (method path : string) (body : JsValue)
    (params : option JsObject) (env : Env) (tr : Trace) :
  send this method path body params env tr =
  match prepare this env method path body params with
  | Throw e => (Throw e, (tr ++ [Requested method path body params])%list)
  | Normal call =>
      (let! r := await (fetch env call) in
       let! response := settle r in
       Normal (data response),
       (tr ++ [Requested method path body params; Fetched call])%list)
  end.
Proof.
  unfold send, bind. rewrite request_run.
  destruct (prepare this env method path body params) as [call|e]; [|reflexivity].
  destruct (await (fetch env call)) as [r|e]; simpl; [|reflexivity].
  destruct (settle r); reflexivity.
Qed.

Lemma with_path_run {A} (parts : list (string + JsValue)) (k : string -> M A)
    (env : Env) (tr : Trace) :
  with_path parts k env tr =
  match template parts with
  | Normal path => k path env tr
  | Throw e => (Throw e, tr)
  end.
Proof. unfold with_path, bind, lift. destruct (template parts); reflexivity. Qed.

(** *** Whatever is thrown is an instance of [Error] *)

Lemma js_ToString_Error (v : JsValue) (e : Thrown) :
  js_ToString v = Throw e -> is_Error e.
Proof.
  revert e. induction v as [| |b|n|s|items IH|members] using JsValue_elements_ind;
    intros e; simpl; try discriminate.
  - destruct b; discriminate.
  - assert (Hel : forall e', element_strings js_ToString items = Throw e' ->
                             is_Error e').
    { induction IH as [|x rest Hx _ IHrest]; intros e'; simpl; [discriminate|].
      destruct (match x with
                | JUndefined | JNull => Normal ""
                | _ => js_ToString x
                end) as [sx|ex] eqn:Ex; simpl.
      - destruct (element_strings js_ToString rest) as [ss|er] eqn:Er; simpl;
          [discriminate|].
        intros H; inversion H; subst. now apply IHrest.
      - intros H; inversion H; subst.
        destruct x; try discriminate Ex; now apply Hx. }
    destruct (element_strings js_ToString items) as [parts|e'] eqn:E; simpl;
      [discriminate|].
    intros H; inversion H; subst. now apply Hel.
  - destruct (obj_has "toString" members); [|discriminate].
    intros H; inversion H; subst. exact I.
Qed.

Lemma template_Error (parts : list (string + JsValue)) (e : Thrown) :
  template parts = Throw e -> is_Error e.
Proof.
  induction parts as [|[s|v] parts IH]; simpl; [discriminate| |].
  - destruct (template parts); simpl; [discriminate|].
    intros H; inversion H; subst. now apply IH.
  - destruct (js_ToString v) as [s|e'] eqn:E; simpl.
    + destruct (template parts); simpl; [discriminate|].
      intros H; inversion H; subst. now apply IH.
    + intros H; inversion H; subst. now apply js_ToString_Error in E.
Qed.

Lemma append_params_Error (entries : JsObject) (url : URL) (e : Thrown) :
  append_params entries url = Throw e -> is_Error e.
Proof.
  revert url. induction entries as [|[k v] entries IH]; intros url; simpl;
    [discriminate|].
  destruct v; try apply IH;
    match goal with
    | |- context [js_ToString ?x] =>
        destruct (js_ToString x) as [s|e'] eqn:E; simpl;
        [apply IH|intros H; inversion H; subst; now apply js_ToString_Error in E]
    end.
Qed.

Lemma prepare_Error (this : NeventClient) (env : Env) (method path : string)
    (body : JsValue) (params : option JsObject) (e : Thrown) :
  prepare this env method path body params = Throw e -> is_Error e.
Proof.
  unfold prepare, new_URL.
  destruct (URL_parse env (baseUrl this ++ path)) as [u|]; simpl.
  - destruct params as [entries|]; simpl.
    + destruct (append_params entries _) as [url|e'] eqn:E; simpl; [discriminate|].
      intros H; inversion H; subst. now apply append_params_Error in E.
    + discriminate.
  - intros H; inversion H; subst. exact I.
Qed.

Lemma await_Error {A} (p : Settled A) (e : Thrown) :
  await p = Throw e -> is_Error e.
Proof. destruct p; simpl; [discriminate|]. intros H; inversion H. exact I. Qed.

Lemma read_body_Error (r : Response) (e : Thrown) :
  read_body r = Throw e -> is_Error e.
Proof.
  unfold read_body.
  destruct (content_type r) as [ct|]; [destruct (includes ct "application/json")|];
    try apply await_Error;
    (destruct (Web.text r); simpl; [discriminate|];
     intros H; inversion H; exact I).
Qed.

Lemma new_Error_Error (v : JsValue) :
  (forall e, new_Error v = Throw e -> is_Error e)
  /\ (forall e, new_Error v = Normal e -> is_Error e).
Proof.
  unfold new_Error. split; intros e.
  - destruct v; try discriminate;
      match goal with
      | |- context [js_ToString ?x] =>
          destruct (js_ToString x) as [s|e'] eqn:E; simpl;
          [discriminate|intros H; inversion H; subst; now apply js_ToString_Error in E]
      end.
  - destruct v;
      try match goal with
      | |- context [js_ToString ?x] => destruct (js_ToString x); simpl
      end; try discriminate; intros H; inversion H; exact I.
Qed.

Lemma settle_Error (r : Response) (e : Thrown) :
  settle r = Throw e -> is_Error e.
Proof.
  unfold settle.
  destruct (read_body r) as [d|e'] eqn:E; simpl.
  - destruct (ok_status r); simpl; [discriminate|].
    destruct (new_Error _) as [e1|e1] eqn:En; simpl;
      intros H; inversion H; subst; now apply new_Error_Error in En.
  - intros H; inversion H; subst. now apply read_body_Error in E.
Qed.

Lemma send_Error (this : NeventClient) (method path : string) (body : JsValue)
    (params : option JsObject) (env : Env) (tr : Trace) (e : Thrown) :
  fst (send this method path body params env tr) = Throw e -> is_Error e.
Proof.
  rewrite send_run.
  destruct (prepare this env method path body params) as [call|e'] eqn:Ep; simpl.
  - destruct (await (fetch env call)) as [r|e1] eqn:Ef; simpl.
    + destruct (settle r) as [resp|e2] eqn:Es; simpl; [discriminate|].
      intros H; inversion H; subst. now apply settle_Error in Es.
    + intros H; inversion H; subst. now apply await_Error in Ef.
  - intros H; inversion H; subst. now apply prepare_Error in Ep.
Qed.

(** Every case of the switch either stops on a conversion error before it
    reaches the client, or is one call of a convenience method. *)
Lemma case_shape (c : Case) (client : NeventClient) (args : JsObject)
    (env : Env) (tr : Trace) :
  In c cases ->
  (exists e, is_Error e /\ snd c client args env tr = (Throw e, tr))
  \/ (exists method path body params,
        snd c client args env tr = send client method path body params env tr).
Proof.
  unfold cases, user_cases, campaign_cases, lineup_cases. simpl In.
  intros Hin.
  repeat (destruct Hin as [<-|Hin];
    [ cbn [snd]; autounfold with tools;
      first
        [ right; do 4 eexists; reflexivity
        | rewrite with_path_run;
          destruct (template _) as [path|e] eqn:E;
          [ right; do 4 eexists; reflexivity
          | left; exists e; split; [now apply template_Error in E|reflexivity] ]
        | unfold bind, lift, encodeURIComponent;
          destruct (js_ToString _) as [s|e] eqn:E; simpl;
          [ right; do 4 eexists; reflexivity
          | left; exists e; split; [now apply js_ToString_Error in E|reflexivity] ] ]
    | ]).
  contradiction.
Qed.

Lemma find_case_some (name : string) (c : Case) :
  find_case name = Some c -> In c cases /\ fst c = name.
Proof.
  unfold find_case. intros H. apply find_some in H.
  destruct H as [Hin Heq]. apply String.eqb_eq in Heq. now split.
Qed.

Lemma find_case_none (name : string) :
  ~ In name (map fst cases) -> find_case name = None.
Proof.
  intros Hn. unfold find_case.
  destruct (find (fun c => String.eqb name (fst c)) cases) as [c|] eqn:E;
    [|reflexivity].
  apply find_some in E. destruct E as [Hin Heq].
  apply String.eqb_eq in Heq. exfalso. apply Hn. subst name. now apply in_map.
Qed.

Lemma call_tool_Error (client : NeventClient) (name : string) (args : JsObject)
    (env : Env) (tr : Trace) (e : Thrown) :
  fst (call_tool client name args env tr) = Throw e -> is_Error e.
Proof.
  unfold call_tool.
  destruct (find_case name) as [c|] eqn:E.
  - apply find_case_some in E. destruct E as [Hin _].
    destruct (case_shape c client args env tr Hin)
      as [[e' [He Hrun]]|[m [p [b [ps Hrun]]]]]; rewrite Hrun.
    + simpl. intros H; inversion H; subst. exact He.
    + apply send_Error.
  - simpl. intros H; inversion H. exact I.
Qed.

(** ** The handler *)

Lemma handler_run (client : NeventClient) (params : CallToolParams)
    (env : Env) (tr : Trace) :
  call_tool_handler client params env tr =
  match call_tool client (tool_name params) (toolArgs_of params) env tr with
  | (Normal result, tr') => (Normal (success_reply result), tr')
  | (Throw error, tr') =>
      (let! errorMessage := error_message error in
       Normal (error_reply errorMessage), tr')
  end.
Proof. reflexivity. Qed.

Lemma not_in_by_eqb (x : string) (l : list string) :
  existsb (String.eqb x) l = false -> ~ In x l.
Proof.
  intros H Hin.
  assert (Ht : existsb (String.eqb x) l = true).
  { apply existsb_exists. exists x. split; [exact Hin|apply String.eqb_refl]. }
  congruence.
Qed.

(** The catalogue lists the cases of the switch, in the same order. *)
Lemma catalogue_matches_switch : map name allToolDefinitions = map fst cases.
Proof. reflexivity. Qed.

(** The run of a tool that reached [fetch] and got a response. *)
Lemma call_tool_fetched (client : NeventClient) (name : string) (args : JsObject)
    (env : Env) (call : FetchCall) (r : Response) :
  In (Fetched call) (trace_of (call_tool client name args) env) ->
  fetch env call = Fulfilled r ->
  outcome (call_tool client name args) env
  = let! response := settle r in Normal (data response).
Proof.
  unfold trace_of, outcome, call_tool.
  destruct (find_case name) as [c|] eqn:E; [|simpl; contradiction].
  apply find_case_some in E. destruct E as [Hin _].
  destruct (case_shape c client args env [] Hin)
    as [[e' [He Hrun]]|[m [p [b [ps Hrun]]]]]; rewrite Hrun;
    [simpl; contradiction|].
  rewrite send_run.
  destruct (prepare client env m p b ps) as [call'|e]; simpl.
  - intros [H|[H|[]]]; [discriminate|]. inversion H; subst call'.
    intros Hf. now rewrite Hf.
  - intros [H|[]]. discriminate.
Qed.

Lemma URL_valid_parse (env : Env) (s : string) :
  URL_valid env s = true -> URL_parse env s = Some (plain_URL s).
Proof.
  unfold URL_valid, plain_URL.
  destruct (URL_parse env s) as [[a [q|] [|x l] [f|]]|]; try discriminate.
  intros H. apply String.eqb_eq in H. now subst.
Qed.

Lemma send_trace (this : NeventClient) (method path : string) (body : JsValue)
    (params : option JsObject) (env : Env) (tr : Trace) :
  snd (send this method path body params env tr)
  = (tr ++ Requested method path body params
        :: match prepare this env method path body params with
           | Normal call => [Fetched call]
           | Throw _ => []
           end)%list.
Proof.
  rewrite send_run.
  destruct (prepare this env method path body params); reflexivity.
Qed.

(** What a run of the switch leaves in the trace, and what it returns. *)
Lemma call_tool_runs (client : NeventClient) (name : string) (args : JsObject)
    (env : Env) :
  (trace_of (call_tool client name args) env = []
   /\ exists e, is_Error e /\ outcome (call_tool client name args) env = Throw e)
  \/ (exists m p b ps,
        call_tool client name args env [] = send client m p b ps env []).
Proof.
  unfold trace_of, outcome, call_tool.
  destruct (find_case name) as [c|] eqn:E.
  - apply find_case_some in E. destruct E as [Hin _].
    destruct (case_shape c client args env [] Hin)
      as [[e [He Hrun]]|[m [p [b [ps Hrun]]]]].
    + left. rewrite Hrun. split; [reflexivity|]. exists e. now split.
    + right. exists m, p, b, ps. exact Hrun.
  - left. split; [reflexivity|]. eexists. split; [|reflexivity]. exact I.
Qed.

(** The call of [fetch] of a run is the one prepared from its request. *)
Lemma call_tool_fetch_of_request (client : NeventClient) (name : string)
    (args : JsObject) (env : Env) (call : FetchCall) :
  In (Fetched call) (trace_of (call_tool client name args) env) ->
  exists m p b ps,
    In (Requested m p b ps) (trace_of (call_tool client name args) env)
    /\ prepare client env m p b ps = Normal call.
Proof.
  destruct (call_tool_runs client name args env)
    as [[Ht _]|[m [p [b [ps Hrun]]]]].
  - rewrite Ht. contradiction.
  - unfold trace_of. rewrite Hrun, send_trace. simpl.
    destruct (prepare client env m p b ps) as [call'|e] eqn:Ep; simpl.
    + intros [H|[H|[]]]; [discriminate|]. inversion H; subst call'.
      exists m, p, b, ps. split; [left; reflexivity|exact Ep].
    + intros [H|[]]. discriminate.
Qed.

(** C7. The handler always returns a reply. When the switch throws, what
    it throws is an instance of [Error], and the reply is
    [{content: [{type: "text", text: "Error: " + message}], isError: true}]
    for the message of that error. In particular a 404 response that
    decodes to [{"message": "User not found"}] gives the text
    [Error: User not found]. *)
Theorem failures_become_replies (client : NeventClient) (params : CallToolParams)
    (env : Env) :
  (forall tr, exists reply,
      fst (call_tool_handler client params env tr) = Normal reply)
  /\ (forall tr e,
        fst (call_tool client (tool_name params) (toolArgs_of params) env tr)
        = Throw e ->
        exists cls message,
          e = ErrorObject cls message
          /\ fst (call_tool_handler client params env tr)
             = Normal {| content := [ {| type := "text";
                                         text := Some ("Error: " ++ message) |} ];
                         isError := Some true |})
  /\ (forall call r,
        In (Fetched call) (trace_of (call_tool_handler client params) env) ->
        fetch env call = Fulfilled r ->
        status r = 404%Z ->
        read_body r = Normal (JObj [("message", JStr "User not found")]) ->
        outcome (call_tool_handler client params) env
        = Normal {| content := [ {| type := "text";
                                    text := Some "Error: User not found" |} ];
                    isError := Some true |}).
Proof.
  assert (Hthrow : forall tr e,
    fst (call_tool client (tool_name params) (toolArgs_of params) env tr) = Throw e ->
    exists cls message,
      e = ErrorObject cls message
      /\ fst (call_tool_handler client params env tr)
         = Normal (error_reply message)).
  { intros tr e He. rewrite handler_run.
    pose proof (call_tool_Error _ _ _ _ _ _ He) as Hcls.
    destruct (call_tool client (tool_name params) (toolArgs_of params) env tr)
      as [res tr'].
    simpl in He. subst res.
    destruct e as [cls message|v]; [|contradiction].
    exists cls, message. split; reflexivity. }
  split; [|split].
  - intros tr. rewrite handler_run.
    destruct (call_tool client (tool_name params) (toolArgs_of params) env tr)
      as [[result|e] tr'] eqn:E.
    + eexists. reflexivity.
    + destruct (Hthrow tr e) as [cls [message [-> _]]]; [now rewrite E|].
      eexists. reflexivity.
  - exact Hthrow.
  - intros call r Hin Hf Hst Hbody.
    unfold trace_of, outcome in *. rewrite handler_run in *.
    assert (Hrun : fst (call_tool client (tool_name params) (toolArgs_of params)
                          env [])
                   = Throw (ErrorObject EError "User not found")).
    { change (outcome (call_tool client (tool_name params) (toolArgs_of params))
                env = Throw (ErrorObject EError "User not found")).
      rewrite (call_tool_fetched client _ _ env call r).
      - unfold settle, ok_status. rewrite Hbody, Hst. reflexivity.
      - unfold trace_of.
        destruct (call_tool client (tool_name params) (toolArgs_of params) env [])
          as [[result|e] tr']; exact Hin.
      - exact Hf. }
    destruct (call_tool client (tool_name params) (toolArgs_of params) env [])
      as [res tr'].
    simpl in Hrun. subst res. reflexivity.
Qed.

Lemma failures_become_replies_witness :
  In (Fetched Examples.get_u1)
     (trace_of (call_tool_handler Examples.client Examples.get_user_u1)
        (Examples.always Examples.user_not_found))
  /\ outcome (call_tool_handler Examples.client Examples.get_user_u1)
       (Examples.always Examples.user_not_found)
     = Normal {| content := [ {| type := "text";
                                 text := Some "Error: User not found" |} ];
                 isError := Some true |}.
Proof.
  assert (Hin : In (Fetched Examples.get_u1)
     (trace_of (call_tool_handler Examples.client Examples.get_user_u1)
        (Examples.always Examples.user_not_found))).
  { vm_compute. right. left. reflexivity. }
  split; [exact Hin|].
  exact (proj2 (proj2 (failures_become_replies Examples.client
                         Examples.get_user_u1
                         (Examples.always Examples.user_not_found)))
           Examples.get_u1 Examples.user_not_found Hin eq_refl eq_refl eq_refl).
Defined.

(** C8. A name that is no case of the switch makes it throw the
    [McpError] of code [MethodNotFound] whose message ends with that name,
    and leaves the trace as it was: no request, no call of [fetch]. The
    handler turns it into the error reply with the same message. *)
Theorem unknown_tool (client : NeventClient) (name : string) (args : JsObject)
    (env : Env) (tr : Trace) :
  ~ In name (map fst cases) ->
  call_tool client name args env tr
  = (Throw (ErrorObject (EMcpError MethodNotFound)
              ("MCP error -32601: Unknown tool: " ++ name)), tr)
  /\ call_tool_handler client {| tool_name := name; arguments := Some args |} env tr
     = (Normal (Spec.failure_reply ("MCP error -32601: Unknown tool: " ++ name)),
        tr).
Proof.
  intros Hn.
  assert (H : call_tool client name args env tr
              = (Throw (ErrorObject (EMcpError MethodNotFound)
                          ("MCP error -32601: Unknown tool: " ++ name)), tr)).
  { unfold call_tool. rewrite (find_case_none name Hn). reflexivity. }
  split; [exact H|].
  rewrite handler_run. unfold toolArgs_of. simpl. rewrite H. reflexivity.
Qed.

Lemma unknown_tool_witness :
  ~ In "send_newsletter" (map fst cases)
  /\ call_tool Examples.client "send_newsletter" [] (Examples.always Examples.ok_empty) []
     = (Throw (ErrorObject (EMcpError MethodNotFound)
                 "MCP error -32601: Unknown tool: send_newsletter"), []).
Proof.
  assert (Hn : ~ In "send_newsletter" (map fst cases))
    by (apply not_in_by_eqb; reflexivity).
  split; [exact Hn|].
  exact (proj1 (unknown_tool Examples.client "send_newsletter" []
                  (Examples.always Examples.ok_empty) [] Hn)).
Defined.

(** The run of [update_user] with [{userId: "u1", name: "Ann"}], for
    whatever URL the parser makes of the address. *)
Lemma update_user_run (client : NeventClient) (env : Env) (u : URL) :
  URL_parse env (baseUrl client ++ "/users/u1") = Some u ->
  trace_of (call_tool_handler client Examples.update_u1) env
  = [ Requested "PUT" "/users/u1" (JObj [("name", JStr "Ann")]) None;
      Fetched {| fetch_url := URL_toString u;
                 fetch_init :=
                   {| init_method := "PUT";
                      init_headers :=
                        [ ("Authorization", "Bearer " ++ jwtToken client);
                          ("Content-Type", "application/json") ];
                      init_body := Some Examples.name_Ann |} |} ].
Proof.
  intros Hurl.
  unfold trace_of. rewrite handler_run.
  change (call_tool client (tool_name Examples.update_u1)
            (toolArgs_of Examples.update_u1) env [])
    with (send client "PUT" "/users/u1" (JObj [("name", JStr "Ann")]) None env []).
  rewrite send_run. unfold prepare, new_URL. rewrite Hurl. simpl.
  destruct (await (fetch env _)) as [r|e]; simpl;
    [destruct (settle r); simpl|]; reflexivity.
Qed.

(** C9. [update_user] with [{userId: "u1", name: "Ann"}] asks the client
    for a PUT of [/users/u1] with the body [{name: "Ann"}], which has no
    [userId], and the call of [fetch] carries the text [{"name":"Ann"}]. *)
Theorem update_user_example (client : NeventClient) (env : Env) :
  URL_valid env (baseUrl client ++ "/users/u1") = true ->
  trace_of (call_tool_handler client Examples.update_u1) env
  = [ Requested "PUT" "/users/u1" (JObj [("name", JStr "Ann")]) None;
      Fetched {| fetch_url := baseUrl client ++ "/users/u1";
                 fetch_init :=
                   {| init_method := "PUT";
                      init_headers :=
                        [ ("Authorization", "Bearer " ++ jwtToken client);
                          ("Content-Type", "application/json") ];
                      init_body := Some Examples.name_Ann |} |} ]
  /\ obj_has "userId" [("name", JStr "Ann")] = false.
Proof.
  intros Hurl. split; [|reflexivity].
  exact (update_user_run client env _ (URL_valid_parse _ _ Hurl)).
Qed.

Lemma update_user_example_witness :
  URL_valid (Examples.always Examples.ok_empty)
    (baseUrl Examples.client ++ "/users/u1") = true
  /\ trace_of (call_tool_handler Examples.client Examples.update_u1)
       (Examples.always Examples.ok_empty)
     = [ Requested "PUT" "/users/u1" (JObj [("name", JStr "Ann")]) None;
         Fetched Examples.put_u1 ].
Proof.
  split; [reflexivity|].
  exact (proj1 (update_user_example Examples.client
                  (Examples.always Examples.ok_empty) eq_refl)).
Defined.

(** C10. [resumeCampaign] is defined and would POST to
    [/campaigns/<id>/resume], but [resume_campaign] is neither in the
    catalogue nor a case of the switch: the handler answers it with the
    unknown-tool error reply and adds nothing to the trace. *)
Theorem resume_campaign_unreachable :
  ~ In "resume_campaign" (map name allToolDefinitions)
  /\ ~ In "resume_campaign" (map fst cases)
  /\ (forall client args env tr,
        call_tool_handler client
          {| tool_name := "resume_campaign"; arguments := args |} env tr
        = (Normal {| content :=
                       [ {| type := "text";
                            text := Some ("Error: MCP error -32601: "
                                          ++ "Unknown tool: resume_campaign") |} ];
                     isError := Some true |}, tr))
  /\ (forall client env,
        exists rest,
          trace_of (Campaigns.resumeCampaign client (JStr "c1")) env
          = Requested "POST" "/campaigns/c1/resume" JUndefined None :: rest).
Proof.
  split; [apply not_in_by_eqb; reflexivity|].
  split; [apply not_in_by_eqb; reflexivity|].
  split.
  - intros client args env tr. reflexivity.
  - intros client env. unfold trace_of.
    change (Campaigns.resumeCampaign client (JStr "c1") env [])
      with (send client "POST" "/campaigns/c1/resume" JUndefined None env []).
    rewrite send_run.
    destruct (prepare client env "POST" "/campaigns/c1/resume" JUndefined None);
      eexists; reflexivity.
Qed.

(** ** Path identifiers *)

Lemma send_requested (this : NeventClient) (method path : string) (body : JsValue)
    (params : option JsObject) (env : Env) (m p : string) (b : JsValue)
    (ps : option JsObject) :
  In (Requested m p b ps) (snd (send this method path body params env [])) ->
  m = method /\ p = path /\ b = body /\ ps = params.
Proof.
  rewrite send_run.
  destruct (prepare this env method path body params); simpl;
    intros [H|H]; try (inversion H; now subst);
    try contradiction; destruct H as [H|[]]; discriminate.
Qed.

Lemma with_path_event {A} (parts : list (string + JsValue)) (k : string -> M A)
    (env : Env) (ev : Event) :
  In ev (snd (with_path parts k env [])) ->
  exists path, In ev (snd (k path env [])).
Proof.
  rewrite with_path_run.
  destruct (template parts) as [path|e]; simpl; [|contradiction].
  intros H. now exists path.
Qed.

Lemma obj_has_rest (k : string) (o : JsObject) : obj_has k (obj_rest k o) = false.
Proof.
  unfold obj_has, obj_rest. induction o as [|[k' v] o IH]; simpl; [reflexivity|].
  destruct (String.eqb k k') eqn:E; simpl; [exact IH|].
  now rewrite E.
Qed.

Lemma obj_has_app (k : string) (a b : JsObject) :
  obj_has k (a ++ b)%list = obj_has k a || obj_has k b.
Proof. unfold obj_has. apply existsb_app. Qed.

Lemma obj_has_cons (k k' : string) (v : JsValue) (o : JsObject) :
  obj_has k ((k', v) :: o) = String.eqb k k' || obj_has k o.
Proof. reflexivity. Qed.

Lemma obj_has_rest_other (k k' : string) (o : JsObject) :
  obj_has k o = false -> obj_has k (obj_rest k' o) = false.
Proof.
  unfold obj_rest. induction o as [|[k0 v] o IH]; [reflexivity|].
  rewrite obj_has_cons. intros H. apply orb_false_iff in H. destruct H as [H1 H2].
  simpl. destruct (negb (String.eqb k' k0)); [|now apply IH].
  rewrite obj_has_cons, H1. now apply IH.
Qed.

Lemma obj_has_replace (k k' : string) (v : JsValue) (o : JsObject) :
  obj_has k (obj_replace k' v o) = obj_has k o.
Proof.
  induction o as [|[k0 v0] o IH]; [reflexivity|]. simpl obj_replace.
  destruct (String.eqb k' k0) eqn:E.
  - apply String.eqb_eq in E. now subst k0.
  - now rewrite !obj_has_cons, IH.
Qed.

Lemma obj_has_add_index (k : string) (i : Z) (k' : string) (v : JsValue)
    (o : JsObject) :
  obj_has k (obj_add_index i k' v o) = String.eqb k k' || obj_has k o.
Proof.
  induction o as [|[k0 v0] o IH]; [reflexivity|]. simpl obj_add_index.
  destruct (array_index k0) as [j|]; [destruct (j <? i)%Z|]; try reflexivity.
  rewrite !obj_has_cons, IH.
  now destruct (String.eqb k k0), (String.eqb k k').
Qed.

(** The keys of an object after a property was defined. *)
Lemma obj_has_set (k k' : string) (v : JsValue) (o : JsObject) :
  obj_has k (obj_set k' v o) = String.eqb k k' || obj_has k o.
Proof.
  unfold obj_set. destruct (obj_has k' o) eqn:E.
  - rewrite obj_has_replace. destruct (String.eqb k k') eqn:Ek; [|reflexivity].
    apply String.eqb_eq in Ek. subst k'. exact E.
  - destruct (array_index k') as [i|].
    + apply obj_has_add_index.
    + rewrite obj_has_app, obj_has_cons. simpl.
      now destruct (String.eqb k k'), (obj_has k o).
Qed.

Lemma obj_has_spread (k : string) (src target : JsObject) :
  obj_has k (obj_spread target src) = obj_has k target || obj_has k src.
Proof.
  unfold obj_spread. revert target.
  induction src as [|[k' v] src IH]; intros target; simpl fold_left.
  - now rewrite orb_false_r.
  - rewrite IH, obj_has_set, obj_has_cons.
    now destruct (String.eqb k k'), (obj_has k target).
Qed.

Lemma obj_get_replace (k : string) (v : JsValue) (o : JsObject) :
  obj_has k o = true -> obj_get k (obj_replace k v o) = v.
Proof.
  induction o as [|[k0 v0] o IH]; [discriminate|].
  rewrite obj_has_cons. simpl. destruct (String.eqb k k0) eqn:E; simpl.
  - intros _. now rewrite String.eqb_refl.
  - intros H. rewrite E. now apply IH.
Qed.

Lemma obj_get_add_index (k : string) (i : Z) (v : JsValue) (o : JsObject) :
  obj_has k o = false -> obj_get k (obj_add_index i k v o) = v.
Proof.
  induction o as [|[k0 v0] o IH]; simpl obj_add_index.
  - intros _. simpl. now rewrite String.eqb_refl.
  - rewrite obj_has_cons. intros H. apply orb_false_iff in H. destruct H as [H1 H2].
    destruct (array_index k0) as [j|]; [destruct (j <? i)%Z|]; simpl;
      rewrite ?H1, ?String.eqb_refl; try reflexivity.
    now apply IH.
Qed.

Lemma obj_get_app_fresh (k : string) (v : JsValue) (o : JsObject) :
  obj_has k o = false -> obj_get k (o ++ [(k, v)])%list = v.
Proof.
  unfold obj_has. induction o as [|[k' v'] o IH]; simpl.
  - now rewrite String.eqb_refl.
  - destruct (String.eqb k k'); simpl; [discriminate|exact IH].
Qed.

Lemma obj_set_same (k : string) (v : JsValue) (o : JsObject) :
  obj_has k (obj_set k v o) = true /\ obj_get k (obj_set k v o) = v.
Proof.
  split.
  - now rewrite obj_has_set, String.eqb_refl.
  - unfold obj_set. destruct (obj_has k o) eqn:E.
    + now apply obj_get_replace.
    + destruct (array_index k) as [i|].
      * now apply obj_get_add_index.
      * now apply obj_get_app_fresh.
Qed.

(** The table of path fields is what the model shows when it is probed. *)
Lemma path_fields_from_the_model :
  forallb (fun t => Spec.same_fields
                      (Spec.path_fields (name t))
                      (Spec.probe_fields Examples.client
                         (Examples.always Examples.ok_empty) t))
    allToolDefinitions = true.
Proof. vm_compute. reflexivity. Qed.

(** The request a case of the switch asks the client for. *)
Ltac requested H :=
  cbn [snd] in H; autounfold with tools in H;
  first
    [ apply send_requested in H
    | apply with_path_event in H; destruct H as [? H]; apply send_requested in H
    | unfold bind, lift, encodeURIComponent in H;
      destruct (js_ToString _); simpl in H; [apply send_requested in H|contradiction] ];
  destruct H as (-> & -> & -> & ->).

(** C5 (amended). For every tool but [create_session],
    [update_daily_lineup] and [reorder_session_performers], no field that
    the tool puts in its path is a key of the body or of the query mapping
    of its request; the seven update tools send as body the argument bag
    without the identifier. [reorder_session_performers] sends the caller's
    [newOrders] value as it is. [create_session] takes [eventId] out of the
    bag and [createSession] puts it back into the body; the body of
    [update_daily_lineup] carries [date], which is also in its path. *)
Theorem path_identifiers (client : NeventClient) (name : string) (args : JsObject)
    (env : Env) (m p : string) (b : JsValue) (ps : option JsObject) :
  In (Requested m p b ps) (trace_of (call_tool client name args) env) ->
  (~ In name ["create_session"; "update_daily_lineup"; "reorder_session_performers"] ->
   forall k, In k (Spec.path_fields name) ->
             Spec.body_has k b = false /\ Spec.params_have k ps = false)
  /\ (forall k, In (name, k) Spec.rest_table -> b = JObj (obj_rest k args))
  /\ (name = "reorder_session_performers" -> b = obj_get "newOrders" args)
  /\ (name = "create_session" ->
      exists o, b = JObj o /\ obj_has "eventId" o = true
                /\ obj_get "eventId" o = obj_get "eventId" args)
  /\ (name = "update_daily_lineup" ->
      exists o, b = JObj o /\ obj_has "date" o = true
                /\ obj_get "date" o = obj_get "date" args).
Proof.
  unfold trace_of, call_tool.
  destruct (find_case name) as [c|] eqn:E; [|simpl; contradiction].
  apply find_case_some in E. destruct E as [Hin <-].
  revert Hin. unfold cases, user_cases, campaign_cases, lineup_cases. simpl In.
  intros Hin H.
  repeat (destruct Hin as [<-|Hin];
    [ requested H; cbn [fst];
      split; [|split; [|split; [|split]]];
      [ first [ intros Hn; exfalso; apply Hn; simpl; tauto
              | intros _ k Hk; vm_compute in Hk;
                repeat (destruct Hk as [<-|Hk]; [split; first [apply obj_has_rest|reflexivity]|]);
                contradiction ]
      | intros k Hk; simpl in Hk;
        repeat (destruct Hk as [Hk|Hk];
                [first [discriminate Hk|inversion Hk; reflexivity]|]);
        contradiction
      | first [discriminate|intros _; reflexivity]
      | first [discriminate
              |intros _; eexists; split; [reflexivity|apply obj_set_same]]
      | first [discriminate
              |intros _; eexists; split; [reflexivity|split; reflexivity]] ]
    | ]).
  contradiction.
Qed.

Lemma path_identifiers_witness :
  In (Requested "PUT" "/users/u1" (JObj [("name", JStr "Ann")]) None)
     (trace_of (call_tool Examples.client "update_user"
                  [("userId", JStr "u1"); ("name", JStr "Ann")])
        (Examples.always Examples.ok_empty))
  /\ Spec.body_has "userId" (JObj [("name", JStr "Ann")]) = false.
Proof.
  assert (Hin : In (Requested "PUT" "/users/u1" (JObj [("name", JStr "Ann")]) None)
     (trace_of (call_tool Examples.client "update_user"
                  [("userId", JStr "u1"); ("name", JStr "Ann")])
        (Examples.always Examples.ok_empty))).
  { vm_compute. left. reflexivity. }
  split; [exact Hin|].
  refine (proj1 (proj1 (path_identifiers Examples.client "update_user"
                          [("userId", JStr "u1"); ("name", JStr "Ann")]
                          (Examples.always Examples.ok_empty)
                          "PUT" "/users/u1" (JObj [("name", JStr "Ann")]) None Hin)
                   _ "userId" _)).
  - simpl. intuition discriminate.
  - vm_compute. left. reflexivity.
Defined.

(** C5 as stated fails for [create_session]: with the arguments
    [{eventId: "e1", name: "Opening"}] the body posted to
    [/admin/events/e1/sessions] is [{name: "Opening", eventId: "e1"}]. *)
Lemma identifier_contract_fails :
  ~ Spec.identifier_contract Examples.client "create_session"
      Examples.session_args (Examples.always Examples.ok_empty).
Proof.
  intros H.
  specialize (H "POST" "/admin/events/e1/sessions"
                (JObj [("name", JStr "Opening"); ("eventId", JStr "e1")]) None).
  assert (Hb : Spec.body_has "eventId"
                 (JObj [("name", JStr "Opening"); ("eventId", JStr "e1")]) = false).
  { apply H.
    - vm_compute. left. reflexivity.
    - vm_compute. left. reflexivity. }
  vm_compute in Hb. discriminate Hb.
Qed.

(** ** Defaults *)

Lemma call_tool_case (c : Case) (client : NeventClient) (name : string)
    (args : JsObject) :
  find_case name = Some c -> call_tool client name args = snd c client args.
Proof. intros H. unfold call_tool. now rewrite H. Qed.

Lemma obj_get_absent (k : string) (o : JsObject) :
  obj_has k o = false -> obj_get k o = JUndefined.
Proof.
  unfold obj_has. induction o as [|[k' v] o IH]; simpl; [reflexivity|].
  destruct (String.eqb k k'); simpl; [discriminate|exact IH].
Qed.

Lemma obj_get_app_new (k : string) (d : JsValue) (o : JsObject) :
  obj_has k o = false -> obj_get k (o ++ [(k, d)])%list = d.
Proof.
  unfold obj_has. induction o as [|[k' v] o IH]; simpl.
  - now rewrite String.eqb_refl.
  - destruct (String.eqb k k'); simpl; [discriminate|exact IH].
Qed.

Lemma obj_get_app_other (k k' : string) (d : JsValue) (o : JsObject) :
  String.eqb k' k = false -> obj_get k' (o ++ [(k, d)])%list = obj_get k' o.
Proof.
  intros Hk. induction o as [|[k0 v] o IH]; simpl.
  - now rewrite Hk.
  - destruct (String.eqb k' k0); [reflexivity|exact IH].
Qed.

(** C6 (amended). The defaults [page = 0] and [size = 20] of the eight
    listing tools, [limit = 10] of the two searches and
    [includeMaster = false] of [get_performer] are applied by the code: an
    invocation that omits one of them runs as the invocation that supplies
    it, and [list_users] without arguments fetches [/users?page=0&size=20].
    The other documented defaults ([format] of [export_users],
    [overrideData] of [link_performer_spotify], [isPublished] of
    [create_session]) are only declared in the schema, and nothing is sent
    for them: [export_users] posts the bag as it is; without
    [overrideData] the body of [link_performer_spotify] has it as an
    [undefined] member and the payload is the serialisation of
    [{spotifyId}] alone; without [isPublished] neither the body nor the
    payload of [create_session] has such a member. *)
Theorem defaults_applied :
  (forall client name k d args env tr,
      In (name, k, d) Spec.applied_defaults ->
      obj_has k args = false ->
      call_tool client name (args ++ [(k, d)])%list env tr
      = call_tool client name args env tr)
  /\ (forall client env,
        URL_valid env (baseUrl client ++ "/users") = true ->
        exists mapping init,
          trace_of (call_tool_handler client Examples.list_users_no_args) env
          = [ Requested "GET" "/users" JUndefined (Some mapping);
              Fetched {| fetch_url := (baseUrl client ++ "/users") ++ "?page=0&size=20";
                         fetch_init := init |} ])
  /\ (forall client args env m p b ps,
        In (Requested m p b ps)
           (trace_of (call_tool client "export_users" args) env) ->
        b = JObj args)
  /\ (forall client args env call,
        In (Fetched call)
           (trace_of (call_tool client "export_users" args) env) ->
        init_body (fetch_init call) = JSON_stringify (JObj args))
  /\ (forall client args env m p b ps,
        In (Requested m p b ps)
           (trace_of (call_tool client "link_performer_spotify" args) env) ->
        obj_has "overrideData" args = false ->
        b = JObj [("spotifyId", obj_get "spotifyId" args);
                  ("overrideData", JUndefined)])
  /\ (forall client args env call,
        In (Fetched call)
           (trace_of (call_tool client "link_performer_spotify" args) env) ->
        obj_has "overrideData" args = false ->
        init_body (fetch_init call)
        = JSON_stringify (JObj [("spotifyId", obj_get "spotifyId" args)]))
  /\ (forall client args env m p b ps,
        In (Requested m p b ps)
           (trace_of (call_tool client "create_session" args) env) ->
        obj_has "isPublished" args = false ->
        Spec.body_has "isPublished" b = false)
  /\ (forall client args env call,
        In (Fetched call)
           (trace_of (call_tool client "create_session" args) env) ->
        obj_has "isPublished" args = false ->
        exists o,
          obj_has "isPublished" o = false
          /\ init_body (fetch_init call) = JSON_stringify (JObj o)).
Proof.
  assert (Hsession : forall args,
    obj_has "isPublished" args = false ->
    obj_has "isPublished"
      (obj_set "eventId" (obj_get "eventId" args)
         (obj_spread [] (obj_rest "eventId" args))) = false).
  { intros args Habs. rewrite obj_has_set, obj_has_spread. simpl.
    now apply obj_has_rest_other. }
  split; [|split; [|split; [|split; [|split; [|split; [|split]]]]]].
  - intros client name k d args env tr Hin Habs.
    vm_compute in Hin.
    repeat (destruct Hin as [Hin|Hin];
      [ inversion Hin; subst; clear Hin;
        erewrite !call_tool_case by reflexivity;
        cbn [snd]; autounfold with tools; unfold page_of, size_of, field;
        repeat rewrite (obj_get_app_new _ _ _ Habs);
        repeat rewrite (obj_get_absent _ _ Habs);
        repeat (rewrite obj_get_app_other by reflexivity);
        reflexivity
      | ]).
    contradiction.
  - intros client env Hurl.
    unfold trace_of. rewrite handler_run.
    erewrite call_tool_case by reflexivity.
    cbn [snd]. unfold Users.listUsers.
    change (Client.get client "/users" ?ps) with (send client "GET" "/users" JUndefined ps).
    rewrite send_run. unfold prepare, new_URL.
    rewrite (URL_valid_parse _ _ Hurl). simpl.
    destruct (await (fetch env _)) as [r|e]; simpl;
      [destruct (settle r); simpl|]; do 2 eexists; reflexivity.
  - intros client args env m p b ps H.
    unfold trace_of in H. erewrite call_tool_case in H by reflexivity.
    requested H. reflexivity.
  - intros client args env call Hf.
    destruct (call_tool_fetch_of_request client _ args env call Hf)
      as [m [p [b [ps [Hr Hprep]]]]].
    apply prepare_init in Hprep. rewrite Hprep. simpl init_body.
    unfold trace_of in Hr. erewrite call_tool_case in Hr by reflexivity.
    requested Hr. reflexivity.
  - intros client args env m p b ps H Habs.
    unfold trace_of in H. erewrite call_tool_case in H by reflexivity.
    requested H. unfold field. now rewrite (obj_get_absent _ _ Habs).
  - intros client args env call Hf Habs.
    destruct (call_tool_fetch_of_request client _ args env call Hf)
      as [m [p [b [ps [Hr Hprep]]]]].
    apply prepare_init in Hprep. rewrite Hprep. simpl init_body.
    unfold trace_of in Hr. erewrite call_tool_case in Hr by reflexivity.
    requested Hr. unfold field. rewrite (obj_get_absent _ _ Habs).
    unfold JSON_stringify. simpl.
    destruct (json_serialize "" "" (obj_get "spotifyId" args)); reflexivity.
  - intros client args env m p b ps H Habs.
    unfold trace_of in H. erewrite call_tool_case in H by reflexivity.
    requested H. simpl. now apply Hsession.
  - intros client args env call Hf Habs.
    destruct (call_tool_fetch_of_request client _ args env call Hf)
      as [m [p [b [ps [Hr Hprep]]]]].
    apply prepare_init in Hprep. rewrite Hprep. simpl init_body.
    unfold trace_of in Hr. erewrite call_tool_case in Hr by reflexivity.
    requested Hr. eexists. split; [exact (Hsession args Habs)|reflexivity].
Qed.

Lemma defaults_applied_witness :
  In ("list_users", "page", JNum 0) Spec.applied_defaults
  /\ obj_has "page" [("email", JStr "ann")] = false
  /\ call_tool Examples.client "list_users"
       [("email", JStr "ann"); ("page", JNum 0)]
       (Examples.always Examples.ok_empty) []
     = call_tool Examples.client "list_users" [("email", JStr "ann")]
         (Examples.always Examples.ok_empty) [].
Proof.
  assert (Hin : In ("list_users", "page", JNum 0) Spec.applied_defaults)
    by (vm_compute; left; reflexivity).
  split; [exact Hin|split; [reflexivity|]].
  exact (proj1 defaults_applied Examples.client "list_users" "page" (JNum 0)
           [("email", JStr "ann")] (Examples.always Examples.ok_empty) []
           Hin eq_refl).
Defined.

(** C6 as stated fails for the export format: [export_users] without
    arguments posts the body [{}], with [format: "csv"] supplied it posts
    [{"format":"csv"}]. *)
Lemma default_contract_fails :
  ~ Spec.default_contract Examples.client "export_users" "format" (JStr "csv")
      [] (Examples.always Examples.ok_empty).
Proof.
  intros H. specialize (H eq_refl). vm_compute in H. discriminate H.
Qed.

(* ================================================================== *)
(** * Further properties of the code *)
(* ================================================================== *)

(** ** Start-up and the constructor *)

Lemma strip_app_slash (s : string) : strip_trailing_slash (s ++ "/") = s.
Proof.
  induction s as [|c s IH]; [reflexivity|].
  simpl. rewrite IH. destruct s; reflexivity.
Qed.

Lemma strip_cases (s : string) :
  (exists t, s = t ++ "/" /\ strip_trailing_slash s = t)
  \/ ((forall t, s <> t ++ "/") /\ strip_trailing_slash s = s).
Proof.
  induction s as [|c s IH].
  - right. split; [|reflexivity]. intros [|x t]; discriminate.
  - destruct s as [|c' s'].
    + simpl. destruct (Ascii.eqb c "/") eqn:E.
      * apply Ascii.eqb_eq in E. subst c. left. exists "". split; reflexivity.
      * right. split; [|reflexivity].
        intros t H. destruct t as [|x t]; simpl in H.
        -- inversion H; subst. now rewrite Ascii.eqb_refl in E.
        -- inversion H as [[Hc Ht]]. destruct t; discriminate Ht.
    + destruct IH as [[t [Ht Hs]]|[Hn Hs]].
      * left. exists (String c t). split.
        -- simpl. now rewrite <- Ht.
        -- change (strip_trailing_slash (String c (String c' s')))
             with (String c (strip_trailing_slash (String c' s'))).
           now rewrite Hs.
      * right. split.
        -- intros [|x t] H; simpl in H; inversion H as [[Hc Ht]].
           exact (Hn t Ht).
        -- change (strip_trailing_slash (String c (String c' s')))
             with (String c (strip_trailing_slash (String c' s'))).
           now rewrite Hs.
Qed.

(** X1. The constructor removes exactly one trailing slash from the base
    URL: a base written [t/] is stored as [t] (so [t//] keeps one slash),
    and a base that does not end in a slash is stored as it is. The token is
    stored unchanged. *)
Theorem constructor_strips_one_slash (url token : string) (tenant : option string) :
  let client := Client.constructor {| config_baseUrl := url;
                                      config_jwtToken := token;
                                      config_tenantId := tenant |} in
  jwtToken client = token
  /\ ((exists t, url = t ++ "/" /\ baseUrl client = t)
      \/ ((forall t, url <> t ++ "/") /\ baseUrl client = url)).
Proof.
  simpl. split; [reflexivity|apply strip_cases].
Qed.

(** X2. Start-up gives no client exactly when NEVENT_JWT_TOKEN is unset or
    empty. Otherwise the client holds that token, and its base URL is
    NEVENT_API_URL without one trailing slash, or [https://api.nevent.io]
    when that variable is unset or empty. *)
Theorem startup_configuration (penv : ProcessEnv) :
  (startup penv = None <-> More.unset (NEVENT_JWT_TOKEN penv))
  /\ (forall client,
        startup penv = Some client ->
        NEVENT_JWT_TOKEN penv = Some (jwtToken client)
        /\ jwtToken client <> ""
        /\ (More.unset (NEVENT_API_URL penv) ->
            baseUrl client = "https://api.nevent.io")
        /\ (forall u, NEVENT_API_URL penv = Some u -> u <> "" ->
            baseUrl client = strip_trailing_slash u)).
Proof.
  unfold startup, More.unset, or_else.
  destruct penv as [url [token|] tenant]; simpl.
  - destruct (String.eqb token "") eqn:E.
    + apply String.eqb_eq in E. subst token. simpl. split.
      * split; auto.
      * intros client H. discriminate H.
    + rewrite E. split.
      * split; [discriminate|]. intros [H|H]; [discriminate|].
        inversion H; subst. now rewrite String.eqb_refl in E.
      * intros client H. inversion H; subst; clear H. simpl.
        split; [reflexivity|]. split.
        -- intros H. subst token. now rewrite String.eqb_refl in E.
        -- split.
           ++ intros [H|H]; subst url; reflexivity.
           ++ intros u Hu Hne. subst url.
              apply String.eqb_neq in Hne. now rewrite Hne.
  - split.
    + split; auto.
    + intros client H. discriminate H.
Qed.

Lemma startup_configuration_witness :
  startup Examples.tenant_env = Some Examples.client
  /\ More.unset (NEVENT_API_URL Examples.tenant_env)
  /\ baseUrl Examples.client = "https://api.nevent.io".
Proof.
  assert (Hs : startup Examples.tenant_env = Some Examples.client) by reflexivity.
  assert (Hu : More.unset (NEVENT_API_URL Examples.tenant_env))
    by (left; reflexivity).
  split; [exact Hs|split; [exact Hu|]].
  exact (proj1 (proj2 (proj2 (proj2 (startup_configuration Examples.tenant_env)
                                 Examples.client Hs))) Hu).
Defined.

(** ** One request per invocation *)

Lemma handler_trace (client : NeventClient) (params : CallToolParams)
    (env : Env) (tr : Trace) :
  snd (call_tool_handler client params env tr)
  = snd (call_tool client (tool_name params) (toolArgs_of params) env tr).
Proof.
  rewrite handler_run.
  destruct (call_tool client (tool_name params) (toolArgs_of params) env tr)
    as [[result|e] tr']; reflexivity.
Qed.

(** X3. An invocation never makes more than one request and never calls
    [fetch] more than once: its trace is empty (the failure came before the
    client was reached), or one entry into [request], or that entry
    followed by one call of [fetch]. *)
Theorem one_request_per_invocation (client : NeventClient) (params : CallToolParams)
    (env : Env) :
  trace_of (call_tool_handler client params) env = []
  \/ (exists m p b ps,
        trace_of (call_tool_handler client params) env = [Requested m p b ps])
  \/ (exists m p b ps call,
        trace_of (call_tool_handler client params) env
        = [Requested m p b ps; Fetched call]).
Proof.
  unfold trace_of. rewrite handler_trace.
  destruct (call_tool_runs client (tool_name params) (toolArgs_of params) env)
    as [[Ht _]|[m [p [b [ps Hrun]]]]].
  - left. exact Ht.
  - rewrite Hrun, send_trace. simpl.
    destruct (prepare client env m p b ps) as [call|e].
    + right. right. exists m, p, b, ps, call. reflexivity.
    + right. left. exists m, p, b, ps. reflexivity.
Qed.

(** ** What the handler replies after a call of [fetch] *)

Lemma call_tool_settles (client : NeventClient) (name : string) (args : JsObject)
    (env : Env) (call : FetchCall) :
  In (Fetched call) (trace_of (call_tool client name args) env) ->
  outcome (call_tool client name args) env
  = let! r := await (fetch env call) in
    let! response := settle r in
    Normal (data response).
Proof.
  destruct (call_tool_runs client name args env)
    as [[Ht _]|[m [p [b [ps Hrun]]]]].
  - rewrite Ht. contradiction.
  - unfold trace_of, outcome. rewrite Hrun, send_run.
    destruct (prepare client env m p b ps) as [call'|e]; simpl.
    + intros [H|[H|[]]]; [discriminate|]. now inversion H.
    + intros [H|[]]. discriminate.
Qed.

Lemma handler_settles (client : NeventClient) (params : CallToolParams)
    (env : Env) (call : FetchCall) :
  In (Fetched call) (trace_of (call_tool_handler client params) env) ->
  outcome (call_tool_handler client params) env
  = match (let! r := await (fetch env call) in
           let! response := settle r in
           Normal (data response)) with
    | Normal result => Normal (success_reply result)
    | Throw error =>
        let! errorMessage := error_message error in
        Normal (error_reply errorMessage)
    end.
Proof.
  unfold trace_of. rewrite handler_trace. intros Hin.
  pose proof (call_tool_settles client _ _ env call Hin) as Hout.
  unfold outcome in *. rewrite handler_run.
  destruct (call_tool client (tool_name params) (toolArgs_of params) env [])
    as [res tr'].
  simpl in Hout. subst res.
  destruct (let! r := await (fetch env call) in
            let! response := settle r in Normal (data response)); reflexivity.
Qed.

Lemma ok_status_in_range (r : Response) :
  (200 <= status r <= 299)%Z -> ok_status r = true.
Proof. intros H. now apply ok_status_range. Qed.

Lemma ok_status_out_of_range (r : Response) :
  ~ (200 <= status r <= 299)%Z -> ok_status r = false.
Proof.
  intros H. destruct (ok_status r) eqn:E; [|reflexivity].
  apply ok_status_range in E. contradiction.
Qed.

(** X4. When the response of the one call of [fetch] has a status in
    200..299 and its body decodes to [d], the reply of the handler is the
    single text item [JSON.stringify(d, null, 2)], without [isError]: the
    decoded body goes back to the caller unmodified, whatever the tool. *)
Theorem success_returns_the_body (client : NeventClient) (params : CallToolParams)
    (env : Env) (call : FetchCall) (r : Response) (d : JsValue) :
  In (Fetched call) (trace_of (call_tool_handler client params) env) ->
  fetch env call = Fulfilled r ->
  (200 <= status r <= 299)%Z ->
  read_body r = Normal d ->
  outcome (call_tool_handler client params) env
  = Normal (More.text_reply (JSON_stringify_pretty d) None).
Proof.
  intros Hin Hf Hst Hb.
  rewrite (handler_settles client params env call Hin), Hf. simpl.
  unfold settle. rewrite Hb. simpl.
  now rewrite (ok_status_in_range r Hst).
Qed.

Lemma success_returns_the_body_witness :
  In (Fetched Examples.get_u1)
     (trace_of (call_tool_handler Examples.client Examples.get_user_u1)
        (Examples.always Examples.ok_empty))
  /\ outcome (call_tool_handler Examples.client Examples.get_user_u1)
       (Examples.always Examples.ok_empty)
     = Normal (More.text_reply (Some "{}") None).
Proof.
  assert (Hin : In (Fetched Examples.get_u1)
     (trace_of (call_tool_handler Examples.client Examples.get_user_u1)
        (Examples.always Examples.ok_empty))).
  { vm_compute. right. left. reflexivity. }
  split; [exact Hin|].
  refine (success_returns_the_body Examples.client Examples.get_user_u1
            (Examples.always Examples.ok_empty) Examples.get_u1
            Examples.ok_empty (JObj []) Hin eq_refl _ eq_refl).
  vm_compute. split; discriminate.
Defined.

(** ** Where a request goes *)

(** The pairs [append_params] appends: one for each entry that is not
    [undefined], in order, with the string form of its value. *)
Lemma append_params_exact (entries : JsObject) (url url' : URL) :
  append_params entries url = Normal url' ->
  exists q,
    url' = appended_to url q
    /\ Forall2 More.printed (filter More.defined entries) q.
Proof.
  revert url. induction entries as [|[k v] entries IH]; intros url; simpl.
  - intros H. inversion H. exists []. split; constructor.
  - destruct v as [| |b|n|s|items|members];
      try (intros H; apply IH in H; exact H);
      match goal with
      | |- context [js_ToString ?x] =>
          destruct (js_ToString x) as [str|err] eqn:E; simpl; [|discriminate];
          intros H; apply IH in H; destruct H as [q [Hq HF]];
          exists ((k, str) :: q); rewrite Hq, appended_to_cons;
          split; [reflexivity|];
          unfold More.defined at 1; simpl;
          constructor; [split; [reflexivity|exact E]|exact HF]
      end.
Qed.

(** The address [request] fetches: what the parser makes of the base URL
    followed by the path, with the pairs of the mapping appended. *)
Lemma prepare_url (this : NeventClient) (env : Env) (method path : string)
    (body : JsValue) (params : option JsObject) (call : FetchCall) :
  prepare this env method path body params = Normal call ->
  exists u q,
    URL_parse env (baseUrl this ++ path) = Some u
    /\ fetch_url call = URL_toString (appended_to u q)
    /\ match params with
       | Some entries => Forall2 More.printed (filter More.defined entries) q
       | None => q = []
       end.
Proof.
  unfold prepare, new_URL.
  destruct (URL_parse env (baseUrl this ++ path)) as [u|]; simpl; [|discriminate].
  destruct params as [entries|]; simpl.
  - destruct (append_params entries u) as [url'|e] eqn:E; simpl; [|discriminate].
    intros H. inversion H. apply append_params_exact in E.
    destruct E as [q [-> HF]]. exists u, q. now split.
  - intros H. inversion H. exists u, []. now split.
Qed.



(** The request of a case, with the template that gave its path. *)
Lemma with_path_request {A} (parts : list (string + JsValue)) (k : string -> M A)
    (env : Env) (ev : Event) :
  In ev (snd (with_path parts k env [])) ->
  exists path, template parts = Normal path /\ In ev (snd (k path env [])).
Proof.
  rewrite with_path_run.
  destruct (template parts) as [path|e]; simpl; [|contradiction].
  intros H. now exists path.
Qed.

Lemma prefix_app (s r : string) : prefix s (s ++ r) = true.
Proof.
  induction s as [|c s IH]; simpl; [now destruct r|].
  destruct (ascii_dec c c) as [_|Hn]; [exact IH|now elim Hn].
Qed.

Lemma template_head (s : string) (rest : list (string + JsValue)) (p : string) :
  template (inl s :: rest) = Normal p -> exists r, p = s ++ r.
Proof.
  simpl. destruct (template rest) as [r|e]; simpl; [|discriminate].
  intros H. inversion H. now exists r.
Qed.

Ltac requested_with_path H :=
  cbn [snd] in H; autounfold with tools in H;
  first
    [ apply send_requested in H
    | apply with_path_request in H;
      let E := fresh "Epath" in
      destruct H as [? [E H]]; apply send_requested in H;
      apply template_head in E; destruct E as [? E]
    | unfold bind, lift, encodeURIComponent in H;
      destruct (js_ToString _); simpl in H; [apply send_requested in H|contradiction] ];
  destruct H as (-> & -> & -> & ->).

(** X6. The request of a tool uses one of the five methods; only a GET
    has a query mapping; a GET or a DELETE has no body, and its call of
    [fetch] no payload. *)
Theorem method_discipline (client : NeventClient) (name : string) (args : JsObject)
    (env : Env) :
  (forall m p b ps,
      In (Requested m p b ps) (trace_of (call_tool client name args) env) ->
      In m More.methods
      /\ (ps <> None -> m = "GET")
      /\ (m = "GET" \/ m = "DELETE" -> b = JUndefined))
  /\ (forall call,
        In (Fetched call) (trace_of (call_tool client name args) env) ->
        init_method (fetch_init call) = "GET"
        \/ init_method (fetch_init call) = "DELETE" ->
        init_body (fetch_init call) = None).
Proof.
  assert (Hreq : forall m p b ps,
      In (Requested m p b ps) (trace_of (call_tool client name args) env) ->
      In m More.methods
      /\ (ps <> None -> m = "GET")
      /\ (m = "GET" \/ m = "DELETE" -> b = JUndefined)).
  { intros m p b ps. unfold trace_of, call_tool.
    destruct (find_case name) as [c|] eqn:E; [|simpl; contradiction].
    apply find_case_some in E. destruct E as [Hin _].
    revert Hin. unfold cases, user_cases, campaign_cases, lineup_cases. simpl In.
    intros Hin H.
    repeat (destruct Hin as [<-|Hin];
      [ requested H;
        split; [simpl; auto 10|split];
        [ first [intros _; reflexivity|intros Hn; exfalso; apply Hn; reflexivity]
        | intros [Hm|Hm]; first [reflexivity|discriminate Hm] ]
      | ]).
    contradiction. }
  split; [exact Hreq|].
  intros call Hin Hm.
  destruct (call_tool_fetch_of_request client name args env call Hin)
    as [m [p [b [ps [Hr Hprep]]]]].
  apply prepare_init in Hprep. rewrite Hprep in *. simpl in *.
  destruct (Hreq m p b ps Hr) as [_ [_ Hb]].
  rewrite (Hb Hm). reflexivity.
Qed.

Lemma method_discipline_witness :
  In (Fetched Examples.get_u1)
     (trace_of (call_tool Examples.client "get_user" [("userId", JStr "u1")])
        (Examples.always Examples.ok_empty))
  /\ init_body (fetch_init Examples.get_u1) = None.
Proof.
  assert (Hin : In (Fetched Examples.get_u1)
     (trace_of (call_tool Examples.client "get_user" [("userId", JStr "u1")])
        (Examples.always Examples.ok_empty))).
  { vm_compute. right. left. reflexivity. }
  split; [exact Hin|].
  exact (proj2 (method_discipline Examples.client "get_user"
                  [("userId", JStr "u1")] (Examples.always Examples.ok_empty))
           Examples.get_u1 Hin (or_introl eq_refl)).
Defined.

(** X7. The path of every request starts with one of the roots [/users],
    [/properties], [/campaigns], [/segments], [/templates/email],
    [/admin/performers], [/admin/sessions], [/admin/events],
    [/public/events], [/events]; no tool requests a path under
    [/lists/]. *)
Theorem paths_stay_under_the_roots (client : NeventClient) (name : string)
    (args : JsObject) (env : Env) (m p : string) (b : JsValue)
    (ps : option JsObject) :
  In (Requested m p b ps) (trace_of (call_tool client name args) env) ->
  More.under_a_root p = true /\ prefix "/lists/" p = false.
Proof.
  unfold trace_of, call_tool.
  destruct (find_case name) as [c|] eqn:E; [|simpl; contradiction].
  apply find_case_some in E. destruct E as [Hin _].
  revert Hin. unfold cases, user_cases, campaign_cases, lineup_cases. simpl In.
  intros Hin H.
  repeat (destruct Hin as [<-|Hin];
    [ requested_with_path H; try subst; split; reflexivity | ]).
  contradiction.
Qed.

Lemma paths_stay_under_the_roots_witness :
  In (Requested "GET" "/users/u1" JUndefined None)
     (trace_of (call_tool Examples.client "get_user" [("userId", JStr "u1")])
        (Examples.always Examples.ok_empty))
  /\ More.under_a_root "/users/u1" = true /\ prefix "/lists/" "/users/u1" = false.
Proof.
  assert (Hin : In (Requested "GET" "/users/u1" JUndefined None)
     (trace_of (call_tool Examples.client "get_user" [("userId", JStr "u1")])
        (Examples.always Examples.ok_empty))).
  { vm_compute. left. reflexivity. }
  split; [exact Hin|].
  exact (paths_stay_under_the_roots Examples.client "get_user"
           [("userId", JStr "u1")] (Examples.always Examples.ok_empty)
           "GET" "/users/u1" JUndefined None Hin).
Defined.

(** ** The query, entry by entry *)

Lemma Forall2_in_left {A B} (R : A -> B -> Prop) (l1 : list A) (l2 : list B) (x : A) :
  Forall2 R l1 l2 -> In x l1 -> exists y, In y l2 /\ R x y.
Proof.
  induction 1 as [|a b l1 l2 Hab _ IH]; simpl; [contradiction|].
  intros [<-|Hin].
  - exists b. split; [now left|exact Hab].
  - destruct (IH Hin) as [y [Hy HR]]. exists y. split; [now right|exact HR].
Qed.

(** X8. The address [request] fetches for a query mapping is what the
    parser makes of the base URL followed by the path, with one pair
    appended for each entry of the mapping whose value is not [undefined],
    in the order of the mapping, with the string form of the value: its
    query is the serialisation of the pairs the path already carried
    followed by those. When no entry is defined the address is fetched as
    it was parsed. An entry whose value is [null] is sent as the text
    [null]. *)
Theorem query_follows_the_mapping (this : NeventClient) (method path : string)
    (body : JsValue) (params : JsObject) (env : Env) (call : FetchCall) :
  In (Fetched call)
     (trace_of (request this method path body (Some params)) env) ->
  exists u q,
    URL_parse env (baseUrl this ++ path) = Some u
    /\ Forall2 More.printed (filter More.defined params) q
    /\ (q = [] -> fetch_url call = URL_toString u)
    /\ (q <> [] ->
        fetch_url call
        = url_address u ++ "?" ++ urlencoded (searchParams u ++ q)
          ++ fragment_text u)
    /\ (forall k, In (k, JNull) params -> In (k, "null") q).
Proof.
  intros Hin. apply request_fetched in Hin.
  destruct (prepare_url _ _ _ _ _ _ _ Hin) as [u [q [Hu [Hq HF]]]].
  exists u, q. split; [exact Hu|split; [exact HF|split; [|split]]].
  - intros ->. exact Hq.
  - intros Hne. rewrite Hq. now apply URL_toString_appended.
  - intros k Hk.
    assert (Hf : In (k, JNull) (filter More.defined params))
      by (apply filter_In; split; [exact Hk|reflexivity]).
    destruct (Forall2_in_left _ _ _ _ HF Hf) as [[k' s] [Hy [Hfst Hs]]].
    simpl in Hfst, Hs. inversion Hs. now subst.
Qed.

Lemma query_follows_the_mapping_witness :
  In (Fetched More.sorted_users)
     (trace_of (request Examples.client "GET" "/users" JUndefined
                  (Some [("sort", JNull); ("page", JNum 2)]))
        (Examples.always Examples.ok_empty))
  /\ exists u q,
       URL_parse (Examples.always Examples.ok_empty)
         (baseUrl Examples.client ++ "/users") = Some u
       /\ Forall2 More.printed
            (filter More.defined [("sort", JNull); ("page", JNum 2)]) q
       /\ (q = [] -> fetch_url More.sorted_users = URL_toString u)
       /\ (q <> [] ->
           fetch_url More.sorted_users
           = url_address u ++ "?" ++ urlencoded (searchParams u ++ q)
             ++ fragment_text u)
       /\ (forall k, In (k, JNull) [("sort", JNull); ("page", JNum 2)] ->
                     In (k, "null") q).
Proof.
  assert (Hin : In (Fetched More.sorted_users)
     (trace_of (request Examples.client "GET" "/users" JUndefined
                  (Some [("sort", JNull); ("page", JNum 2)]))
        (Examples.always Examples.ok_empty))).
  { vm_compute. right. left. reflexivity. }
  split; [exact Hin|].
  exact (query_follows_the_mapping Examples.client "GET" "/users" JUndefined
           [("sort", JNull); ("page", JNum 2)]
           (Examples.always Examples.ok_empty) More.sorted_users Hin).
Defined.

(** ** Failures *)

Lemma template_throws (parts : list (string + JsValue)) (v : JsValue) (e : Thrown) :
  In (inr v) parts -> js_ToString v = Throw e ->
  template parts = Throw cannot_convert.
Proof.
  intros Hin Hv. induction parts as [|[s|v'] parts IH]; simpl; [contradiction| |].
  - destruct Hin as [Hin|Hin]; [discriminate|]. now rewrite (IH Hin).
  - destruct (js_ToString v') as [s'|e'] eqn:E; simpl.
    + destruct Hin as [Hin|Hin]; [inversion Hin; congruence|].
      now rewrite (IH Hin).
    + now rewrite (js_ToString_throws _ _ E).
Qed.

(** X9. When an argument that a tool puts into its path has no string
    form (an object with an own [toString] member, or an array that holds
    one), the switch throws the conversion [TypeError] before the client is
    reached: the trace stays empty, and the reply of the handler is
    [Error: Cannot convert object to primitive value]. *)
Theorem unprintable_identifier_stops_the_call (client : NeventClient)
    (name : string) (args : JsObject) (env : Env) (k : string) (e : Thrown) :
  In k (Spec.path_fields name) ->
  js_ToString (obj_get k args) = Throw e ->
  call_tool client name args env [] = (Throw cannot_convert, [])
  /\ call_tool_handler client {| tool_name := name; arguments := Some args |} env []
     = (Normal (More.text_reply
                  (Some "Error: Cannot convert object to primitive value")
                  (Some true)), []).
Proof.
  intros Hk Hv.
  assert (Hcall : call_tool client name args env [] = (Throw cannot_convert, [])).
  { pose proof (js_ToString_throws _ _ Hv) as He. subst e.
    unfold Spec.path_fields in Hk.
    destruct (find (fun e => String.eqb name (fst e)) Spec.path_fields_table)
      as [entry|] eqn:E; [|contradiction].
    apply find_some in E. destruct E as [Hin Heq].
    apply String.eqb_eq in Heq. subst name.
    unfold Spec.path_fields_table in Hin. simpl In in Hin.
    repeat (destruct Hin as [<-|Hin];
      [ cbn [fst snd] in *;
        erewrite call_tool_case by reflexivity;
        cbn [snd]; autounfold with tools;
        repeat (destruct Hk as [<-|Hk];
          [ first
              [ rewrite with_path_run; erewrite template_throws;
                [reflexivity| |exact Hv]; simpl; auto 10
              | unfold bind, lift, encodeURIComponent; rewrite Hv; reflexivity ]
          | ]);
        contradiction
      | ]).
    contradiction. }
  split; [exact Hcall|].
  rewrite handler_run. unfold toolArgs_of. simpl. rewrite Hcall. reflexivity.
Qed.

Lemma unprintable_identifier_stops_the_call_witness :
  In "userId" (Spec.path_fields "get_user")
  /\ js_ToString (obj_get "userId" [("userId", JObj [("toString", JNum 1)])])
     = Throw cannot_convert
  /\ call_tool Examples.client "get_user"
       [("userId", JObj [("toString", JNum 1)])]
       (Examples.always Examples.ok_empty) []
     = (Throw cannot_convert, []).
Proof.
  assert (Hk : In "userId" (Spec.path_fields "get_user"))
    by (vm_compute; left; reflexivity).
  split; [exact Hk|split; [reflexivity|]].
  exact (proj1 (unprintable_identifier_stops_the_call Examples.client "get_user"
                  [("userId", JObj [("toString", JNum 1)])]
                  (Examples.always Examples.ok_empty) "userId" cannot_convert
                  Hk eq_refl)).
Defined.

(** X10. When the URL parser rejects the address of the request (the base
    URL followed by the path), the invocation stops there: its trace is
    the entry into [request] alone, with no call of [fetch], and the reply
    of the handler is [Error: Invalid URL]. *)
Theorem invalid_url_stops_the_call (client : NeventClient) (params : CallToolParams)
    (env : Env) (m p : string) (b : JsValue) (ps : option JsObject) :
  In (Requested m p b ps) (trace_of (call_tool_handler client params) env) ->
  URL_parse env (baseUrl client ++ p) = None ->
  trace_of (call_tool_handler client params) env = [Requested m p b ps]
  /\ outcome (call_tool_handler client params) env
     = Normal (More.text_reply (Some "Error: Invalid URL") (Some true)).
Proof.
  unfold trace_of, outcome. rewrite handler_run.
  destruct (call_tool_runs client (tool_name params) (toolArgs_of params) env)
    as [[Ht _]|[m' [p' [b' [ps' Hrun]]]]].
  - unfold trace_of in Ht.
    destruct (call_tool client (tool_name params) (toolArgs_of params) env [])
      as [[res|e] tr']; simpl in *; subst tr'; contradiction.
  - rewrite Hrun, send_run. unfold prepare, new_URL.
    destruct (URL_parse env (baseUrl client ++ p')) as [u|] eqn:Eu; simpl.
    + destruct (match ps' with
                | Some entries => append_params entries u
                | None => Normal u
                end) as [url'|e]; simpl.
      * destruct (await (fetch env _)) as [r|e]; simpl;
          [destruct (settle r); simpl|];
          (intros [H|[H|[]]]; [|discriminate H]); inversion H; subst;
          intros Hu; rewrite Hu in Eu; discriminate Eu.
      * intros [H|[]]. inversion H; subst.
        intros Hu. rewrite Hu in Eu. discriminate Eu.
    + intros [H|[]] _. inversion H; subst. split; reflexivity.
Qed.

Lemma invalid_url_stops_the_call_witness :
  In (Requested "GET" "/users/u1" JUndefined None)
     (trace_of (call_tool_handler Examples.misconfigured Examples.get_user_u1)
        (Examples.always Examples.ok_empty))
  /\ URL_parse (Examples.always Examples.ok_empty)
       (baseUrl Examples.misconfigured ++ "/users/u1") = None
  /\ outcome (call_tool_handler Examples.misconfigured Examples.get_user_u1)
       (Examples.always Examples.ok_empty)
     = Normal (More.text_reply (Some "Error: Invalid URL") (Some true)).
Proof.
  assert (Hin : In (Requested "GET" "/users/u1" JUndefined None)
     (trace_of (call_tool_handler Examples.misconfigured Examples.get_user_u1)
        (Examples.always Examples.ok_empty))).
  { vm_compute. left. reflexivity. }
  split; [exact Hin|split; [reflexivity|]].
  exact (proj2 (invalid_url_stops_the_call Examples.misconfigured
                  Examples.get_user_u1 (Examples.always Examples.ok_empty)
                  "GET" "/users/u1" JUndefined None Hin eq_refl)).
Defined.

(** X11. When [fetch] rejects (a network fault), the reply of the handler
    is [Error: ] followed by the message of the rejection. *)
Theorem network_failure_reply (client : NeventClient) (params : CallToolParams)
    (env : Env) (call : FetchCall) (cls : ErrorClass) (message : string) :
  In (Fetched call) (trace_of (call_tool_handler client params) env) ->
  fetch env call = Rejected cls message ->
  outcome (call_tool_handler client params) env
  = Normal (More.text_reply (Some ("Error: " ++ message)) (Some true)).
Proof.
  intros Hin Hf.
  rewrite (handler_settles client params env call Hin), Hf. reflexivity.
Qed.

Lemma network_failure_reply_witness :
  In (Fetched Examples.get_u1)
     (trace_of (call_tool_handler Examples.client Examples.get_user_u1)
        Examples.unreachable)
  /\ outcome (call_tool_handler Examples.client Examples.get_user_u1)
       Examples.unreachable
     = Normal (More.text_reply (Some "Error: fetch failed") (Some true)).
Proof.
  assert (Hin : In (Fetched Examples.get_u1)
     (trace_of (call_tool_handler Examples.client Examples.get_user_u1)
        Examples.unreachable)).
  { vm_compute. right. left. reflexivity. }
  split; [exact Hin|].
  exact (network_failure_reply Examples.client Examples.get_user_u1 _
           Examples.get_u1 ETypeError "fetch failed" Hin eq_refl).
Defined.

(** X12. When the response announces JSON and its body does not parse,
    the invocation fails with the error of the parser whatever the status
    is, a status in 200..299 included. *)
Theorem unparsable_body_fails (client : NeventClient) (params : CallToolParams)
    (env : Env) (call : FetchCall) (r : Response) (ct : string)
    (cls : ErrorClass) (message : string) :
  In (Fetched call) (trace_of (call_tool_handler client params) env) ->
  fetch env call = Fulfilled r ->
  content_type r = Some ct ->
  includes ct "application/json" = true ->
  json r = Rejected cls message ->
  outcome (call_tool_handler client params) env
  = Normal (More.text_reply (Some ("Error: " ++ message)) (Some true)).
Proof.
  intros Hin Hf Hct Hinc Hj.
  rewrite (handler_settles client params env call Hin), Hf. simpl.
  unfold settle, read_body. rewrite Hct, Hinc, Hj. reflexivity.
Qed.

(** X13. When the response does not announce JSON, its body is read as
    text: with a status in 200..299 the reply is that text as a JSON
    string, and with any other status the reply is the synthesized
    [Error: HTTP <status>: <statusText>], the text of the body being
    dropped. *)
Theorem text_response_reply (client : NeventClient) (params : CallToolParams)
    (env : Env) (call : FetchCall) (r : Response) (t : string) :
  In (Fetched call) (trace_of (call_tool_handler client params) env) ->
  fetch env call = Fulfilled r ->
  More.not_json r ->
  Web.text r = Fulfilled t ->
  ((200 <= status r <= 299)%Z ->
   outcome (call_tool_handler client params) env
   = Normal (More.text_reply (Some (json_quote t)) None))
  /\ (~ (200 <= status r <= 299)%Z ->
      outcome (call_tool_handler client params) env
      = Normal (More.text_reply
                  (Some ("Error: HTTP " ++ number_to_string (status r) ++ ": "
                         ++ statusText r))
                  (Some true))).
Proof.
  intros Hin Hf Hnj Ht.
  rewrite (handler_settles client params env call Hin), Hf. simpl.
  assert (Hb : read_body r = Normal (JStr t)).
  { unfold read_body, More.not_json in *.
    destruct (content_type r) as [ct|]; [rewrite Hnj|]; now rewrite Ht. }
  unfold settle. rewrite Hb. simpl. split; intros Hst.
  - now rewrite (ok_status_in_range r Hst).
  - now rewrite (ok_status_out_of_range r Hst).
Qed.

Lemma unparsable_body_fails_witness :
  In (Fetched Examples.get_u1)
     (trace_of (call_tool_handler Examples.client Examples.get_user_u1)
        (Examples.always More.empty_json))
  /\ (200 <= status More.empty_json <= 299)%Z
  /\ outcome (call_tool_handler Examples.client Examples.get_user_u1)
       (Examples.always More.empty_json)
     = Normal (More.text_reply (Some "Error: Unexpected end of JSON input")
                 (Some true)).
Proof.
  assert (Hin : In (Fetched Examples.get_u1)
     (trace_of (call_tool_handler Examples.client Examples.get_user_u1)
        (Examples.always More.empty_json))).
  { vm_compute. right. left. reflexivity. }
  split; [exact Hin|split; [vm_compute; split; discriminate|]].
  exact (unparsable_body_fails Examples.client Examples.get_user_u1
           (Examples.always More.empty_json) Examples.get_u1 More.empty_json
           "application/json" ESyntaxError "Unexpected end of JSON input"
           Hin eq_refl eq_refl eq_refl eq_refl).
Defined.

Lemma text_response_reply_witness :
  In (Fetched Examples.get_u1)
     (trace_of (call_tool_handler Examples.client Examples.get_user_u1)
        (Examples.always More.bad_gateway))
  /\ More.not_json More.bad_gateway
  /\ outcome (call_tool_handler Examples.client Examples.get_user_u1)
       (Examples.always More.bad_gateway)
     = Normal (More.text_reply (Some "Error: HTTP 502: Bad Gateway") (Some true)).
Proof.
  assert (Hin : In (Fetched Examples.get_u1)
     (trace_of (call_tool_handler Examples.client Examples.get_user_u1)
        (Examples.always More.bad_gateway))).
  { vm_compute. right. left. reflexivity. }
  assert (Hnj : More.not_json More.bad_gateway) by reflexivity.
  split; [exact Hin|split; [exact Hnj|]].
  refine (proj2 (text_response_reply Examples.client Examples.get_user_u1
                   (Examples.always More.bad_gateway) Examples.get_u1
                   More.bad_gateway "<h1>upstream down</h1>"
                   Hin eq_refl Hnj eq_refl) _).
  vm_compute. intros [_ H]. apply H. reflexivity.
Defined.

(** ** Arguments are not checked *)

Lemma plain_printable (v : JsValue) :
  More.plain v = true -> exists s, js_ToString v = Normal s.
Proof.
  destruct v as [| |b|n|s|items|members]; simpl; try discriminate; intros _;
    try destruct b; eexists; reflexivity.
Qed.

Lemma obj_get_plain (k : string) (args : JsObject) :
  Forall (fun kv => Spec.scalar (snd kv) = true) args ->
  More.plain (obj_get k args) = true.
Proof.
  induction 1 as [|[k' v] args Hv _ IH]; simpl; [reflexivity|].
  destruct (String.eqb k k'); [|exact IH].
  simpl in Hv. destruct v; try discriminate Hv; reflexivity.
Qed.

Lemma nullish_plain (a d : JsValue) :
  More.plain a = true -> More.plain d = true -> More.plain (nullish a d) = true.
Proof. destruct a; simpl; auto. Qed.

Lemma param_default_plain (a d : JsValue) :
  More.plain a = true -> More.plain d = true ->
  More.plain (param_default a d) = true.
Proof. destruct a; simpl; auto. Qed.

Lemma template_plain (parts : list (string + JsValue)) :
  Forall More.plain_part parts -> exists p, template parts = Normal p.
Proof.
  induction 1 as [|[s|v] parts Hp _ [p IH]]; simpl.
  - eexists; reflexivity.
  - rewrite IH. eexists; reflexivity.
  - destruct (plain_printable v Hp) as [s Hs]. rewrite Hs, IH.
    eexists; reflexivity.
Qed.

Lemma append_params_plain (entries : JsObject) (url : URL) :
  Forall (fun kv => More.plain (snd kv) = true) entries ->
  exists url', append_params entries url = Normal url'.
Proof.
  intros H. revert url. induction H as [|[k v] entries Hv _ IH]; intros url; simpl.
  - eexists; reflexivity.
  - simpl in Hv. destruct (plain_printable v Hv) as [s Hs].
    destruct v; try apply IH; try discriminate Hv;
      rewrite Hs; simpl; apply IH.
Qed.

Lemma send_plain (this : NeventClient) (method path : string) (body : JsValue)
    (params : option JsObject) (env : Env) :
  More.plain_params params ->
  (URL_parse env (baseUrl this ++ path) = None ->
   snd (send this method path body params env [])
   = [Requested method path body params])
  /\ (URL_parse env (baseUrl this ++ path) <> None ->
      exists call,
        snd (send this method path body params env [])
        = [Requested method path body params; Fetched call]).
Proof.
  intros Hp. rewrite send_trace. unfold prepare, new_URL.
  destruct (URL_parse env (baseUrl this ++ path)) as [u|]; simpl.
  - split; [discriminate|]. intros _.
    destruct params as [entries|]; simpl.
    + destruct (append_params_plain entries u Hp) as [url' Hu].
      rewrite Hu. simpl. eexists; reflexivity.
    + eexists; reflexivity.
  - split; [reflexivity|]. intros H. now elim H.
Qed.

Create HintDb plain.
#[local] Hint Resolve obj_get_plain nullish_plain param_default_plain : plain.

(** X14. No tool checks its arguments. A registered tool other than
    [get_user_by_email] that is given arguments with scalar values (any of
    them, or none at all) always makes its request, and then its call of
    [fetch] unless the URL parser rejects the address of that request.
    ([get_user_by_email] is left out: [encodeURIComponent] refuses an
    email with an unpaired surrogate, which the strings of the model do not
    hold.) *)
Theorem scalar_arguments_reach_the_network (client : NeventClient) (name : string)
    (args : JsObject) (env : Env) :
  In name (map fst cases) ->
  name <> "get_user_by_email" ->
  Forall (fun kv => Spec.scalar (snd kv) = true) args ->
  exists m p b ps,
    (URL_parse env (baseUrl client ++ p) = None ->
     trace_of (call_tool client name args) env = [Requested m p b ps])
    /\ (URL_parse env (baseUrl client ++ p) <> None ->
        exists call,
          trace_of (call_tool client name args) env
          = [Requested m p b ps; Fetched call]).
Proof.
  intros Hname Hne Hargs. unfold trace_of.
  unfold cases, user_cases, campaign_cases, lineup_cases in Hname.
  simpl in Hname.
  repeat (destruct Hname as [<-|Hname];
    [ first
        [ now elim Hne
        | erewrite call_tool_case by reflexivity;
          cbn [snd]; autounfold with tools;
          first
            [ do 4 eexists; apply send_plain;
              simpl; repeat constructor; simpl; auto with plain
            | rewrite with_path_run;
              match goal with
              | |- context [template ?parts] =>
                  let H := fresh "Ht" in
                  destruct (template_plain parts) as [? H];
                  [ repeat constructor; simpl; auto with plain | rewrite H ]
              end;
              do 4 eexists; apply send_plain;
              simpl; repeat constructor; simpl; auto with plain ] ]
    | ]).
  contradiction.
Qed.

Lemma scalar_arguments_reach_the_network_witness :
  In "get_user" (map fst cases)
  /\ "get_user" <> "get_user_by_email"
  /\ Forall (fun kv => Spec.scalar (snd kv) = true) ([] : JsObject)
  /\ exists m p b ps,
       (URL_parse (Examples.always Examples.ok_empty)
          (baseUrl Examples.client ++ p) = None ->
        trace_of (call_tool Examples.client "get_user" [])
          (Examples.always Examples.ok_empty)
        = [Requested m p b ps])
       /\ (URL_parse (Examples.always Examples.ok_empty)
             (baseUrl Examples.client ++ p) <> None ->
           exists call,
             trace_of (call_tool Examples.client "get_user" [])
               (Examples.always Examples.ok_empty)
             = [Requested m p b ps; Fetched call]).
Proof.
  assert (Hn : In "get_user" (map fst cases)) by (simpl; auto).
  assert (Hne : "get_user" <> "get_user_by_email") by discriminate.
  split; [exact Hn|split; [exact Hne|split; [constructor|]]].
  exact (scalar_arguments_reach_the_network Examples.client "get_user" []
           (Examples.always Examples.ok_empty) Hn Hne (Forall_nil _)).
Defined.

(** *** A missing identifier *)

Lemma includes_prefix (s sub : string) : prefix sub s = true -> includes s sub = true.
Proof.
  intros H. destruct s as [|c s].
  - destruct sub; [reflexivity|discriminate H].
  - change (includes (String c s) sub)
      with (if prefix sub (String c s) then true else includes s sub).
    now rewrite H.
Qed.

Lemma includes_skip (a r sub : string) :
  includes r sub = true -> includes (a ++ r) sub = true.
Proof.
  intros H. induction a as [|c a IH]; [exact H|].
  change (includes (String c a ++ r) sub)
    with (if prefix sub (String c (a ++ r)) then true else includes (a ++ r) sub).
  rewrite IH. now destruct (prefix sub (String c (a ++ r))).
Qed.

Lemma template_includes (parts : list (string + JsValue)) (p : string)
    (v : JsValue) (s : string) :
  template parts = Normal p -> In (inr v) parts -> js_ToString v = Normal s ->
  includes p s = true.
Proof.
  revert p. induction parts as [|[s0|v'] parts IH]; intros p; simpl;
    [contradiction| |].
  - destruct (template parts) as [r|e]; simpl; [|discriminate].
    intros H [Hin|Hin] Hs; [discriminate|]. inversion H.
    apply includes_skip. now apply IH.
  - destruct (js_ToString v') as [s'|e'] eqn:E; simpl; [|discriminate].
    destruct (template parts) as [r|e]; simpl; [|discriminate].
    intros H [Hin|Hin] Hs; inversion H.
    + inversion Hin; subst v'. rewrite Hs in E. inversion E.
      apply includes_prefix, prefix_app.
    + apply includes_skip. now apply IH.
Qed.

Lemma template_printable (parts : list (string + JsValue)) :
  Forall More.printable_part parts -> exists p, template parts = Normal p.
Proof.
  induction 1 as [|[s|v] parts Hp _ [p IH]]; simpl.
  - eexists; reflexivity.
  - rewrite IH. eexists; reflexivity.
  - simpl in Hp. unfold More.printable in Hp.
    destruct (js_ToString v) as [s|e]; [|discriminate Hp].
    rewrite IH. eexists; reflexivity.
Qed.

Lemma send_includes (this : NeventClient) (method path : string) (body : JsValue)
    (params : option JsObject) (env : Env) (sub : string) :
  includes path sub = true ->
  exists m p b ps rest,
    snd (send this method path body params env [])
    = Requested m p b ps :: rest
    /\ includes p sub = true.
Proof.
  intros H. rewrite send_trace. simpl app.
  do 5 eexists. split; [reflexivity|exact H].
Qed.

(** X15. A tool that is called without an argument it puts into its path
    still makes its request, provided the other arguments it puts into
    the path have a string form: the missing argument reads as [undefined]
    and the path holds the text [undefined] (for instance
    [/users/undefined]). *)
Theorem missing_identifier_is_undefined (client : NeventClient) (name : string)
    (args : JsObject) (env : Env) (k : string) :
  In k (Spec.path_fields name) ->
  obj_has k args = false ->
  (forall k', In k' (Spec.path_fields name) ->
              More.printable (obj_get k' args) = true) ->
  exists m p b ps rest,
    trace_of (call_tool client name args) env = Requested m p b ps :: rest
    /\ includes p "undefined" = true.
Proof.
  intros Hk Habs Hp. apply obj_get_absent in Habs. unfold trace_of.
  revert Hk Hp. unfold Spec.path_fields.
  destruct (find (fun e => String.eqb name (fst e)) Spec.path_fields_table)
    as [entry|] eqn:E; [|contradiction].
  apply find_some in E. destruct E as [Hin Heq].
  apply String.eqb_eq in Heq. subst name.
  unfold Spec.path_fields_table in Hin. simpl In in Hin.
  intros Hk Hp.
  repeat (destruct Hin as [<-|Hin];
    [ cbn [fst snd] in *;
      erewrite call_tool_case by reflexivity;
      cbn [snd]; autounfold with tools;
      first
        [ rewrite with_path_run;
          match goal with
          | |- context [template ?parts] =>
              let H := fresh "Ht" in
              destruct (template_printable parts) as [path H];
              [ repeat constructor; simpl; apply Hp; simpl; auto 10
              | rewrite H; apply send_includes;
                repeat (destruct Hk as [<-|Hk];
                  [ apply (template_includes _ _ JUndefined "undefined" H);
                    [rewrite <- Habs; simpl; auto 10|reflexivity]
                  | ]);
                contradiction ]
          end
        | unfold bind, lift, encodeURIComponent;
          repeat (destruct Hk as [<-|Hk];
            [ rewrite Habs; simpl; apply send_includes; reflexivity
            | ]);
          contradiction ]
    | ]).
  contradiction.
Qed.

Lemma missing_identifier_is_undefined_witness :
  In "userId" (Spec.path_fields "get_user")
  /\ obj_has "userId" [] = false
  /\ (forall k', In k' (Spec.path_fields "get_user") ->
                 More.printable (obj_get k' []) = true)
  /\ exists m p b ps rest,
       trace_of (call_tool Examples.client "get_user" [])
         (Examples.always Examples.ok_empty)
       = Requested m p b ps :: rest
       /\ includes p "undefined" = true.
Proof.
  assert (Hk : In "userId" (Spec.path_fields "get_user"))
    by (vm_compute; left; reflexivity).
  assert (Hp : forall k', In k' (Spec.path_fields "get_user") ->
                          More.printable (obj_get k' []) = true)
    by (intros k' _; reflexivity).
  split; [exact Hk|split; [reflexivity|split; [exact Hp|]]].
  exact (missing_identifier_is_undefined Examples.client "get_user" []
           (Examples.always Examples.ok_empty) "userId" Hk eq_refl Hp).
Defined.

(** ** Encoding of identifiers *)





(** ** Bodies *)

Lemma obj_has_in (k : string) (o : JsObject) :
  obj_has k o = true <-> In k (map fst o).
Proof.
  unfold obj_has. rewrite existsb_exists. split.
  - intros [[k' v] [Hin Heq]]. apply String.eqb_eq in Heq. simpl in Heq.
    subst k'. change k with (fst (k, v)). now apply in_map.
  - intros Hin. apply in_map_iff in Hin. destruct Hin as [[k' v] [Heq Hin]].
    simpl in Heq. subst k'. exists (k, v). split; [exact Hin|].
    apply String.eqb_refl.
Qed.

Lemma obj_has_not_in (k : string) (o : JsObject) :
  ~ In k (map fst o) -> obj_has k o = false.
Proof.
  intros H. destruct (obj_has k o) eqn:E; [|reflexivity].
  apply obj_has_in in E. contradiction.
Qed.

Lemma obj_rest_keys (k : string) (o : JsObject) :
  NoDup (map fst o) ->
  NoDup (map fst (obj_rest k o)) /\ ~ In k (map fst (obj_rest k o)).
Proof.
  intros Hnd. split.
  - unfold obj_rest. induction o as [|[k' v] o IH]; simpl; [constructor|].
    inversion Hnd as [|? ? Hk Hnd']; subst.
    destruct (String.eqb k k'); simpl; [now apply IH|].
    constructor; [|now apply IH].
    intros Hin. apply Hk. apply in_map_iff in Hin.
    destruct Hin as [[k0 v0] [Heq Hin]]. apply filter_In in Hin.
    destruct Hin as [Hin _]. simpl in Heq. subst k0.
    change k' with (fst (k', v0)). now apply in_map.
  - intros Hin. apply obj_has_in in Hin. now rewrite obj_has_rest in Hin.
Qed.

(** *** Property order *)

Lemma obj_set_named (k : string) (v : JsValue) (o : JsObject) :
  obj_has k o = false -> array_index k = None ->
  obj_set k v o = (o ++ [(k, v)])%list.
Proof. unfold obj_set. now intros -> ->. Qed.

Lemma indices_below_weaken (low low' : Z) (o : JsObject) :
  (low <= low')%Z -> More.indices_below low o = true ->
  More.indices_below low' o = true.
Proof.
  intros Hle. unfold More.indices_below. rewrite !forallb_forall.
  intros H kv Hin. specialize (H kv Hin).
  destruct (array_index (fst kv)); [|discriminate].
  apply Z.ltb_lt in H. apply Z.ltb_lt. lia.
Qed.

(** A new array index goes after the smaller indices and before the keys
    that are no index. *)
Lemma obj_add_index_after (i : Z) (k : string) (v : JsValue) (I N : JsObject) :
  More.indices_below i I = true -> More.all_named N = true ->
  obj_add_index i k v (I ++ N)%list = (I ++ (k, v) :: N)%list.
Proof.
  intros HI HN. induction I as [|[k0 v0] I IH]; simpl.
  - destruct N as [|[k1 v1] N]; [reflexivity|].
    simpl in HN. apply andb_true_iff in HN. destruct HN as [HN _].
    unfold More.is_index in HN. simpl in *.
    destruct (array_index k1); [discriminate|reflexivity].
  - simpl in HI. apply andb_true_iff in HI. destruct HI as [H1 H2].
    destruct (array_index k0) as [j|]; [|discriminate].
    rewrite H1. now rewrite IH.
Qed.

Lemma named_in_order (low : Z) (o : JsObject) :
  More.all_named o = true -> More.property_order_from low o = true.
Proof.
  destruct o as [|[k v] o]; simpl; [reflexivity|].
  intros H. apply andb_true_iff in H. destruct H as [H1 H2].
  unfold More.is_index in H1. simpl in H1.
  destruct (array_index k); [discriminate|exact H2].
Qed.

Lemma property_order_weaken (o : JsObject) (low low' : Z) :
  (low <= low')%Z -> More.property_order_from low' o = true ->
  More.property_order_from low o = true.
Proof.
  destruct o as [|[k v] o]; simpl; [reflexivity|].
  destruct (array_index k) as [i|]; [|auto].
  intros Hle H. apply andb_true_iff in H. destruct H as [H1 H2].
  apply Z.leb_le in H1. rewrite H2, andb_true_r. apply Z.leb_le. lia.
Qed.

Lemma all_named_filter (f : string * JsValue -> bool) (o : JsObject) :
  More.all_named o = true -> More.all_named (filter f o) = true.
Proof.
  unfold More.all_named. rewrite !forallb_forall.
  intros H kv Hin. apply filter_In in Hin. now apply H.
Qed.

(** Taking members out of an object leaves the others in property
    order. *)
Lemma property_order_filter (f : string * JsValue -> bool) (o : JsObject) :
  forall low, More.property_order_from low o = true ->
              More.property_order_from low (filter f o) = true.
Proof.
  induction o as [|[k v] o IH]; intros low; simpl; [auto|].
  destruct (array_index k) as [i|] eqn:Ek.
  - intros H. apply andb_true_iff in H. destruct H as [H1 H2].
    destruct (f (k, v)); simpl.
    + rewrite Ek, H1. simpl. now apply IH.
    + apply (property_order_weaken _ low (i + 1)).
      * apply Z.leb_le in H1. lia.
      * now apply IH.
  - intros H. destruct (f (k, v)); simpl.
    + rewrite Ek. now apply all_named_filter.
    + apply named_in_order. now apply all_named_filter.
Qed.

Lemma all_named_members (o : JsObject) :
  More.all_named o = true ->
  More.index_members o = [] /\ More.named_members o = o.
Proof.
  unfold More.index_members, More.named_members.
  induction o as [|kv o IH]; simpl; [auto|].
  intros H. apply andb_true_iff in H. destruct H as [H1 H2].
  destruct (IH H2) as [Hi Hn].
  destruct (More.is_index kv); [discriminate|]. simpl. now rewrite Hi, Hn.
Qed.

Lemma members_cons_index (k : string) (v : JsValue) (o : JsObject) (i : Z) :
  array_index k = Some i ->
  More.index_members ((k, v) :: o) = (k, v) :: More.index_members o
  /\ More.named_members ((k, v) :: o) = More.named_members o.
Proof.
  intros H. unfold More.index_members, More.named_members, More.is_index.
  simpl. rewrite H. split; reflexivity.
Qed.

Lemma members_cons_named (k : string) (v : JsValue) (o : JsObject) :
  array_index k = None ->
  More.index_members ((k, v) :: o) = More.index_members o
  /\ More.named_members ((k, v) :: o) = (k, v) :: More.named_members o.
Proof.
  intros H. unfold More.index_members, More.named_members, More.is_index.
  simpl. rewrite H. split; reflexivity.
Qed.

(** An object in property order is its indexed members followed by the
    others. *)
Lemma property_order_split (o : JsObject) :
  forall low, More.property_order_from low o = true ->
              (More.index_members o ++ More.named_members o)%list = o.
Proof.
  induction o as [|[k v] o IH]; intros low H; [reflexivity|].
  simpl in H. destruct (array_index k) as [i|] eqn:Ek.
  - destruct (members_cons_index k v o i Ek) as [-> ->].
    apply andb_true_iff in H. destruct H as [_ H].
    simpl. f_equal. exact (IH _ H).
  - destruct (members_cons_named k v o Ek) as [-> ->].
    destruct (all_named_members o H) as [-> ->]. reflexivity.
Qed.

(** The spread of an object in property order: its indices join the
    indices of the target, its other members go last. *)
Lemma obj_spread_in_order (src : JsObject) :
  forall (low : Z) (I N : JsObject),
    More.indices_below low I = true ->
    More.all_named N = true ->
    More.property_order_from low src = true ->
    NoDup (map fst src) ->
    (forall k, In k (map fst src) -> obj_has k (I ++ N)%list = false) ->
    obj_spread (I ++ N)%list src
    = (I ++ More.index_members src ++ N ++ More.named_members src)%list.
Proof.
  induction src as [|[k x] src IH]; intros low I N HI HN Hord Hnd Hfresh.
  - simpl. now rewrite app_nil_r.
  - inversion Hnd as [|? ? Hk Hnd']; subst.
    assert (Hkf : obj_has k (I ++ N)%list = false) by (apply Hfresh; now left).
    assert (Hrest : forall T, (forall k', obj_has k' T
                                          = String.eqb k' k || obj_has k' (I ++ N)%list) ->
                              forall k', In k' (map fst src) -> obj_has k' T = false).
    { intros T HT k' Hk'. rewrite HT, (Hfresh k') by now right.
      rewrite orb_false_r. apply String.eqb_neq. intros ->. contradiction. }
    change (obj_spread (I ++ N)%list ((k, x) :: src))
      with (obj_spread (obj_set k x (I ++ N)%list) src).
    simpl in Hord. destruct (array_index k) as [i|] eqn:Ek;
      [destruct (members_cons_index k x src i Ek) as [-> ->]
      |destruct (members_cons_named k x src Ek) as [-> ->]].
    + apply andb_true_iff in Hord. destruct Hord as [Hlow Hord].
      apply Z.leb_le in Hlow.
      assert (Hset : obj_set k x (I ++ N)%list = ((I ++ [(k, x)]) ++ N)%list).
      { unfold obj_set. rewrite Hkf, Ek.
        rewrite obj_add_index_after;
          [now rewrite <- app_assoc
          |now apply (indices_below_weaken low)|exact HN]. }
      rewrite Hset.
      rewrite (IH (i + 1)%Z (I ++ [(k, x)])%list N).
      * simpl. now rewrite <- !app_assoc.
      * unfold More.indices_below. rewrite forallb_app. apply andb_true_iff. split.
        -- apply (indices_below_weaken low); [lia|exact HI].
        -- simpl. rewrite Ek, andb_true_r. apply Z.ltb_lt. lia.
      * exact HN.
      * exact Hord.
      * exact Hnd'.
      * apply Hrest. intros k'.
        rewrite !obj_has_app, !obj_has_cons.
        change (obj_has k' []) with false.
        now destruct (obj_has k' I), (obj_has k' N), (String.eqb k' k).
    + assert (Hset : obj_set k x (I ++ N)%list = (I ++ (N ++ [(k, x)]))%list).
      { unfold obj_set. rewrite Hkf, Ek. now rewrite <- app_assoc. }
      rewrite Hset.
      rewrite (IH low I (N ++ [(k, x)])%list).
      * simpl. now rewrite <- !app_assoc.
      * exact HI.
      * unfold More.all_named. rewrite forallb_app. apply andb_true_iff.
        split; [exact HN|]. simpl. unfold More.is_index. simpl. now rewrite Ek.
      * now apply named_in_order.
      * exact Hnd'.
      * apply Hrest. intros k'.
        rewrite !obj_has_app, !obj_has_cons.
        change (obj_has k' []) with false.
        now destruct (obj_has k' I), (obj_has k' N), (String.eqb k' k).
Qed.

(** X17. For arguments with distinct keys, in property order (what a
    decoded object gives: the array indices first and ascending, then the
    other keys), [generate_email_content] posts to [/campaigns/generate]
    the body that holds first the arguments whose key is an array index,
    then [prompt], then the other arguments in their order; and
    [create_session] posts the arguments without [eventId], followed by
    [eventId] as the last member. *)
Theorem spread_bodies (client : NeventClient) (args : JsObject) (env : Env)
    (m p : string) (b : JsValue) (ps : option JsObject) :
  NoDup (map fst args) ->
  More.property_order args = true ->
  (In (Requested m p b ps)
      (trace_of (call_tool client "generate_email_content" args) env) ->
   m = "POST" /\ p = "/campaigns/generate"
   /\ b = JObj (More.index_members (obj_rest "prompt" args)
                ++ ("prompt", obj_get "prompt" args)
                   :: More.named_members (obj_rest "prompt" args))%list)
  /\ (In (Requested m p b ps)
         (trace_of (call_tool client "create_session" args) env) ->
      m = "POST"
      /\ b = JObj (obj_rest "eventId" args
                   ++ [("eventId", obj_get "eventId" args)])%list).
Proof.
  intros Hnd Hord. split; intros H; unfold trace_of in H;
    erewrite call_tool_case in H by reflexivity; requested H.
  - split; [reflexivity|split; [reflexivity|]].
    destruct (obj_rest_keys "prompt" args Hnd) as [Hr Hn].
    assert (Hfresh : forall k, In k (map fst (obj_rest "prompt" args)) ->
                               obj_has k [("prompt", obj_get "prompt" args)] = false).
    { intros k Hk. unfold obj_has. simpl. rewrite orb_false_r.
      apply String.eqb_neq. intros ->. contradiction. }
    pose proof (obj_spread_in_order (obj_rest "prompt" args) 0 []
                  [("prompt", obj_get "prompt" args)] eq_refl eq_refl
                  (property_order_filter _ _ 0 Hord) Hr Hfresh) as Hs.
    simpl app in Hs. now rewrite Hs.
  - split; [reflexivity|].
    destruct (obj_rest_keys "eventId" args Hnd) as [Hr Hn].
    assert (Hrest : More.property_order_from 0 (obj_rest "eventId" args) = true)
      by now apply property_order_filter.
    pose proof (obj_spread_in_order (obj_rest "eventId" args) 0 [] []
                  eq_refl eq_refl Hrest Hr (fun _ _ => eq_refl)) as Hs.
    simpl app in Hs. rewrite Hs, (property_order_split _ 0 Hrest).
    rewrite obj_set_named; [reflexivity|apply obj_has_rest|reflexivity].
Qed.

Lemma spread_bodies_witness :
  NoDup (map fst More.indexed_args)
  /\ More.property_order More.indexed_args = true
  /\ In (Requested "POST" "/campaigns/generate"
           (JObj [("7", JStr "x"); ("prompt", JStr "hi"); ("tone", JStr "formal")])
           None)
        (trace_of (call_tool Examples.client "generate_email_content"
                     More.indexed_args)
           (Examples.always Examples.ok_empty))
  /\ JObj [("7", JStr "x"); ("prompt", JStr "hi"); ("tone", JStr "formal")]
     = JObj (More.index_members (obj_rest "prompt" More.indexed_args)
             ++ ("prompt", obj_get "prompt" More.indexed_args)
                :: More.named_members (obj_rest "prompt" More.indexed_args))%list.
Proof.
  assert (Hnd : NoDup (map fst More.indexed_args)).
  { repeat (constructor; [simpl; intuition discriminate|]). constructor. }
  assert (Hin : In (Requested "POST" "/campaigns/generate"
           (JObj [("7", JStr "x"); ("prompt", JStr "hi"); ("tone", JStr "formal")])
           None)
        (trace_of (call_tool Examples.client "generate_email_content"
                     More.indexed_args)
           (Examples.always Examples.ok_empty))).
  { vm_compute. left. reflexivity. }
  split; [exact Hnd|split; [reflexivity|split; [exact Hin|]]].
  exact (proj2 (proj2 (proj1 (spread_bodies Examples.client More.indexed_args
                                (Examples.always Examples.ok_empty)
                                "POST" "/campaigns/generate"
                                (JObj [("7", JStr "x"); ("prompt", JStr "hi");
                                       ("tone", JStr "formal")]) None
                                Hnd eq_refl)
                         Hin))).
Defined.

(** X18. The create tools and [export_users] post the argument bag as it
    is, whatever keys it holds: the body of the request is the bag, and the
    payload of the call of [fetch] is its serialisation. *)
Theorem bag_is_posted_whole (client : NeventClient) (name path : string)
    (args : JsObject) (env : Env) :
  In (name, path) More.bag_posts ->
  (forall m p b ps,
      In (Requested m p b ps) (trace_of (call_tool client name args) env) ->
      m = "POST" /\ p = path /\ b = JObj args /\ ps = None)
  /\ (forall call,
        In (Fetched call) (trace_of (call_tool client name args) env) ->
        init_body (fetch_init call) = JSON_stringify (JObj args)).
Proof.
  intros Hin.
  assert (Hreq : forall m p b ps,
      In (Requested m p b ps) (trace_of (call_tool client name args) env) ->
      m = "POST" /\ p = path /\ b = JObj args /\ ps = None).
  { intros m p b ps H. unfold trace_of in H. simpl in Hin.
    repeat (destruct Hin as [Hin|Hin];
      [ inversion Hin; subst; clear Hin;
        erewrite call_tool_case in H by reflexivity; requested H;
        repeat split
      | ]).
    contradiction. }
  split; [exact Hreq|].
  intros call Hf.
  destruct (call_tool_fetch_of_request client name args env call Hf)
    as [m [p [b [ps [Hr Hprep]]]]].
  destruct (Hreq m p b ps Hr) as (-> & _ & -> & _).
  apply prepare_init in Hprep. rewrite Hprep. reflexivity.
Qed.

Lemma bag_is_posted_whole_witness :
  In ("create_user", "/users") More.bag_posts
  /\ In (Requested "POST" "/users"
           (JObj [("email", JStr "a@x.org"); ("nickname", JStr "al")]) None)
        (trace_of (call_tool Examples.client "create_user"
                     [("email", JStr "a@x.org"); ("nickname", JStr "al")])
           (Examples.always Examples.ok_empty))
  /\ JObj [("email", JStr "a@x.org"); ("nickname", JStr "al")]
     = JObj [("email", JStr "a@x.org"); ("nickname", JStr "al")].
Proof.
  assert (Hb : In ("create_user", "/users") More.bag_posts) by (left; reflexivity).
  assert (Hin : In (Requested "POST" "/users"
           (JObj [("email", JStr "a@x.org"); ("nickname", JStr "al")]) None)
        (trace_of (call_tool Examples.client "create_user"
                     [("email", JStr "a@x.org"); ("nickname", JStr "al")])
           (Examples.always Examples.ok_empty))).
  { vm_compute. left. reflexivity. }
  split; [exact Hb|split; [exact Hin|]].
  exact (proj1 (proj2 (proj2 (proj1 (bag_is_posted_whole Examples.client
                                       "create_user" "/users"
                                       [("email", JStr "a@x.org");
                                        ("nickname", JStr "al")]
                                       (Examples.always Examples.ok_empty) Hb)
                                _ _ _ _ Hin)))).
Defined.

(** ** The query mapping of each tool *)

(** X19. A tool that sends a query sends exactly the fields its function
    names, in that order, whatever other arguments it was given; the value
    of a field is the argument of that name, or the documented default when
    the code applies one and the argument is [undefined] or [null]. The
    other tools send no query. *)
Theorem query_holds_named_fields (client : NeventClient) (name : string)
    (args : JsObject) (env : Env) (m p : string) (b : JsValue)
    (ps : option JsObject) :
  In (Requested m p b ps) (trace_of (call_tool client name args) env) ->
  (forall keys,
      In (name, keys) More.query_fields_table ->
      exists mapping,
        ps = Some mapping
        /\ map fst mapping = keys
        /\ forall k v,
             In (k, v) mapping ->
             v = obj_get k args
             \/ ((obj_get k args = JUndefined \/ obj_get k args = JNull)
                 /\ In (name, k, v) Spec.documented_defaults))
  /\ (~ In name (map fst More.query_fields_table) -> ps = None).
Proof.
  unfold trace_of, call_tool.
  destruct (find_case name) as [c|] eqn:E; [|simpl; contradiction].
  apply find_case_some in E. destruct E as [Hin <-].
  revert Hin. unfold cases, user_cases, campaign_cases, lineup_cases. simpl In.
  intros Hin H.
  repeat (destruct Hin as [<-|Hin];
    [ requested H; cbn [fst]; split;
      [ intros keys Hk; simpl in Hk;
        repeat (destruct Hk as [Hk|Hk];
          [ first
              [ discriminate Hk
              | inversion Hk; subst; clear Hk;
                eexists; split; [reflexivity|split; [reflexivity|]];
                intros k v Hkv; unfold page_of, size_of, field in Hkv;
                simpl in Hkv;
                repeat (destruct Hkv as [Hkv|Hkv];
                  [ inversion Hkv; subst; clear Hkv;
                    first
                      [ left; reflexivity
                      | match goal with
                        | |- context [obj_get ?key args] =>
                            destruct (obj_get key args); simpl;
                            first
                              [ left; reflexivity
                              | right; split; [auto|vm_compute; auto 30] ]
                        end ]
                  | ]);
                contradiction ]
          | ]);
        contradiction
      | first [ intros _; reflexivity
              | intros Hn; exfalso; apply Hn; simpl; auto 20 ] ]
    | ]).
  contradiction.
Qed.

Lemma query_holds_named_fields_witness :
  In (Requested "GET" "/users/u1/purchases" JUndefined
        (Some [("page", JNum 0); ("size", JNum 5)]))
     (trace_of (call_tool Examples.client "get_user_purchases"
                  [("userId", JStr "u1"); ("size", JNum 5); ("debug", JBool true)])
        (Examples.always Examples.ok_empty))
  /\ In ("get_user_purchases", ["page"; "size"]) More.query_fields_table
  /\ exists mapping,
       Some [("page", JNum 0); ("size", JNum 5)] = Some mapping
       /\ map fst mapping = ["page"; "size"]
       /\ forall k v,
            In (k, v) mapping ->
            v = obj_get k [("userId", JStr "u1"); ("size", JNum 5);
                           ("debug", JBool true)]
            \/ ((obj_get k [("userId", JStr "u1"); ("size", JNum 5);
                            ("debug", JBool true)] = JUndefined
                 \/ obj_get k [("userId", JStr "u1"); ("size", JNum 5);
                               ("debug", JBool true)] = JNull)
                /\ In ("get_user_purchases", k, v) Spec.documented_defaults).
Proof.
  assert (Hin : In (Requested "GET" "/users/u1/purchases" JUndefined
        (Some [("page", JNum 0); ("size", JNum 5)]))
     (trace_of (call_tool Examples.client "get_user_purchases"
                  [("userId", JStr "u1"); ("size", JNum 5); ("debug", JBool true)])
        (Examples.always Examples.ok_empty))).
  { vm_compute. left. reflexivity. }
  assert (Ht : In ("get_user_purchases", ["page"; "size"]) More.query_fields_table)
    by (simpl; auto).
  split; [exact Hin|split; [exact Ht|]].
  exact (proj1 (query_holds_named_fields Examples.client "get_user_purchases"
                  [("userId", JStr "u1"); ("size", JNum 5); ("debug", JBool true)]
                  (Examples.always Examples.ok_empty)
                  "GET" "/users/u1/purchases" JUndefined
                  (Some [("page", JNum 0); ("size", JNum 5)]) Hin)
           ["page"; "size"] Ht).
Defined.

(** ** The catalogue *)

Lemma find_case_registered (n : string) :
  find_case n <> None <-> In n (map fst cases).
Proof.
  split.
  - intros H. destruct (find_case n) as [c|] eqn:E; [|contradiction].
    apply find_case_some in E. destruct E as [Hin <-]. now apply in_map.
  - intros Hin H. unfold find_case in H.
    apply in_map_iff in Hin. destruct Hin as [c [Heq Hin]].
    pose proof (find_none _ _ H c Hin) as Hf. simpl in Hf.
    rewrite <- Heq, String.eqb_refl in Hf. discriminate Hf.
Qed.

(** X20. The catalogue and the switch agree: the names of the listed tools
    are pairwise distinct, a name is listed exactly when the switch has a
    case for it, and in every schema the required names are declared
    properties and include every argument that the case puts into the
    path. *)
Theorem catalogue_agrees_with_the_switch :
  NoDup (map name allToolDefinitions)
  /\ (forall n, In n (map name list_tools_handler) <-> find_case n <> None)
  /\ (forall t, In t allToolDefinitions ->
        (forall r, In r (required t) -> In r (map fst (properties t)))
        /\ (forall k, In k (Spec.path_fields (name t)) -> In k (required t))).
Proof.
  split; [|split].
  - assert (H : nodup string_dec (map name allToolDefinitions)
                = map name allToolDefinitions) by (vm_compute; reflexivity).
    rewrite <- H. apply NoDup_nodup.
  - intros n. unfold list_tools_handler.
    rewrite catalogue_matches_switch. symmetry. apply find_case_registered.
  - assert (H : forallb More.schema_agrees allToolDefinitions = true)
      by (vm_compute; reflexivity).
    rewrite forallb_forall in H. intros t Ht. specialize (H t Ht).
    unfold More.schema_agrees in H. apply andb_true_iff in H.
    destruct H as [H1 H2]. rewrite forallb_forall in H1, H2.
    split.
    + intros r Hr. specialize (H1 r Hr). unfold More.member in H1.
      apply existsb_exists in H1. destruct H1 as [x [Hx Heq]].
      apply String.eqb_eq in Heq. now subst.
    + intros k Hk. specialize (H2 k Hk). unfold More.member in H2.
      apply existsb_exists in H2. destruct H2 as [x [Hx Heq]].
      apply String.eqb_eq in Heq. now subst.
Qed.

(** ** Optional members of a body *)

Lemma serialize_defined (gap indent : string) (v : JsValue) :
  v <> JUndefined -> exists s, json_serialize gap indent v = Some s.
Proof.
  destruct v as [| |bb|n|s|items|members]; intros H; simpl;
    try (eexists; reflexivity).
  - contradiction.
  - destruct bb; eexists; reflexivity.
  - match goal with |- context [match ?l with [] => _ | _ :: _ => _ end] =>
      destruct l end; [|destruct (String.eqb gap "")]; eexists; reflexivity.
  - match goal with |- context [match ?l with [] => _ | _ :: _ => _ end] =>
      destruct l end; [|destruct (String.eqb gap "")]; eexists; reflexivity.
Qed.

Lemma stringify_skips_undefined (o : JsObject) :
  JSON_stringify (JObj o) = JSON_stringify (JObj (filter More.defined o)).
Proof.
  unfold JSON_stringify. simpl.
  match goal with
  | |- match ?a with _ => _ end = match ?b with _ => _ end =>
      assert (Hab : a = b); [|now rewrite Hab]
  end.
  induction o as [|[k v] o IH]; [reflexivity|].
  destruct v; simpl; rewrite IH; reflexivity.
Qed.

(** X21. A tool whose case builds the body from named arguments sends in
    its payload only the arguments that were supplied: one that is omitted
    is left out of the JSON text, not sent as [null]. *)
Theorem omitted_members_are_not_sent (client : NeventClient) (name : string)
    (keys : list string) (args : JsObject) (env : Env) (call : FetchCall) :
  In (name, keys) More.named_bodies ->
  In (Fetched call) (trace_of (call_tool client name args) env) ->
  init_body (fetch_init call)
  = JSON_stringify (JObj (filter More.defined (More.pick keys args))).
Proof.
  intros Hn Hf.
  destruct (call_tool_fetch_of_request client name args env call Hf)
    as [m [p [b [ps [Hr Hprep]]]]].
  apply prepare_init in Hprep. rewrite Hprep. simpl init_body.
  rewrite <- stringify_skips_undefined.
  unfold trace_of in Hr. simpl in Hn.
  repeat (destruct Hn as [Hn|Hn];
    [ inversion Hn; subst; clear Hn;
      erewrite call_tool_case in Hr by reflexivity; requested Hr; reflexivity
    | ]).
  contradiction.
Qed.

Lemma omitted_members_are_not_sent_witness :
  exists call,
    In ("link_performer_spotify", ["spotifyId"; "overrideData"]) More.named_bodies
    /\ In (Fetched call)
          (trace_of (call_tool Examples.client "link_performer_spotify"
                       [("performerId", JStr "p1"); ("spotifyId", JStr "s9")])
             (Examples.always Examples.ok_empty))
    /\ init_body (fetch_init call)
       = Some ("{" ++ json_quote "spotifyId" ++ ":" ++ json_quote "s9" ++ "}").
Proof.
  assert (Hn : In ("link_performer_spotify", ["spotifyId"; "overrideData"])
                  More.named_bodies) by (simpl; auto).
  eexists. split; [exact Hn|].
  assert (Hin : In (Fetched
                      {| fetch_url :=
                           "https://api.nevent.io/admin/performers/p1/link-spotify";
                         fetch_init :=
                           {| init_method := "POST";
                              init_headers := Examples.standard_headers;
                              init_body :=
                                Some ("{" ++ json_quote "spotifyId" ++ ":"
                                      ++ json_quote "s9" ++ "}") |} |})
          (trace_of (call_tool Examples.client "link_performer_spotify"
                       [("performerId", JStr "p1"); ("spotifyId", JStr "s9")])
             (Examples.always Examples.ok_empty))).
  { vm_compute. right. left. reflexivity. }
  split; [exact Hin|].
  exact (omitted_members_are_not_sent Examples.client "link_performer_spotify"
           ["spotifyId"; "overrideData"]
           [("performerId", JStr "p1"); ("spotifyId", JStr "s9")]
           (Examples.always Examples.ok_empty) _ Hn Hin).
Defined.
